(** * Fensterkraftwerk backend: the MQTT ingestion and command-relay service

    A shallow embedding of [app/mqtt_service.py] (class [MQTTService]) and of
    the live endpoint of [app/main.py] ([get_live_data]), with the Python
    library behaviour the two files rely on ([json], [datetime], [int],
    paho-mqtt 1.x and httpx) written out next to them.

    Conventions.
    - A Python [str] or [bytes] value is a [string]; a character is a code
      point below 256.
    - A value produced by [json.loads] is a [json] tree; [None] is [JNull],
      a [dict] is [JDict] (insertion ordered, unique keys), a [list] is
      [JList]. A [float] is kept as the decimal it was written as
      ([JFloat]); the value Python makes of it is the nearest double, an
      infinity when the decimal is out of range ([float_overflows]).
      [JNaN] and [JInfinity] are the values of the literals [NaN],
      [Infinity] and [-Infinity], which [json.loads] accepts.
    - The object returned by [json.loads] lives in a heap and the service
      holds a reference to it, as in Python.
    - Wall-clock time is an integer number of microseconds since
      0001-01-01T00:00:00 (UTC), the resolution and origin of [datetime]. *)

From Stdlib Require Import ZArith List String Ascii Bool Lia.
From Stdlib Require Import DecimalString.
Import ListNotations.
Set Warnings "-register-all".
Open Scope string_scope.
Open Scope Z_scope.

(* ================================================================= *)
(** ** Exceptions and results *)

(** The exception classes that occur; every one of them derives from
    [Exception], so [except Exception] catches each. [JSONDecodeError] and
    [UnicodeDecodeError] derive from [ValueError]. *)
Inductive exn : Type :=
| JSONDecodeError
| UnicodeDecodeError
| ValueError
| AttributeError
| TypeError
| OverflowError
| IndexError
| RuntimeError
| OSError                       (* socket and TLS failures *)
| TransportError                (* httpx.TransportError: the request failed *)
| HTTPException (status : Z).   (* fastapi.HTTPException *)

Inductive result (A : Type) : Type :=
| Ok (a : A)
| Raise (e : exn).
Arguments Ok {A} a.
Arguments Raise {A} e.

(** What becomes of a call: it returns, with a value or an exception, or
    it blocks and never comes back. A [result] is read as the call that
    returns it. *)
Inductive outcome (A : Type) : Type :=
| Returns (r : result A)
| Blocks.
Arguments Returns {A} r.
Arguments Blocks {A}.
Coercion Returns : result >-> outcome.
Arguments pair {A B} & a b.

Definition is_ok {A} (r : outcome A) : bool :=
  match r with Returns (Ok _) => true | _ => false end.

(* ================================================================= *)
(** ** JSON values and [dict.get] *)

Inductive json : Type :=
| JNull
| JBool (b : bool)
| JInt (z : Z)
| JFloat (mantissa exponent : Z)    (* mantissa * 10 ^ exponent, as written *)
| JStr (s : string)
| JList (items : list json)
| JDict (items : list (string * json))
| JNaN
| JInfinity (negative : bool).

Fixpoint assoc (k : string) (kvs : list (string * json)) : option json :=
  match kvs with
  | [] => None
  | (k', v) :: rest => if String.eqb k k' then Some v else assoc k rest
  end.

(** [d[k] = v] on a dict: an existing key keeps its position. *)
Fixpoint dict_set (k : string) (v : json) (kvs : list (string * json))
  : list (string * json) :=
  match kvs with
  | [] => [(k, v)]
  | (k', v') :: rest =>
      if String.eqb k k' then (k, v) :: rest else (k', v') :: dict_set k v rest
  end.

(** [x.get(k, default)]: only a dict has the method; on any other value
    the attribute lookup raises [AttributeError]. *)
Definition py_get (x : json) (k : string) (default : json) : result json :=
  match x with
  | JDict kvs => Ok match assoc k kvs with Some v => v | None => default end
  | _ => Raise AttributeError
  end.

Definition is_dict (x : json) : bool :=
  match x with JDict _ => true | _ => false end.

Definition keys (x : json) : list string :=
  match x with JDict kvs => map fst kvs | _ => [] end.

(** *** What [json.dumps(v, allow_nan=False)] refuses

    A float that is not finite, and an [int] of more than 4300 digits,
    which cannot be converted to [str]; both with [ValueError]. *)

(** Whether [str] can print an [int]: it has at most 4300 digits
    ([sys.int_info.default_max_str_digits]). *)
Definition printable (n : Z) : bool := Z.abs n <? 10 ^ 4300.
Arguments printable : simpl never.

(** The decimal [m * 10 ^ e] is read as an infinity: its magnitude is at
    least [2^1024 - 2^970], half a unit in the last place above the
    largest double. *)
Definition float_overflows (m e : Z) : bool :=
  let bound := 2 ^ 1024 - 2 ^ 970 in
  if 0 <=? e then bound <=? Z.abs m * 10 ^ e
  else bound * 10 ^ (- e) <=? Z.abs m.

Fixpoint json_compliant (v : json) : bool :=
  match v with
  | JNaN | JInfinity _ => false
  | JFloat m e => negb (float_overflows m e)
  | JInt z => printable z
  | JList items => forallb json_compliant items
  | JDict kvs =>
      (fix members (l : list (string * json)) : bool :=
         match l with
         | [] => true
         | (_, x) :: rest => json_compliant x && members rest
         end) kvs
  | _ => true
  end.
Arguments json_compliant : simpl never.

(* ================================================================= *)
(** ** Strings: slicing and [int(str)] *)

Fixpoint drop_last (s : string) : string :=
  match s with
  | EmptyString => EmptyString
  | String _ EmptyString => EmptyString
  | String c rest => String c (drop_last rest)
  end.

Fixpoint last_char (s : string) : option ascii :=
  match s with
  | EmptyString => None
  | String c EmptyString => Some c
  | String _ rest => last_char rest
  end.

(** [s[1:-1]]: never raises; empty when [len(s) < 2]. *)
Definition slice_1_m1 (s : string) : string :=
  match s with
  | EmptyString => EmptyString
  | String _ rest => drop_last rest
  end.

Definition is_digit (c : ascii) : bool :=
  let n := nat_of_ascii c in (48 <=? n)%nat && (n <=? 57)%nat.

Definition digit_val (c : ascii) : Z := Z.of_nat (nat_of_ascii c) - 48.

(** The characters [int] strips on both sides. *)
Definition is_space (c : ascii) : bool :=
  let n := nat_of_ascii c in
  ((9 <=? n)%nat && (n <=? 13)%nat) || (n =? 32)%nat || (n =? 133)%nat
  || (n =? 160)%nat.

Fixpoint lstrip (s : string) : string :=
  match s with
  | String c rest => if is_space c then lstrip rest else s
  | EmptyString => EmptyString
  end.

Fixpoint all_space (s : string) : bool :=
  match s with
  | EmptyString => true
  | String c rest => is_space c && all_space rest
  end.

(** Digits of a base-10 literal, one underscore allowed between two digits;
    stops at trailing white space, which must reach the end. [acc] is the
    value read so far and [prev] tells whether the previous character was a
    digit. *)
Fixpoint int_digits (s : string) (acc : Z) (prev : bool) : option Z :=
  match s with
  | EmptyString => if prev then Some acc else None
  | String c rest =>
      if is_digit c then int_digits rest (acc * 10 + digit_val c) true
      else if Ascii.eqb c "_" then
        if prev then
          match rest with
          | String d _ => if is_digit d then int_digits rest acc false else None
          | EmptyString => None
          end
        else None
      else if prev && all_space s then Some acc
      else None
  end.

(** How many digits a string holds; the sign, underscores and white
    space do not count, leading zeros do. *)
Fixpoint count_digits (s : string) : nat :=
  match s with
  | EmptyString => O
  | String c rest => if is_digit c then S (count_digits rest) else count_digits rest
  end.

(** [sys.int_info.default_max_str_digits]: a decimal literal with more
    digits is refused by [int] with [ValueError] (Python 3.11 and the
    releases that carry its fix). *)
Definition int_max_str_digits : nat := 4300.

(** [int(s)] for a [str] argument, base 10. *)
Definition py_int (s : string) : result Z :=
  let body := lstrip s in
  let parsed :=
    match body with
    | String c rest =>
        if Ascii.eqb c "-" then option_map Z.opp (int_digits rest 0 false)
        else if Ascii.eqb c "+" then int_digits rest 0 false
        else int_digits body 0 false
    | EmptyString => None
    end in
  match parsed with
  | Some z =>
      if (int_max_str_digits <? count_digits body)%nat then Raise ValueError
      else Ok z
  | None => Raise ValueError
  end.

(** The decimal digits of an [int], and [str(n)], which refuses an [int]
    of more than 4300 digits with [ValueError]. *)
Definition py_str_int (n : Z) : string :=
  NilZero.string_of_int (Z.to_int n).

Definition py_str (n : Z) : result string :=
  if printable n then Ok (py_str_int n) else Raise ValueError.

(* ================================================================= *)
(** ** [datetime] and [timedelta] *)

Definition us_per_second : Z := 1000000.
Definition us_per_hour : Z := 3600 * us_per_second.
Definition us_per_day : Z := 24 * us_per_hour.

(** A [timedelta] is a number of microseconds whose day count has
    magnitude at most 999999999. *)
Definition timedelta_in_range (us : Z) : bool :=
  (-999999999 <=? us / us_per_day) && (us / us_per_day <=? 999999999).

Inductive td_unit : Type := Hours | Days | Weeks.

Definition unit_us (u : td_unit) : Z :=
  match u with
  | Hours => us_per_hour
  | Days => us_per_day
  | Weeks => 7 * us_per_day
  end.

(** [timedelta] called with the one keyword [u] set to an [int] [n]. *)
Definition timedelta (u : td_unit) (n : Z) : result Z :=
  let us := n * unit_us u in
  if timedelta_in_range us then Ok us else Raise OverflowError.

(** A [datetime]: the wall-clock reading and the [tzinfo] offset
    ([None] for a naive value). *)
Record datetime : Type := mk_datetime {
  dt_us : Z;
  dt_offset : option Z
}.

(** [date.max.toordinal() = 3652059]: the last representable instant is
    9999-12-31T23:59:59.999999. *)
Definition datetime_max_us : Z := 3652059 * us_per_day - 1.

Definition datetime_in_range (us : Z) : bool :=
  (0 <=? us) && (us <=? datetime_max_us).

(** [dt - delta]. *)
Definition datetime_minus (dt : datetime) (delta : Z) : result datetime :=
  let us := dt_us dt - delta in
  if datetime_in_range us then Ok (mk_datetime us (dt_offset dt))
  else Raise OverflowError.

(** [a - b] for two datetimes: defined when both are naive or both are
    aware, [TypeError] for a mix. *)
Definition datetime_diff (a b : datetime) : result Z :=
  match dt_offset a, dt_offset b with
  | None, None => Ok (dt_us a - dt_us b)
  | Some oa, Some ob => Ok ((dt_us a - oa) - (dt_us b - ob))
  | _, _ => Raise TypeError
  end.

(** Calendar conversion, after [_ord2ymd] of the [datetime] module; [n] is
    the proleptic Gregorian ordinal, 1 for 0001-01-01. *)
Definition days_before_month (m : Z) : Z :=
  nth (Z.to_nat m) [0; 0; 31; 59; 90; 120; 151; 181; 212; 243; 273; 304; 334] 0.

Definition days_in_month (m : Z) : Z :=
  nth (Z.to_nat m) [0; 31; 28; 31; 30; 31; 30; 31; 31; 30; 31; 30; 31] 0.

Definition ord2ymd (ordinal : Z) : Z * Z * Z :=
  let n := ordinal - 1 in
  let n400 := n / 146097 in
  let n := n mod 146097 in
  let n100 := n / 36524 in
  let n := n mod 36524 in
  let n4 := n / 1461 in
  let n := n mod 1461 in
  let n1 := n / 365 in
  let n := n mod 365 in
  let year := n400 * 400 + 1 + n100 * 100 + n4 * 4 + n1 in
  if (n1 =? 4) || (n100 =? 4) then (year - 1, 12, 31)
  else
    let leapyear := (n1 =? 3) && (negb (n4 =? 24) || (n100 =? 3)) in
    let month := Z.shiftr (n + 50) 5 in
    let preceding :=
      days_before_month month + (if (2 <? month) && leapyear then 1 else 0) in
    if n <? preceding then
      let month' := month - 1 in
      let preceding' :=
        preceding
        - (days_in_month month'
           + (if (month' =? 2) && leapyear then 1 else 0)) in
      (year, month', n - preceding' + 1)
    else (year, month, n - preceding + 1).

(** [%0*d]: a non-negative number padded with zeros to [width] digits. *)
Definition pad (width : nat) (n : Z) : string :=
  let digits := py_str_int n in
  let fix zeros (k : nat) : string :=
    match k with O => "" | S k' => String "0" (zeros k') end in
  zeros (width - String.length digits)%nat ++ digits.

(** [dt.isoformat()] of a naive datetime: the fraction is printed only
    when the microsecond field is not zero. *)
Definition isoformat (dt : datetime) : string :=
  let days := dt_us dt / us_per_day in
  let rest := dt_us dt mod us_per_day in
  let '(y, m, d) := ord2ymd (days + 1) in
  let hh := rest / us_per_hour in
  let mi := (rest mod us_per_hour) / (60 * us_per_second) in
  let ss := (rest mod (60 * us_per_second)) / us_per_second in
  let us := rest mod us_per_second in
  pad 4 y ++ "-" ++ pad 2 m ++ "-" ++ pad 2 d ++ "T"
  ++ pad 2 hh ++ ":" ++ pad 2 mi ++ ":" ++ pad 2 ss
  ++ (if us =? 0 then "" else "." ++ pad 6 us).

(** The UTC offset suffix of an aware datetime: [+HH:MM], with seconds
    only when they are not zero. *)
Definition offset_suffix (off : Z) : string :=
  let a := Z.abs off / us_per_second in
  (if off <? 0 then "-" else "+")
  ++ pad 2 (a / 3600) ++ ":" ++ pad 2 ((a mod 3600) / 60)
  ++ (if a mod 60 =? 0 then "" else ":" ++ pad 2 (a mod 60)).

Definition isoformat_any (dt : datetime) : string :=
  match dt_offset dt with
  | None => isoformat dt
  | Some off => isoformat dt ++ offset_suffix off
  end.

(* ================================================================= *)
(** ** Configuration ([app/config.py]) *)

Record Settings : Type := mk_settings {
  supabase_url : string;
  supabase_key : string;
  mqtt_host : string;
  mqtt_port : Z;
  mqtt_username : string;
  mqtt_password : string;
  mqtt_topic_data : string;
  mqtt_topic_command : string
}.

(** Truth value of a [str]: false exactly for the empty string. *)
Definition truthy (s : string) : bool :=
  match s with EmptyString => false | _ => true end.

(* ================================================================= *)
(** ** The library objects the service owns *)

(** httpx: a request and the part of a response the service looks at. *)
Inductive http_method : Type := GET | POST.

Record http_request : Type := mk_request {
  rq_method : http_method;
  rq_url : string;
  rq_headers : list (string * string);
  rq_params : list (string * string);
  rq_json : option json
}.

(** Whether httpx can build the request: a [json=] body is serialised
    with [allow_nan=False] (httpx 0.28) before anything is sent. *)
Definition request_encodable (rq : http_request) : bool :=
  match rq_json rq with
  | Some body => json_compliant body
  | None => true
  end.

Record response : Type := mk_response {
  status_code : Z;
  response_json : result json      (* what [response.json()] gives *)
}.

(** paho-mqtt 1.x: the connection state of a [Client] (the flag that
    [is_connected] reads), whether it holds a socket, whether its network
    loop thread runs, its subscriptions, and the messages with QoS above 0
    that [publish] has taken ([_out_messages]), each with the time at
    which it was handed over. A message leaves [_out_messages] when the
    broker acknowledges it; the list here keeps every message, and the
    ones still unacknowledged at a given time are computed from it
    ([unacknowledged] below). *)
Inductive conn_state : Type :=
| mqtt_cs_new
| mqtt_cs_connected
| mqtt_cs_disconnecting.

Record out_message : Type := mk_out_message {
  om_topic : string;
  om_payload : string;
  om_since : Z
}.

Record paho_client : Type := mk_client {
  cl_state : conn_state;
  cl_sock : bool;
  cl_thread : bool;
  cl_subscriptions : list (string * Z);
  cl_out_messages : list out_message
}.

Definition MQTT_ERR_SUCCESS : Z := 0.
Definition MQTT_ERR_QUEUE_SIZE : Z := 15.

(** [MQTTMessageInfo]: the return code of [publish] and the message id. *)
Record MQTTMessageInfo : Type := mk_info {
  rc : Z;
  mid : Z
}.

(* ================================================================= *)
(** ** The service object, the heap and the world *)

Definition loc : Type := nat.

(** The attributes of an [MQTTService] instance. *)
Record MQTTService : Type := mk_service {
  last_data : option loc;
  last_received : option datetime;
  client : paho_client;
  http_closed : bool               (* state of [self._http] *)
}.

Inductive level : Type := DEBUG | INFO | WARNING | ERROR.

(** What an execution does that can be seen from outside the function
    that runs, in the order in which it happens: log lines, assignments to
    the live attributes, HTTP requests sent, and what is handed to or
    awaited from the MQTT client. *)
Inductive event : Type :=
| EvLog (lvl : level) (msg : string)
| EvSetLastData (r : loc)
| EvSetLastReceived (t : datetime)
| EvHttp (rq : http_request)
| EvConnect (host : string) (port : Z)
| EvSubscribe (topic : string) (qos : Z)
| EvPublish (topic payload : string) (qos : Z)
| EvWait (waited : Z)
| EvDisconnectPacket.

Record world : Type := mk_world {
  self : MQTTService;
  heap : list json;
  now : Z;
  trace : list event
}.

(** What the surroundings answer: the JSON decoder, the remote store, the
    broker and the passing of time. *)
Record env : Type := mk_env {
  json_loads : string -> result json;  (* [json.loads(raw.decode("utf-8"))] *)
  store : http_request -> result response;
  clock_lag : Z -> N;                  (* time that passes before a clock reading *)
  broker_accepts : bool;               (* the TCP and TLS connection succeeds *)
  publish_result : string -> string -> result Z;
    (* rc of [publish]: 0 when the packet is written or left to the loop
       thread, 4 when the client holds no socket *)
  puback_after : option N
    (* microseconds from handing a message over until its PUBACK, if ever *)
}.

(* ================================================================= *)
(** ** Atomic actions and programs

    A method body is a [prog]: a tree of atomic actions, each continued
    with the outcome of the action. Run alone, a program is the sequential
    execution of the body ([run]); two programs can also be run in
    alternation, one atomic action at a time ([interleave]), which is how
    the network loop thread and a request handler share the service
    object. *)

Inductive action : Type -> Type :=
(* attributes of the service object *)
| GetLastData : action (option loc)
| SetLastData (r : loc) : action unit
| GetLastReceived : action (option datetime)
| SetLastReceived (t : datetime) : action unit
(* objects *)
| JsonLoads (raw : string) : action loc
| Deref (r : loc) : action json
(* the clock *)
| UtcNow : action datetime              (* [datetime.utcnow()] *)
| NowUtc : action datetime              (* [datetime.now(timezone.utc)] *)
(* logging *)
| Logger (lvl : level) (msg : string) : action unit
(* self._http *)
| HttpSend (rq : http_request) : action response
| HttpClose : action unit
(* self.client *)
| ClientConnect (host : string) (port keepalive : Z) : action unit
| ClientLoopStart : action unit
| ClientLoopStop : action unit
| ClientDisconnect : action unit
| ClientIsConnected : action bool
| ClientSubscribe (topic : string) (qos : Z) : action unit
| ClientPublish (topic payload : string) (qos : Z) : action MQTTMessageInfo
| WaitForPublish (info : MQTTMessageInfo) (timeout : Z) : action unit.

Inductive prog (A : Type) : Type :=
| Done (r : result A)
| Vis {X : Type} (a : action X) (k : result X -> prog A).
Arguments Done {A} r.
Arguments Vis {A X} a k.

Definition ret {A} (a : A) : prog A := Done (Ok a).
Definition raise {A} (e : exn) : prog A := Done (Raise e).
Definition lift {A} (r : result A) : prog A := Done r.
Definition perform {X} (a : action X) : prog X := Vis a Done.

Fixpoint bind {A B} (p : prog A) (f : A -> prog B) : prog B :=
  match p with
  | Done (Ok a) => f a
  | Done (Raise e) => Done (Raise e)
  | Vis a k => Vis a (fun r => bind (k r) f)
  end.

(** [try: body / except Exception as e: handler e]. *)
Fixpoint try_except {A} (body : prog A) (handler : exn -> prog A) : prog A :=
  match body with
  | Done (Ok a) => Done (Ok a)
  | Done (Raise e) => handler e
  | Vis a k => Vis a (fun r => try_except (k r) handler)
  end.

Declare Scope prog_scope.
Delimit Scope prog_scope with prog.
Bind Scope prog_scope with prog.
Notation "x <- m ;; k" := (bind m (fun x => k))
  (at level 61, m at next level, right associativity) : prog_scope.
Notation "m ;; k" := (bind m (fun _ => k))
  (at level 61, right associativity) : prog_scope.
Open Scope prog_scope.

(** *** One atomic action on the world *)

Definition set_self (w : world) (s : MQTTService) : world :=
  mk_world s (heap w) (now w) (trace w).

Definition set_client (w : world) (c : paho_client) : world :=
  set_self w (mk_service (last_data (self w)) (last_received (self w)) c
                         (http_closed (self w))).

Definition emit (ev : event) (w : world) : world :=
  mk_world (self w) (heap w) (now w) (trace w ++ [ev])%list.

Definition advance (d : Z) (w : world) : world :=
  mk_world (self w) (heap w) (now w + d) (trace w).

(** A message enters the client's [_out_messages]. *)
Definition take_message (m : out_message) (w : world) : world :=
  let c := client (self w) in
  set_client w (mk_client (cl_state c) (cl_sock c) (cl_thread c)
                          (cl_subscriptions c)
                          (cl_out_messages c ++ [m])%list).

Section Step.
Variable E : env.

Definition read_clock (offset : option Z) (w : world) : outcome datetime * world :=
  let w' := advance (Z.of_N (clock_lag E (now w))) w in
  (Ok (mk_datetime (now w') offset), w').

(** [Client.connect]: the state is reset, an old socket closed, and a new
    connection opened, which raises when the broker cannot be reached. *)
Definition client_connect (host : string) (port : Z) (w : world)
  : outcome unit * world :=
  let c := client (self w) in
  if broker_accepts E then
    (Ok tt, emit (EvConnect host port)
              (set_client w (mk_client mqtt_cs_new true (cl_thread c)
                                       (cl_subscriptions c)
                                       (cl_out_messages c))))
  else
    (Raise OSError,
     set_client w (mk_client mqtt_cs_new false (cl_thread c)
                             (cl_subscriptions c) (cl_out_messages c))).

(** [Client.disconnect]: the state becomes "disconnecting"; without a
    socket nothing else happens; with one and no loop thread the
    DISCONNECT packet is written at once and the socket closed; with a
    loop thread the packet is left to that thread. *)
Definition client_disconnect (w : world) : outcome unit * world :=
  let c := client (self w) in
  if cl_sock c then
    if cl_thread c then
      (Ok tt, set_client w (mk_client mqtt_cs_disconnecting true true
                                       (cl_subscriptions c)
                                       (cl_out_messages c)))
    else
      (Ok tt, emit EvDisconnectPacket
                (set_client w (mk_client mqtt_cs_disconnecting false false
                                         (cl_subscriptions c)
                                         (cl_out_messages c))))
  else
    (Ok tt, set_client w (mk_client mqtt_cs_disconnecting false (cl_thread c)
                                     (cl_subscriptions c)
                                     (cl_out_messages c))).

(** [MQTTMessageInfo.wait_for_publish(timeout)]: raises for a message
    that was not queued; otherwise blocks until the message is published
    or the timeout has passed, whichever is first, and returns [None] in
    both cases. *)
Definition wait_for_publish (info : MQTTMessageInfo) (timeout : Z) (w : world)
  : outcome unit * world :=
  if rc info =? MQTT_ERR_QUEUE_SIZE then (Raise ValueError, w)
  else if 0 <? rc info then (Raise RuntimeError, w)
  else
    let waited :=
      match puback_after E with
      | Some d => Z.min (Z.of_N d) (timeout * us_per_second)
      | None => timeout * us_per_second
      end in
    (Ok tt, emit (EvWait waited) (advance waited w)).

(** The messages of [_out_messages] at the time [t]: those whose PUBACK
    has not arrived by then. *)
Definition acknowledged (t : Z) (m : out_message) : bool :=
  match puback_after E with
  | Some d => om_since m + Z.of_N d <=? t
  | None => false
  end.

Definition unacknowledged (w : world) : list out_message :=
  filter (fun m => negb (acknowledged (now w) m))
         (cl_out_messages (client (self w))).

(** [Client.publish] with a QoS above 0 puts the message into
    [_out_messages] before it tries to write it, and leaves it there
    whatever the return code, to be sent (again) after the next CONNACK;
    only with [MQTT_ERR_QUEUE_SIZE] the message is not taken. Message ids
    are not modelled. *)
Definition client_publish (topic payload : string) (qos : Z) (w : world)
  : outcome MQTTMessageInfo * world :=
  match publish_result E topic payload with
  | Ok code =>
      let taken := (0 <? qos) && negb (code =? MQTT_ERR_QUEUE_SIZE) in
      let w1 :=
        if taken then take_message (mk_out_message topic payload (now w)) w
        else w in
      (Ok (mk_info code 1), emit (EvPublish topic payload qos) w1)
  | Raise e => (Raise e, w)
  end.

(** [Client.loop_stop]: without a loop thread it returns at once
    ([MQTT_ERR_INVAL]). With one it sets [_thread_terminate] and joins the
    thread. The thread leaves [loop_forever] when the socket is gone, or
    when no packet and no message is left in [_out_messages]; while the
    connection is up and a message is unacknowledged it keeps running, so
    the join lasts until the last PUBACK has arrived, and for ever when one
    never arrives. *)
Definition client_loop_stop (w : world) : outcome unit * world :=
  let c := client (self w) in
  let stopped :=
    set_client w (mk_client (cl_state c) (cl_sock c) false
                            (cl_subscriptions c) (cl_out_messages c)) in
  if cl_thread c && cl_sock c then
    match unacknowledged w with
    | [] => (Ok tt, stopped)
    | m :: rest =>
        match puback_after E with
        | Some d =>
            let last_puback :=
              fold_right Z.max (now w)
                (map (fun m => om_since m + Z.of_N d) (m :: rest)) in
            (Ok tt, advance (last_puback - now w) stopped)
        | None => (Blocks, w)
        end
    end
  else (Ok tt, stopped).

Definition step {X} (a : action X) (w : world) : outcome X * world :=
  match a in action X return outcome X * world with
  | GetLastData => (Ok (last_data (self w)), w)
  | SetLastData r =>
      (Ok tt, emit (EvSetLastData r)
                (set_self w (mk_service (Some r) (last_received (self w))
                                        (client (self w)) (http_closed (self w)))))
  | GetLastReceived => (Ok (last_received (self w)), w)
  | SetLastReceived t =>
      (Ok tt, emit (EvSetLastReceived t)
                (set_self w (mk_service (last_data (self w)) (Some t)
                                        (client (self w)) (http_closed (self w)))))
  | JsonLoads raw =>
      match json_loads E raw with
      | Ok v => (Ok (List.length (heap w)),
                 mk_world (self w) (heap w ++ [v])%list (now w) (trace w))
      | Raise e => (Raise e, w)
      end
  | Deref r => (Ok (nth r (heap w) JNull), w)
  | UtcNow => read_clock None w
  | NowUtc => read_clock (Some 0) w
  | Logger lvl msg => (Ok tt, emit (EvLog lvl msg) w)
  | HttpSend rq =>
      if negb (request_encodable rq) then (Raise ValueError, w)
      else if http_closed (self w) then (Raise RuntimeError, w)
      else (store E rq, emit (EvHttp rq) w)
  | HttpClose =>
      (Ok tt, set_self w (mk_service (last_data (self w)) (last_received (self w))
                                     (client (self w)) true))
  | ClientConnect host port _ => client_connect host port w
  | ClientLoopStart =>
      let c := client (self w) in
      (Ok tt, set_client w (mk_client (cl_state c) (cl_sock c) true
                                       (cl_subscriptions c)
                                       (cl_out_messages c)))
  | ClientLoopStop => client_loop_stop w
  | ClientDisconnect => client_disconnect w
  | ClientIsConnected =>
      (Ok match cl_state (client (self w)) with
          | mqtt_cs_connected => true
          | _ => false
          end, w)
  | ClientSubscribe topic qos =>
      let c := client (self w) in
      (Ok tt, emit (EvSubscribe topic qos)
                (set_client w (mk_client (cl_state c) (cl_sock c) (cl_thread c)
                                 (cl_subscriptions c ++ [(topic, qos)])%list
                                 (cl_out_messages c))))
  | ClientPublish topic payload qos => client_publish topic payload qos w
  | WaitForPublish info timeout => wait_for_publish info timeout w
  end.

(** Sequential execution of a program: it stops where an action
    blocks. *)
Fixpoint run {A} (p : prog A) (w : world) : outcome A * world :=
  match p with
  | Done r => (r, w)
  | Vis a k =>
      match step a w with
      | (Returns r, w') => run (k r) w'
      | (Blocks, w') => (Blocks, w')
      end
  end.

(** Two threads on one service object. A schedule names, slot by slot,
    the thread that performs its next atomic action; a thread that has
    finished, or whose next action blocks, lets its slot pass. *)
Inductive thread : Type := LoopThread | RequestThread.

Fixpoint interleave {A B} (sched : list thread) (p : prog A) (q : prog B)
  (w : world) : prog A * prog B * world :=
  match sched with
  | [] => (p, q, w)
  | LoopThread :: rest =>
      match p with
      | Vis a k =>
          match step a w with
          | (Returns r, w') => interleave rest (k r) q w'
          | (Blocks, _) => interleave rest p q w
          end
      | Done _ => interleave rest p q w
      end
  | RequestThread :: rest =>
      match q with
      | Vis a k =>
          match step a w with
          | (Returns r, w') => interleave rest p (k r) w'
          | (Blocks, _) => interleave rest p q w
          end
      | Done _ => interleave rest p q w
      end
  end.

(** The schedule first; what is left of the loop thread and then of the
    request thread runs to its end. *)
Definition run_both {A B} (sched : list thread) (p : prog A) (q : prog B)
  (w : world) : outcome A * outcome B * world :=
  let '(p', q', w1) := interleave sched p q w in
  let (ra, w2) := run p' w1 in
  let (rb, w3) := run q' w2 in
  (ra, rb, w3).

(** The CONNACK packet arrives on the loop thread: with return code 0
    the client is connected; the [on_connect] callback runs in both
    cases. *)
Definition connack (on_connect : Z -> prog unit) (code : Z) (w : world) : world :=
  let c := client (self w) in
  let w1 :=
    if code =? 0 then
      set_client w (mk_client mqtt_cs_connected (cl_sock c) (cl_thread c)
                              (cl_subscriptions c) (cl_out_messages c))
    else w in
  snd (run (on_connect code) w1).


End Step.

(* ================================================================= *)
(** ** [MQTTService] ([app/mqtt_service.py]) *)

(** A call of [logger.debug], [.info], [.warning] or [.error]; the
    message is the fixed part of the format string, in ASCII. *)
Definition log (lvl : level) (msg : string) : prog unit :=
  perform (Logger lvl msg).

(** The attributes after [__init__]: nothing received, a client that was
    never connected, an open HTTP client. *)
Definition __init__ : MQTTService :=
  mk_service None None (mk_client mqtt_cs_new false false [] []) false.

Section Service.
Variable settings : Settings.

(** [start]: connect and start the network loop, unless no host is
    configured; a failure to connect is logged. *)
Definition start : prog unit :=
  if negb (truthy (mqtt_host settings)) then
    log WARNING "MQTT_HOST nicht konfiguriert"
  else
    try_except
      (log INFO "Verbinde mit MQTT Broker" ;;
       perform (ClientConnect (mqtt_host settings) (mqtt_port settings) 60) ;;
       perform ClientLoopStart ;;
       log INFO "MQTT-Loop gestartet.")
      (fun e => log ERROR "MQTT-Verbindung fehlgeschlagen").

(** [stop]: stop the loop, disconnect, close the HTTP client; whatever
    is raised on the way is dropped. *)
Definition stop : prog unit :=
  try_except
    (perform ClientLoopStop ;;
     perform ClientDisconnect ;;
     perform HttpClose ;;
     log INFO "MQTT-Verbindung getrennt.")
    (fun _ => ret tt).

(** The paho callbacks; [client], [userdata] and [flags] are not used. *)
Definition _on_connect (rc : Z) : prog unit :=
  if rc =? 0 then
    log INFO "MQTT verbunden. Abonniere Topics..." ;;
    perform (ClientSubscribe (mqtt_topic_data settings) 1) ;;
    log INFO (mqtt_topic_data settings)
  else
    log ERROR "MQTT-Verbindung fehlgeschlagen".


(** [not settings.supabase_url or not settings.supabase_key]. *)
Definition store_unconfigured : bool :=
  negb (truthy (supabase_url settings)) || negb (truthy (supabase_key settings)).

Definition power_logs_url : string :=
  supabase_url settings ++ "/rest/v1/power_logs".

(** [_write_to_supabase]: the nested payload is flattened into one row;
    the four groups and then the seventeen columns are looked up in the
    order of the source, outside the [try] block, which holds the HTTP
    request only. *)
Definition _write_to_supabase (data : loc) : prog unit :=
  if store_unconfigured then
    log DEBUG "Supabase nicht konfiguriert"
  else
    d <- perform (Deref data) ;;
    pv <- lift (py_get d "pv" (JDict [])) ;;
    batt <- lift (py_get d "battery" (JDict [])) ;;
    load <- lift (py_get d "load" (JDict [])) ;;
    energy <- lift (py_get d "energy" (JDict [])) ;;
    device_id <- lift (py_get d "device_id" (JStr "unknown")) ;;
    pv_voltage <- lift (py_get pv "voltage" JNull) ;;
    pv_current <- lift (py_get pv "current" JNull) ;;
    pv_power <- lift (py_get pv "power" JNull) ;;
    batt_voltage <- lift (py_get batt "voltage" JNull) ;;
    batt_charge_current <- lift (py_get batt "charge_current" JNull) ;;
    batt_charge_power <- lift (py_get batt "charge_power" JNull) ;;
    batt_temperature <- lift (py_get batt "temperature" JNull) ;;
    batt_soc <- lift (py_get batt "soc" JNull) ;;
    load_voltage <- lift (py_get load "voltage" JNull) ;;
    load_current <- lift (py_get load "current" JNull) ;;
    load_power <- lift (py_get load "power" JNull) ;;
    load_enabled <- lift (py_get load "enabled" JNull) ;;
    energy_today <- lift (py_get energy "today_kwh" JNull) ;;
    energy_total <- lift (py_get energy "total_kwh" JNull) ;;
    rssi <- lift (py_get d "rssi" JNull) ;;
    uptime <- lift (py_get d "uptime" JNull) ;;
    let row := JDict [
      ("device_id", device_id);
      ("pv_voltage", pv_voltage);
      ("pv_current", pv_current);
      ("pv_power", pv_power);
      ("batt_voltage", batt_voltage);
      ("batt_charge_current", batt_charge_current);
      ("batt_charge_power", batt_charge_power);
      ("batt_temperature", batt_temperature);
      ("batt_soc", batt_soc);
      ("load_voltage", load_voltage);
      ("load_current", load_current);
      ("load_power", load_power);
      ("load_enabled", load_enabled);
      ("energy_today", energy_today);
      ("energy_total", energy_total);
      ("rssi", rssi);
      ("uptime", uptime)] in
    try_except
      (response <- perform (HttpSend (mk_request POST power_logs_url
         [("apikey", supabase_key settings);
          ("Authorization", "Bearer " ++ supabase_key settings);
          ("Content-Type", "application/json");
          ("Prefer", "return=minimal")]
         [] (Some row))) ;;
       if (status_code response =? 200) || (status_code response =? 201) then
         log DEBUG "Datensatz in Supabase gespeichert."
       else
         log ERROR "Supabase-Fehler")
      (fun e => log ERROR "Supabase-Schreibfehler").

(** [_on_message]: [raw] is [msg.payload]. The [device_id] lookup is the
    one inside the log line's format string. *)
Definition _on_message (raw : string) : prog unit :=
  try_except
    (payload <- perform (JsonLoads raw) ;;
     p <- perform (Deref payload) ;;
     _ <- lift (py_get p "device_id" (JStr "?")) ;;
     log INFO "Daten empfangen von Device" ;;
     perform (SetLastData payload) ;;
     t <- perform UtcNow ;;
     perform (SetLastReceived t) ;;
     _write_to_supabase payload)
    (fun e =>
       match e with
       | JSONDecodeError => log ERROR "Ungueltiges JSON empfangen"
       | _ => log ERROR "Fehler bei Nachrichtenverarbeitung"
       end).

(** *** History query *)

(** [delta_map.get(unit, "hours")] over
    [{"h": "hours", "d": "days", "w": "weeks", "m": "days"}]. *)
Definition delta_map (unit : ascii) : td_unit :=
  if Ascii.eqb unit "h" then Hours
  else if Ascii.eqb unit "d" then Days
  else if Ascii.eqb unit "w" then Weeks
  else if Ascii.eqb unit "m" then Days
  else Hours.

(** [s[-1]]. *)
Definition index_last (s : string) : result ascii :=
  match last_char s with
  | Some c => Ok c
  | None => Raise IndexError
  end.

(** Iterating a value, as the comprehension [for r in rows] does. *)
Fixpoint chars (s : string) : list json :=
  match s with
  | EmptyString => []
  | String c rest => JStr (String c EmptyString) :: chars rest
  end.

Definition py_iter (x : json) : result (list json) :=
  match x with
  | JList items => Ok items
  | JDict kvs => Ok (map (fun kv => JStr (fst kv)) kvs)
  | JStr s => Ok (chars s)
  | _ => Raise TypeError
  end.

Definition history_fields : list (string * string) :=
  [("time", "created_at");
   ("pv_voltage", "pv_voltage");
   ("pv_current", "pv_current");
   ("pv_power", "pv_power");
   ("batt_voltage", "batt_voltage");
   ("batt_charge_current", "batt_charge_current");
   ("batt_soc", "batt_soc");
   ("load_power", "load_power");
   ("energy_today", "energy_today")].

(** The dict display of the comprehension: each value is [r.get(column)]. *)
Fixpoint project_fields (r : json) (fields : list (string * string))
  : result (list (string * json)) :=
  match fields with
  | [] => Ok []
  | (name, column) :: rest =>
      match py_get r column JNull with
      | Raise e => Raise e
      | Ok v =>
          match project_fields r rest with
          | Raise e => Raise e
          | Ok kvs => Ok ((name, v) :: kvs)
          end
      end
  end.

Definition project_row (r : json) : result json :=
  match project_fields r history_fields with
  | Ok kvs => Ok (JDict kvs)
  | Raise e => Raise e
  end.

Fixpoint project_rows (rows : list json) : result (list json) :=
  match rows with
  | [] => Ok []
  | r :: rest =>
      match project_row r with
      | Raise e => Raise e
      | Ok x =>
          match project_rows rest with
          | Raise e => Raise e
          | Ok xs => Ok (x :: xs)
          end
      end
  end.

Definition history_request (since : string) (limit : Z) : http_request :=
  mk_request GET power_logs_url
    [("apikey", supabase_key settings);
     ("Authorization", "Bearer " ++ supabase_key settings)]
    [("select", "*");
     ("created_at", "gte." ++ since);
     ("order", "created_at.asc");
     ("limit", py_str_int limit)]
    None.

(** [query_history]: the amount and the unit are read, and the bound is
    computed, before the [try] block, which holds the request, with
    [str(limit)] among its arguments, and the projection of the rows. *)
Definition query_history (range_str : string) (limit : Z) : prog (list json) :=
  if store_unconfigured then ret []
  else
    amount <- lift (py_int (slice_1_m1 range_str)) ;;
    unit <- lift (index_last range_str) ;;
    let multiplier := if Ascii.eqb unit "m" then 30 else 1 in
    delta <- lift (timedelta (delta_map unit) (amount * multiplier)) ;;
    utcnow <- perform UtcNow ;;
    since_dt <- lift (datetime_minus utcnow delta) ;;
    let since := isoformat since_dt ++ "Z" in
    try_except
      (_ <- lift (py_str limit) ;;
       response <- perform (HttpSend (history_request since limit)) ;;
       if status_code response =? 200 then
         rows <- lift (response_json response) ;;
         items <- lift (py_iter rows) ;;
         lift (project_rows items)
       else
         log ERROR "Supabase-Abfrage fehlgeschlagen" ;;
         ret [])
      (fun e => log ERROR "Supabase-Abfragefehler" ;; ret []).

(** The default arguments of [query_history]. *)
Definition default_range : string := "-1h".
Definition default_limit : Z := 500.

(** *** Command relay *)

(** [publish_command]. The log line after [publish] also reads
    [result.is_published()] when the return code is 0, which has no
    effect. *)
Definition publish_command (command_json : string) : prog bool :=
  connected <- perform ClientIsConnected ;;
  if negb connected then
    log WARNING "MQTT nicht verbunden" ;;
    ret false
  else
    try_except
      (result <- perform (ClientPublish (mqtt_topic_command settings)
                                        command_json 1) ;;
       log INFO "MQTT publish result" ;;
       if rc result =? MQTT_ERR_SUCCESS then
         perform (WaitForPublish result 5) ;;
         log INFO "MQTT Befehl erfolgreich gesendet" ;;
         ret true
       else
         log ERROR "MQTT publish fehlgeschlagen" ;;
         ret false)
      (fun e => log ERROR "MQTT publish Exception" ;; ret false).

(* ================================================================= *)
(** ** The live endpoint ([app/main.py]) *)

Record live_response : Type := mk_live {
  data : option loc;
  received_at : option string;
  age_seconds : option Z            (* the difference, in microseconds *)
}.

(** [x.isoformat()] and [now - x] on an attribute value that may be
    [None]. *)
Definition attr_isoformat (x : option datetime) : result string :=
  match x with
  | Some t => Ok (isoformat_any t)
  | None => Raise AttributeError
  end.

Definition minus_attr (a : datetime) (x : option datetime) : result Z :=
  match x with
  | Some t => datetime_diff a t
  | None => Raise TypeError
  end.

(** [get_live_data], the body of the handler of [GET /api/live]; the
    token check of the request layer comes before it. Every mention of
    [mqtt_service.last_data] or [mqtt_service.last_received] in the body
    is one attribute read, in the order of evaluation: the condition of a
    conditional expression before its value, the left operand of the
    subtraction before the right one. *)
Definition get_live_data : prog live_response :=
  d0 <- perform GetLastData ;;
  match d0 with
  | None => raise (HTTPException 503)
  | Some _ =>
      d <- perform GetLastData ;;
      c1 <- perform GetLastReceived ;;
      iso <- match c1 with
             | Some _ =>
                 x <- perform GetLastReceived ;;
                 s <- lift (attr_isoformat x) ;;
                 ret (Some s)
             | None => ret None
             end ;;
      c2 <- perform GetLastReceived ;;
      age <- match c2 with
             | Some _ =>
                 n <- perform NowUtc ;;
                 x <- perform GetLastReceived ;;
                 diff <- lift (minus_attr n x) ;;
                 ret (Some diff)
             | None => ret None
             end ;;
      ret (mk_live d iso age)
  end.

(** [get_history]: the query with the default limit, wrapped with its
    range and count. *)
Definition get_history (range : string) : prog (string * Z * list json) :=
  items <- query_history range default_limit ;;
  ret (range, Z.of_nat (List.length items), items).

End Service.

(* ================================================================= *)
(** ** A reader for JSON text

    The service is written against [json.loads], which is a field of
    [env]. This reader is the decoder used on concrete payloads. It reads
    JSON text in ASCII the way [json.loads] does: white space, objects
    (a repeated key keeps its first position and its last value), arrays,
    strings with escapes, numbers, [true], [false], [null], [NaN],
    [Infinity] and [-Infinity], and nothing after the value. Text that is
    not pure ASCII is outside its domain: a byte above 127 is refused as
    [UnicodeDecodeError], also where it is part of valid UTF-8, and an
    escape above code point 255 is not read. *)

Definition dquote : ascii := ascii_of_nat 34.
Definition backslash : ascii := ascii_of_nat 92.

Definition is_json_ws (c : ascii) : bool :=
  let n := nat_of_ascii c in
  (n =? 32)%nat || (n =? 9)%nat || (n =? 10)%nat || (n =? 13)%nat.

Fixpoint skip_ws (s : string) : string :=
  match s with
  | String c rest => if is_json_ws c then skip_ws rest else s
  | EmptyString => EmptyString
  end.

Fixpoint strip_prefix (p s : string) : option string :=
  match p, s with
  | EmptyString, _ => Some s
  | String a p', String b s' => if Ascii.eqb a b then strip_prefix p' s' else None
  | String _ _, EmptyString => None
  end.

(** Leading digits of [s]: their value on top of [acc], how many there
    are, and what follows. *)
Fixpoint take_digits (s : string) (acc count : Z) : Z * Z * string :=
  match s with
  | String c rest =>
      if is_digit c then take_digits rest (acc * 10 + digit_val c) (count + 1)
      else (acc, count, s)
  | EmptyString => (acc, count, s)
  end.

Definition read_fraction (s : string) (int_part : Z) : Z * Z * string :=
  match s with
  | String "." rest =>
      let '(m, count, rest') := take_digits rest int_part 0 in
      if 0 <? count then (m, count, rest') else (int_part, 0, s)
  | _ => (int_part, 0, s)
  end.

Definition read_exponent (s : string) : option (Z * string) :=
  match s with
  | String c rest =>
      if Ascii.eqb c "e" || Ascii.eqb c "E" then
        let '(sign, digits) :=
          match rest with
          | String "-" r => (-1, r)
          | String "+" r => (1, r)
          | _ => (1, rest)
          end in
        let '(e, count, rest') := take_digits digits 0 0 in
        if 0 <? count then Some (sign * e, rest') else None
      else None
  | EmptyString => None
  end.

(** A number. An integer literal of more than 4300 digits is refused
    with [ValueError] by the conversion to [int]; a literal with a
    fraction or an exponent is a float, of any length. *)
Definition read_number (s : string) : result (json * string) :=
  let '(sign, body) :=
    match s with
    | String "-" r => (-1, r)
    | _ => (1, s)
    end in
  let int_part :=
    match body with
    | String "0" r => Some (0, 1, r)
    | String c _ =>
        if is_digit c then Some (take_digits body 0 0)
        else None
    | EmptyString => None
    end in
  match int_part with
  | None => Raise JSONDecodeError
  | Some (v, n_digits, r) =>
      let '(m, frac_digits, r1) := read_fraction r v in
      match read_exponent r1 with
      | Some (e, r2) => Ok (JFloat (sign * m) (e - frac_digits), r2)
      | None =>
          if 0 <? frac_digits then Ok (JFloat (sign * m) (- frac_digits), r1)
          else if Z.of_nat int_max_str_digits <? n_digits then Raise ValueError
          else Ok (JInt (sign * v), r1)
      end
  end.

Definition hex_val (c : ascii) : option Z :=
  let n := Z.of_nat (nat_of_ascii c) in
  if (48 <=? n) && (n <=? 57) then Some (n - 48)
  else if (65 <=? n) && (n <=? 70) then Some (n - 55)
  else if (97 <=? n) && (n <=? 102) then Some (n - 87)
  else None.

Definition simple_escape (c : ascii) : option ascii :=
  if Ascii.eqb c dquote then Some dquote
  else if Ascii.eqb c backslash then Some backslash
  else if Ascii.eqb c "/" then Some "/"%char
  else if Ascii.eqb c "b" then Some (ascii_of_nat 8)
  else if Ascii.eqb c "f" then Some (ascii_of_nat 12)
  else if Ascii.eqb c "n" then Some (ascii_of_nat 10)
  else if Ascii.eqb c "r" then Some (ascii_of_nat 13)
  else if Ascii.eqb c "t" then Some (ascii_of_nat 9)
  else None.

Definition code_point (a b c d : ascii) : option ascii :=
  match hex_val a, hex_val b, hex_val c, hex_val d with
  | Some 0, Some 0, Some x, Some y => Some (ascii_of_nat (Z.to_nat (16 * x + y)))
  | _, _, _, _ => None
  end.

Definition cons_char (c : ascii) (r : option (string * string))
  : option (string * string) :=
  match r with
  | Some (s, rest) => Some (String c s, rest)
  | None => None
  end.

(** The characters of a string literal after its opening quote. *)
Fixpoint read_string (s : string) : option (string * string) :=
  match s with
  | EmptyString => None
  | String c rest =>
      if Ascii.eqb c dquote then Some (EmptyString, rest)
      else if Ascii.eqb c backslash then
        match rest with
        | String e rest1 =>
            match simple_escape e with
            | Some ch => cons_char ch (read_string rest1)
            | None =>
                match e, rest1 with
                | "u"%char, String h1 (String h2 (String h3 (String h4 rest2))) =>
                    match code_point h1 h2 h3 h4 with
                    | Some ch => cons_char ch (read_string rest2)
                    | None => None
                    end
                | _, _ => None
                end
            end
        | EmptyString => None
        end
      else if (nat_of_ascii c <? 32)%nat then None
      else cons_char c (read_string rest)
  end.

Fixpoint read_value (fuel : nat) (s : string) : result (json * string) :=
  match fuel with
  | O => Raise JSONDecodeError
  | S fuel' =>
      match skip_ws s with
      | String "{" rest =>
          match skip_ws rest with
          | String "}" rest' => Ok (JDict [], rest')
          | _ => read_members fuel' rest []
          end
      | String "[" rest =>
          match skip_ws rest with
          | String "]" rest' => Ok (JList [], rest')
          | _ => read_items fuel' rest []
          end
      | String c rest =>
          if Ascii.eqb c dquote then
            match read_string rest with
            | Some (str, rest') => Ok (JStr str, rest')
            | None => Raise JSONDecodeError
            end
          else
            match strip_prefix "true" (String c rest),
                  strip_prefix "false" (String c rest),
                  strip_prefix "null" (String c rest) with
            | Some r, _, _ => Ok (JBool true, r)
            | _, Some r, _ => Ok (JBool false, r)
            | _, _, Some r => Ok (JNull, r)
            | None, None, None =>
                match strip_prefix "NaN" (String c rest),
                      strip_prefix "Infinity" (String c rest),
                      strip_prefix "-Infinity" (String c rest) with
                | Some r, _, _ => Ok (JNaN, r)
                | _, Some r, _ => Ok (JInfinity false, r)
                | _, _, Some r => Ok (JInfinity true, r)
                | None, None, None => read_number (String c rest)
                end
            end
      | EmptyString => Raise JSONDecodeError
      end
  end

with read_members (fuel : nat) (s : string) (acc : list (string * json))
  : result (json * string) :=
  match fuel with
  | O => Raise JSONDecodeError
  | S fuel' =>
      match skip_ws s with
      | String c rest =>
          if Ascii.eqb c dquote then
            match read_string rest with
            | Some (key, rest1) =>
                match skip_ws rest1 with
                | String ":" rest2 =>
                    match read_value fuel' rest2 with
                    | Ok (v, rest3) =>
                        match skip_ws rest3 with
                        | String "," rest4 =>
                            read_members fuel' rest4 (dict_set key v acc)
                        | String "}" rest4 =>
                            Ok (JDict (dict_set key v acc), rest4)
                        | _ => Raise JSONDecodeError
                        end
                    | Raise e => Raise e
                    end
                | _ => Raise JSONDecodeError
                end
            | None => Raise JSONDecodeError
            end
          else Raise JSONDecodeError
      | EmptyString => Raise JSONDecodeError
      end
  end

with read_items (fuel : nat) (s : string) (acc : list json)
  : result (json * string) :=
  match fuel with
  | O => Raise JSONDecodeError
  | S fuel' =>
      match read_value fuel' s with
      | Ok (v, rest) =>
          match skip_ws rest with
          | String "," rest' => read_items fuel' rest' (acc ++ [v])%list
          | String "]" rest' => Ok (JList (acc ++ [v])%list, rest')
          | _ => Raise JSONDecodeError
          end
      | Raise e => Raise e
      end
  end.

Fixpoint all_ascii (s : string) : bool :=
  match s with
  | EmptyString => true
  | String c rest => (nat_of_ascii c <? 128)%nat && all_ascii rest
  end.

Definition reader (raw : string) : result json :=
  if all_ascii raw then
    match read_value (S (String.length raw)) raw with
    | Ok (v, rest) =>
        match skip_ws rest with
        | EmptyString => Ok v
        | _ => Raise JSONDecodeError
        end
    | Raise e => Raise e
    end
  else Raise UnicodeDecodeError.

(** JSON text written with apostrophes in place of double quotes. *)
Fixpoint dq (s : string) : string :=
  match s with
  | EmptyString => EmptyString
  | String c rest => String (if Ascii.eqb c "'" then dquote else c) (dq rest)
  end.

(* ================================================================= *)
(** ** Concrete surroundings

    Settings, a store, a broker and a starting world on which the
    programs above are evaluated. *)

Definition configured_settings : Settings :=
  mk_settings "https://project.supabase.co" "anon-key"
              "broker.hivemq.cloud" 8883 "backend" "secret"
              "fensterkraftwerk/data" "fensterkraftwerk/command".

(** No store endpoint and no key: the defaults of [Settings]. *)
Definition cache_only_settings : Settings :=
  mk_settings "" ""
              "broker.hivemq.cloud" 8883 "backend" "secret"
              "fensterkraftwerk/data" "fensterkraftwerk/command".

Definition sample_rows : json :=
  JList [JDict [("id", JInt 1);
                ("created_at", JStr "2026-11-03T11:30:00+00:00");
                ("device_id", JStr "esp32-1");
                ("pv_voltage", JFloat 182 (-1));
                ("pv_power", JInt 40);
                ("batt_soc", JInt 87)]].

(** A store that accepts every insert and answers every query with
    [sample_rows]. *)
Definition healthy_store (rq : http_request) : result response :=
  match rq_method rq with
  | POST => Ok (mk_response 201 (Raise JSONDecodeError))
  | GET => Ok (mk_response 200 (Ok sample_rows))
  end.

(** A store that cannot be reached. *)
Definition unreachable_store (rq : http_request) : result response :=
  Raise TransportError.

(** The clock advances by one millisecond before each reading; the
    broker accepts connections and publishes; [puback] says when, if
    ever, the broker acknowledges a publish. *)
Definition surroundings (store : http_request -> result response)
  (puback : option N) : env :=
  mk_env reader store (fun _ => 1000%N) true (fun _ _ => Ok MQTT_ERR_SUCCESS)
         puback.


(** 2026-11-03T12:00:00 UTC. *)
Definition noon : Z := (739923 - 1) * us_per_day + 12 * us_per_hour.

(** The world right after the module is imported: a fresh service
    object, an empty heap, nothing done yet. *)
Definition fresh_world : world := mk_world __init__ [] noon [].

(** The world once [start] has run and the broker has acknowledged the
    connection. *)
Definition connected_world (E : env) (settings : Settings) : world :=
  connack E (_on_connect settings) 0 (snd (run E (start settings) fresh_world)).

(** Whether the broker's PUBACK arrives within [timeout] seconds. *)
Definition puback_within (E : env) (timeout : Z) : bool :=
  match puback_after E with
  | Some d => Z.of_N d <=? timeout * us_per_second
  | None => false
  end.

(* ================================================================= *)
(** ** Predicates on programs, events and payloads *)

(** Every action a program can reach, whatever the outcomes of the
    actions before it, satisfies [P]. *)
Fixpoint prog_forall {A} (P : forall X, action X -> Prop) (p : prog A) : Prop :=
  match p with
  | Done _ => True
  | Vis a k => P _ a /\ forall r, prog_forall P (k r)
  end.

(** The actions of a store access: reading an object, logging, one HTTP
    request. *)
Definition store_action (X : Type) (a : action X) : Prop :=
  match a with
  | Deref _ | Logger _ _ | HttpSend _ => True
  | _ => False
  end.

Definition store_event (ev : event) : Prop :=
  match ev with
  | EvLog _ _ | EvHttp _ => True
  | _ => False
  end.

(** The actions that come back in every state: all but [loop_stop],
    which waits for the loop thread to end. *)
Definition returning (X : Type) (a : action X) : Prop :=
  match a with
  | ClientLoopStop => False
  | _ => True
  end.

(** The actions that only read: attributes, objects, the clock. *)
Definition read_action (X : Type) (a : action X) : Prop :=
  match a with
  | GetLastData | GetLastReceived | Deref _ | UtcNow | NowUtc => True
  | _ => False
  end.

(** Follows the spec's words (data model, "Reading"): an object with an
    optional string [device_id], optional groups [pv], [battery], [load]
    and [energy] that are objects of optional numbers (and one boolean
    flag), and optional numbers [rssi] and [uptime]. The member names are
    those of the wire format. *)
Definition is_number (v : json) : bool :=
  match v with JInt _ | JFloat _ _ | JNull => true | _ => false end.

Definition is_flag (v : json) : bool :=
  match v with JBool _ | JNull => true | _ => false end.

Definition is_text (v : json) : bool :=
  match v with JStr _ => true | _ => false end.

Definition optional (ok : json -> bool) (x : json) (k : string) : bool :=
  match x with
  | JDict kvs => match assoc k kvs with Some v => ok v | None => true end
  | _ => false
  end.

Definition group (numbers flags : list string) (g : json) : bool :=
  is_dict g && forallb (optional is_number g) numbers
  && forallb (optional is_flag g) flags.

Definition spec_valid_reading (v : json) : bool :=
  is_dict v
  && optional is_text v "device_id"
  && optional (group ["voltage"; "current"; "power"] []) v "pv"
  && optional (group ["voltage"; "charge_current"; "charge_power";
                      "temperature"; "soc"] []) v "battery"
  && optional (group ["voltage"; "current"; "power"] ["enabled"]) v "load"
  && optional (group ["today_kwh"; "total_kwh"] []) v "energy"
  && optional is_number v "rssi"
  && optional is_number v "uptime".

(** The payload decodes and the value is a Reading in the spec's sense. *)
Definition decodes_as_reading (E : env) (raw : string) : bool :=
  match json_loads E raw with
  | Ok v => spec_valid_reading v
  | Raise _ => false
  end.

(* ================================================================= *)
(** ** Range strings, in the spec's words *)

Fixpoint all_digits (s : string) : bool :=
  match s with
  | EmptyString => true
  | String c rest => is_digit c && all_digits rest
  end.

(** The number a string of decimal digits denotes, on top of [acc]. *)
Fixpoint digits_value (s : string) (acc : Z) : Z :=
  match s with
  | EmptyString => acc
  | String c rest => digits_value rest (acc * 10 + digit_val c)
  end.

(** [n] copies of a character. *)
Fixpoint replicate (n : nat) (c : ascii) : string :=
  match n with
  | O => EmptyString
  | S n' => String c (replicate n' c)
  end.

(** Follows the spec's words (history query): the accepted units are
    hours [h], days [d], weeks [w] and a month [m] of exactly 30 days. *)
Definition spec_unit_us (unit : ascii) : option Z :=
  if Ascii.eqb unit "h" then Some us_per_hour
  else if Ascii.eqb unit "d" then Some us_per_day
  else if Ascii.eqb unit "w" then Some (7 * us_per_day)
  else if Ascii.eqb unit "m" then Some (30 * us_per_day)
  else None.

(** Follows the spec's words (data model, "HistoryRecord"): the stored
    row [r] seen through exactly the nine fields, [time] being the store's
    creation timestamp; a column the row lacks is [None]. *)
Definition column (r : list (string * json)) (name : string) : json :=
  match assoc name r with Some v => v | None => JNull end.

Definition spec_history_record (r : list (string * json)) : json :=
  JDict [("time", column r "created_at");
         ("pv_voltage", column r "pv_voltage");
         ("pv_current", column r "pv_current");
         ("pv_power", column r "pv_power");
         ("batt_voltage", column r "batt_voltage");
         ("batt_charge_current", column r "batt_charge_current");
         ("batt_soc", column r "batt_soc");
         ("load_power", column r "load_power");
         ("energy_today", column r "energy_today")].

Definition log_event (ev : event) : Prop :=
  match ev with
  | EvLog _ _ => True
  | _ => False
  end.

(* ================================================================= *)
(** ** Predicates for the two threads *)

(** The objects one call of [json.loads] adds to the heap. *)
Definition allocated (E : env) (raw : string) : list json :=
  match json_loads E raw with
  | Ok v => [v]
  | Raise _ => []
  end.

(** The live pair while one message is handled: as it was before the
    message, with [last_data] replaced and [last_received] not yet, and
    with both replaced. *)
Inductive phase : Type := Before | Torn | After.

Definition phase_le (a b : phase) : bool :=
  match a, b with
  | Before, _ => true
  | Torn, Before => false
  | Torn, _ => true
  | After, After => true
  | After, _ => false
  end.

Section OneMessage.
Variable E : env.
Variable raw : string.
Variable w0 : world.            (* the world in which the handler starts *)

(** The reference [json.loads] returns for the message. *)
Definition new_ref : loc := List.length (heap w0).

Definition pair_at (ph : phase) (w : world) : Prop :=
  match ph with
  | Before =>
      last_data (self w) = last_data (self w0)
      /\ last_received (self w) = last_received (self w0)
  | Torn =>
      last_data (self w) = Some new_ref
      /\ last_received (self w) = last_received (self w0)
      /\ exists kvs, json_loads E raw = Ok (JDict kvs)
  | After =>
      last_data (self w) = Some new_ref
      /\ (exists t, last_received (self w) = Some t /\ dt_offset t = None)
      /\ exists kvs, json_loads E raw = Ok (JDict kvs)
  end.

(** The heap before and after [json.loads]. *)
Definition heap_at (loaded : bool) (w : world) : Prop :=
  heap w = (heap w0 ++ if loaded then allocated E raw else [])%list.

(** What a live read can end in while the message is handled. When a
    payload was stored before the message, only [TypeError]. When nothing
    was stored, status 503, [TypeError], or the reference of the new
    object without a timestamp, which is then a decoded object. *)
Definition read_outcome (r : result live_response) : Prop :=
  match last_data (self w0) with
  | Some _ => r = Raise TypeError
  | None =>
      r = Raise (HTTPException 503)
      \/ r = Raise TypeError
      \/ (r = Ok (mk_live (Some new_ref) None None)
          /\ exists kvs, json_loads E raw = Ok (JDict kvs))
  end.

(** A reading program that ends in a [read_outcome] when each of its
    actions finds the live pair in the phase [ph] or a later one, never
    in an earlier one than the action before. *)
Fixpoint reader_ok (ph : phase) (q : prog live_response) : Prop :=
  match q with
  | Done r => read_outcome r
  | Vis a k =>
      read_action _ a
      /\ forall ph' w,
           phase_le ph ph' = true -> pair_at ph' w ->
           exists r, fst (step E a w) = Returns r /\ reader_ok ph' (k r)
  end.

(** A handler program whose every action moves the live pair forward or
    leaves it, keeps the heap apart from the one [json.loads], and which
    has decoded when it ends. *)
Fixpoint handler_ok (ph : phase) (loaded : bool) (p : prog unit) : Prop :=
  match p with
  | Done _ => loaded = true
  | Vis a k =>
      forall w,
        pair_at ph w -> heap_at loaded w ->
        exists r ph' loaded',
          fst (step E a w) = Returns r
          /\ phase_le ph ph' = true
          /\ pair_at ph' (snd (step E a w))
          /\ heap_at loaded' (snd (step E a w))
          /\ handler_ok ph' loaded' (k r)
  end.

End OneMessage.

(* ================================================================= *)
(** ** [json.dumps] *)

Definition hex_digit (n : nat) : ascii :=
  nth n (list_ascii_of_string "0123456789abcdef") "0"%char.

(** One character inside a string literal, with [ensure_ascii]: the
    quote and the backslash are escaped, a character outside the
    printable ASCII range is written as a short escape or as
    [\u00XX]. *)
Definition dumps_char (c : ascii) : string :=
  let n := nat_of_ascii c in
  if Ascii.eqb c dquote then String backslash (String dquote "")
  else if Ascii.eqb c backslash then String backslash (String backslash "")
  else if (n =? 10)%nat then String backslash "n"
  else if (n =? 13)%nat then String backslash "r"
  else if (n =? 9)%nat then String backslash "t"
  else if (n =? 8)%nat then String backslash "b"
  else if (n =? 12)%nat then String backslash "f"
  else if (32 <=? n)%nat && (n <=? 126)%nat then String c ""
  else String backslash
         (String "u" (String "0" (String "0"
            (String (hex_digit (n / 16)) (String (hex_digit (n mod 16)) ""))))).

Fixpoint dumps_chars (s : string) : string :=
  match s with
  | EmptyString => EmptyString
  | String c rest => dumps_char c ++ dumps_chars rest
  end.

Definition dumps_string (s : string) : string :=
  String dquote (dumps_chars s ++ String dquote "").

(** [json.dumps(v)] with the default separators. The text Python writes
    for a float is not modelled: a float is written here as its mantissa
    and exponent, which denotes the same number. The service calls it on
    one value only, the command object of [toggle_load], a string and a
    bool; an [int] of more than 4300 digits, which [json.dumps] refuses
    with [ValueError], is outside the domain of this definition. *)
Fixpoint json_dumps (v : json) : string :=
  match v with
  | JNull => "null"
  | JBool true => "true"
  | JBool false => "false"
  | JInt z => py_str_int z
  | JFloat m e => py_str_int m ++ "e" ++ py_str_int e
  | JNaN => "NaN"
  | JInfinity negative => if negative then "-Infinity" else "Infinity"
  | JStr s => dumps_string s
  | JList items =>
      let fix join (l : list json) : string :=
        match l with
        | [] => ""
        | [x] => json_dumps x
        | x :: rest => json_dumps x ++ ", " ++ join rest
        end in
      "[" ++ join items ++ "]"
  | JDict items =>
      let fix join (l : list (string * json)) : string :=
        match l with
        | [] => ""
        | [(k, x)] => dumps_string k ++ ": " ++ json_dumps x
        | (k, x) :: rest => dumps_string k ++ ": " ++ json_dumps x ++ ", " ++ join rest
        end in
      "{" ++ join items ++ "}"
  end.

(* ================================================================= *)
(** ** Token authentication ([app/auth.py]) *)

(** What [verify_token] sees of a request: the host of [request.client]
    ([None] when the server knows no client address), the credentials of
    a Bearer [Authorization] header and the query parameter [token]. *)
Record api_request : Type := mk_api_request {
  client_host : option string;
  credentials : option string;
  token : option string
}.

(** Truth value of an optional [str]. *)
Definition truthy_opt (o : option string) : bool :=
  match o with
  | Some s => truthy s
  | None => false
  end.

Section Api.
Variable settings : Settings.
Variable api_token : string.          (* [settings.api_token] *)
Variable SERVER_START_TIME : Z.       (* [time.time()] at import, in microseconds *)

(** [verify_token]: the header wins over the query parameter; the host in
    the warning is read before the line is logged. *)
Definition verify_token (request : api_request) : prog string :=
  let provided_token :=
    if truthy_opt (credentials request) then credentials request
    else if truthy_opt (token request) then token request
    else None in
  if negb (truthy_opt provided_token) then
    raise (HTTPException 401)
  else
    match provided_token with
    | None => raise (HTTPException 401)
    | Some provided =>
        if negb (String.eqb provided api_token) then
          host <- lift match client_host request with
                       | Some h => Ok h
                       | None => Raise AttributeError
                       end ;;
          log WARNING "Ungueltiger Login-Versuch" ;;
          raise (HTTPException 401)
        else
          ret provided
    end.

(** A path operation with [Depends(verify_token)]: the dependency runs
    first, and the body only when it has returned. *)
Definition depends_verify_token {A} (request : api_request) (body : prog A)
  : prog A :=
  _token <- verify_token request ;;
  body.

(* ================================================================= *)
(** ** The other endpoints ([app/main.py]) *)

(** [verify_token_endpoint] and [login]; [password] is the field of the
    request body. *)
Definition verify_token_endpoint (password : string) : prog json :=
  if negb (String.eqb password api_token) then raise (HTTPException 401)
  else ret (JDict [("valid", JBool true)]).

Definition login (password : string) : prog json :=
  if negb (String.eqb password api_token) then raise (HTTPException 401)
  else ret (JDict [("token", JStr api_token);
                   ("message", JStr "Login erfolgreich")]).

(** [toggle_load]; [state] is the field of the request body. *)
Definition toggle_load (state : bool) : prog json :=
  let command := json_dumps (JDict [("command", JStr "toggle_load");
                                    ("state", JBool state)]) in
  success <- publish_command settings command ;;
  if success then
    ret (JDict [("status", JStr "ok");
                ("message", JStr ("Load-Befehl gesendet: "
                                  ++ if state then "EIN" else "AUS"));
                ("requested_state", JBool state)])
  else
    raise (HTTPException 502).

Record HealthResponse : Type := mk_health {
  status : string;
  mqtt_connected : bool;
  last_data_received : option string;
  uptime_seconds : Z
}.

(** [health_check]. [time.time()] is a reading of the clock; [int]
    truncates the difference to whole seconds. *)
Definition health_check : prog HealthResponse :=
  connected <- perform ClientIsConnected ;;
  c <- perform GetLastReceived ;;
  iso <- match c with
         | Some _ =>
             x <- perform GetLastReceived ;;
             s <- lift (attr_isoformat x) ;;
             ret (Some s)
         | None => ret None
         end ;;
  t <- perform UtcNow ;;
  ret (mk_health "healthy" connected iso
                 (Z.quot (dt_us t - SERVER_START_TIME) us_per_second)).

(** The protected routes as the framework runs them. *)
Definition route_live (request : api_request) : prog live_response :=
  depends_verify_token request get_live_data.

Definition route_history (request : api_request) (range : string)
  : prog (string * Z * list json) :=
  depends_verify_token request (get_history settings range).

Definition route_toggle_load (request : api_request) (state : bool) : prog json :=
  depends_verify_token request (toggle_load state).

End Api.

(* ================================================================= *)
(** ** Message sequences and what the sequential handler keeps *)

(** The loop thread handles the messages one after the other. *)
Fixpoint deliver (E : env) (settings : Settings) (raws : list string)
  (w : world) : world :=
  match raws with
  | [] => w
  | raw :: rest => deliver E settings rest (snd (run E (_on_message settings raw) w))
  end.

(** The live pair between two messages: nothing at all, or a reference
    to a stored object (a dict) together with a naive timestamp that is
    not ahead of the clock. *)
Definition live_pair_ok (w : world) : Prop :=
  match last_data (self w), last_received (self w) with
  | None, None => True
  | Some r, Some t =>
      (r < List.length (heap w))%nat
      /\ is_dict (nth r (heap w) JNull) = true
      /\ dt_offset t = None
      /\ dt_us t <= now w
  | _, _ => False
  end.

(** The payload does not decode to an object. *)
Definition not_object (E : env) (raw : string) : Prop :=
  forall kvs, json_loads E raw <> Ok (JDict kvs).

(* ================================================================= *)
(** ** The flattened row *)

(** [data.get(name, {})] and [group.get(name)] on a payload [d]. *)
Definition group_of (d : list (string * json)) (name : string) : json :=
  match assoc name d with Some v => v | None => JDict [] end.

Definition member (g : json) (name : string) : json :=
  match g with
  | JDict kvs => column kvs name
  | _ => JNull
  end.

(** The four groups of a payload are objects (or absent). *)
Definition groups_are_objects (d : list (string * json)) : bool :=
  is_dict (group_of d "pv") && is_dict (group_of d "battery")
  && is_dict (group_of d "load") && is_dict (group_of d "energy").

(** The seventeen columns of [power_logs] for the payload [d]. *)
Definition flat_row (d : list (string * json)) : list (string * json) :=
  [("device_id", match assoc "device_id" d with
                 | Some v => v
                 | None => JStr "unknown"
                 end);
   ("pv_voltage", member (group_of d "pv") "voltage");
   ("pv_current", member (group_of d "pv") "current");
   ("pv_power", member (group_of d "pv") "power");
   ("batt_voltage", member (group_of d "battery") "voltage");
   ("batt_charge_current", member (group_of d "battery") "charge_current");
   ("batt_charge_power", member (group_of d "battery") "charge_power");
   ("batt_temperature", member (group_of d "battery") "temperature");
   ("batt_soc", member (group_of d "battery") "soc");
   ("load_voltage", member (group_of d "load") "voltage");
   ("load_current", member (group_of d "load") "current");
   ("load_power", member (group_of d "load") "power");
   ("load_enabled", member (group_of d "load") "enabled");
   ("energy_today", member (group_of d "energy") "today_kwh");
   ("energy_total", member (group_of d "energy") "total_kwh");
   ("rssi", column d "rssi");
   ("uptime", column d "uptime")].

(** The insert request for a row. *)
Definition insert_request (settings : Settings) (row : list (string * json))
  : http_request :=
  mk_request POST (power_logs_url settings)
    [("apikey", supabase_key settings);
     ("Authorization", "Bearer " ++ supabase_key settings);
     ("Content-Type", "application/json");
     ("Prefer", "return=minimal")]
    [] (Some (JDict row)).

(** The log line that ends a store write, by the answer of the store. *)
Definition write_log (answer : result response) : event :=
  match answer with
  | Ok resp =>
      if (status_code resp =? 200) || (status_code resp =? 201)
      then EvLog DEBUG "Datensatz in Supabase gespeichert."
      else EvLog ERROR "Supabase-Fehler"
  | Raise _ => EvLog ERROR "Supabase-Schreibfehler"
  end.

(* ================================================================= *)
(** ** Actions and events that stay inside the process *)

(** Everything but the calls on the MQTT client and the closing of the
    HTTP client. *)
Definition local_action (X : Type) (a : action X) : Prop :=
  match a with
  | GetLastData | SetLastData _ | GetLastReceived | SetLastReceived _
  | JsonLoads _ | Deref _ | UtcNow | NowUtc | Logger _ _ | HttpSend _ => True
  | _ => False
  end.

(** Log lines and assignments to the live attributes. *)
Definition local_event (ev : event) : Prop :=
  match ev with
  | EvLog _ _ | EvSetLastData _ | EvSetLastReceived _ => True
  | _ => False
  end.

(* ================================================================= *)
(** ** Concrete requests *)

Definition api_secret : string := "s3cret".

Definition bearer_request (t : string) : api_request :=
  mk_api_request (Some "203.0.113.7") (Some t) None.

Definition query_request (t : string) : api_request :=
  mk_api_request (Some "203.0.113.7") None (Some t).

(** Log lines and waits: what a command relay leaves in the trace apart
    from the publish itself. *)
Definition log_or_wait (ev : event) : Prop :=
  match ev with
  | EvLog _ _ | EvWait _ => True
  | _ => False
  end.

(** The defaults of [Settings] in [app/config.py], of which the service
    reads these eight, and the default of [api_token]. *)
Definition default_settings : Settings :=
  mk_settings "" "" "" 8883 "" ""
              "fensterkraftwerk/data" "fensterkraftwerk/command".

Definition default_api_token : string := "changeme".

(* ================================================================= *)
(** * Properties *)

(** ** Sequential execution of composed programs *)

Lemma run_bind {A B} (E : env) (p : prog A) (f : A -> prog B) (w : world) :
  run E (bind p f) w =
  match run E p w with
  | (Returns (Ok a), w') => run E (f a) w'
  | (Returns (Raise e), w') => (Raise e, w')
  | (Blocks, w') => (Blocks, w')
  end.
Proof.
  revert w. induction p as [[a | e] | X a k IH]; intros w; simpl.
  - reflexivity.
  - reflexivity.
  - destruct (step E a w) as [[r |] w']; [apply IH | reflexivity].
Qed.

Lemma run_try_except {A} (E : env) (p : prog A) (h : exn -> prog A) (w : world) :
  run E (try_except p h) w =
  match run E p w with
  | (Returns (Ok a), w') => (Ok a, w')
  | (Returns (Raise e), w') => run E (h e) w'
  | (Blocks, w') => (Blocks, w')
  end.
Proof.
  revert w. induction p as [[a | e] | X a k IH]; intros w; simpl.
  - reflexivity.
  - reflexivity.
  - destruct (step E a w) as [[r |] w']; [apply IH | reflexivity].
Qed.

Lemma truthy_false (s : string) : truthy s = false <-> s = "".
Proof. destruct s; simpl; split; congruence. Qed.

Lemma store_unconfigured_iff (settings : Settings) :
  store_unconfigured settings = true <->
  supabase_url settings = "" \/ supabase_key settings = "".
Proof.
  unfold store_unconfigured.
  rewrite orb_true_iff, !negb_true_iff, !truthy_false. reflexivity.
Qed.

(* ================================================================= *)
(** ** Cache-only mode *)

(** C6. When the store is not configured (the endpoint URL or the key is
    empty), [_write_to_supabase] returns normally for every payload
    reference and does nothing but write one DEBUG log line (no HTTP
    request, no change to the service object), and [query_history]
    returns the empty list for every range string and every limit and
    leaves the world untouched. *)
Theorem unconfigured_store_is_cache_only
  (E : env) (settings : Settings) (data : loc) (range_str : string)
  (limit : Z) (w : world) :
  supabase_url settings = "" \/ supabase_key settings = "" ->
  run E (_write_to_supabase settings data) w
    = (Ok tt, emit (EvLog DEBUG "Supabase nicht konfiguriert") w)
  /\ run E (query_history settings range_str limit) w = (Ok [], w).
Proof.
  intros H. apply store_unconfigured_iff in H.
  unfold _write_to_supabase, query_history. rewrite H. split; reflexivity.
Qed.

Lemma unconfigured_store_is_cache_only_witness :
  run (surroundings unreachable_store None)
      (_write_to_supabase cache_only_settings 0%nat) fresh_world
    = (Ok tt, emit (EvLog DEBUG "Supabase nicht konfiguriert") fresh_world)
  /\ run (surroundings unreachable_store None)
         (query_history cache_only_settings "-xh" 500) fresh_world
    = (Ok [], fresh_world).
Proof.
  apply (unconfigured_store_is_cache_only
           (surroundings unreachable_store None) cache_only_settings).
  left. reflexivity.
Defined.

(* ================================================================= *)
(** ** Command relay *)

(** What [publish_command] does in each of its four cases. *)
Lemma publish_command_cases
  (E : env) (settings : Settings) (command_json : string) (w : world) :
  run E (publish_command settings command_json) w =
  match cl_state (client (self w)) with
  | mqtt_cs_connected =>
      match publish_result E (mqtt_topic_command settings) command_json with
      | Raise _ => (Ok false, emit (EvLog ERROR "MQTT publish Exception") w)
      | Ok code =>
          let m := mk_out_message (mqtt_topic_command settings) command_json
                                  (now w) in
          let w1 := emit (EvLog INFO "MQTT publish result")
                      (emit (EvPublish (mqtt_topic_command settings)
                                       command_json 1)
                            (if code =? MQTT_ERR_QUEUE_SIZE then w
                             else take_message m w)) in
          if code =? MQTT_ERR_SUCCESS then
            let waited :=
              match puback_after E with
              | Some d => Z.min (Z.of_N d) (5 * us_per_second)
              | None => 5 * us_per_second
              end in
            (Ok true,
             emit (EvLog INFO "MQTT Befehl erfolgreich gesendet")
               (emit (EvWait waited) (advance waited w1)))
          else
            (Ok false, emit (EvLog ERROR "MQTT publish fehlgeschlagen") w1)
      end
  | _ => (Ok false, emit (EvLog WARNING "MQTT nicht verbunden") w)
  end.
Proof.
  unfold publish_command. simpl.
  destruct (cl_state (client (self w))); try reflexivity. simpl.
  unfold client_publish.
  destruct (publish_result E (mqtt_topic_command settings) command_json)
    as [code | e]; [| reflexivity].
  simpl. destruct (code =? MQTT_ERR_SUCCESS) eqn:Hcode.
  - apply Z.eqb_eq in Hcode. subst code. reflexivity.
  - destruct (code =? MQTT_ERR_QUEUE_SIZE); reflexivity.
Qed.



(** C4. A publish that the transport accepts while the client is
    connected makes [publish_command] wait for at most 5 seconds and then
    return [True] in every case: also when the broker's acknowledgment
    has not arrived within the 5 seconds, where the call has waited the
    full timeout and still reports success. *)
Theorem publish_reports_success_without_puback
  (E : env) (settings : Settings) (command_json : string) (w : world) :
  cl_state (client (self w)) = mqtt_cs_connected ->
  publish_result E (mqtt_topic_command settings) command_json
    = Ok MQTT_ERR_SUCCESS ->
  let (r, w') := run E (publish_command settings command_json) w in
  r = Ok true
  /\ 0 <= now w' - now w <= 5 * us_per_second
  /\ (puback_within E 5 = false -> now w' - now w = 5 * us_per_second).
Proof.
  intros Hc Hp. unfold publish_command. simpl. rewrite Hc. simpl.
  unfold client_publish. rewrite Hp. simpl.
  unfold wait_for_publish, puback_within. simpl.
  destruct (puback_after E) as [d |]; simpl.
  - split; [reflexivity | split; [lia |]].
    intros H. apply Z.leb_gt in H. lia.
  - split; [reflexivity | split; [lia | intros _; lia]].
Qed.

Lemma publish_reports_success_without_puback_witness :
  let E := surroundings healthy_store None in
  let (r, w') :=
    run E (publish_command configured_settings "{}")
        (connected_world E configured_settings) in
  r = Ok true
  /\ 0 <= now w' - now (connected_world E configured_settings)
       <= 5 * us_per_second
  /\ (puback_within E 5 = false ->
      now w' - now (connected_world E configured_settings)
        = 5 * us_per_second).
Proof.
  apply (publish_reports_success_without_puback
           (surroundings healthy_store None) configured_settings "{}"
           (connected_world (surroundings healthy_store None)
                            configured_settings)).
  - reflexivity.
  - reflexivity.
Defined.

(* ================================================================= *)
(** ** Properties of all reachable actions *)

Lemma prog_forall_bind {A B} (P : forall X, action X -> Prop)
  (p : prog A) (f : A -> prog B) :
  prog_forall P p -> (forall a, prog_forall P (f a)) ->
  prog_forall P (bind p f).
Proof.
  intros Hp Hf. induction p as [[a | e] | X a k IH]; simpl in *.
  - apply Hf.
  - exact I.
  - destruct Hp as [Ha Hk]. split; [exact Ha |].
    intros r. apply IH, Hk.
Qed.

Lemma prog_forall_try_except {A} (P : forall X, action X -> Prop)
  (p : prog A) (h : exn -> prog A) :
  prog_forall P p -> (forall e, prog_forall P (h e)) ->
  prog_forall P (try_except p h).
Proof.
  intros Hp Hh. induction p as [[a | e] | X a k IH]; simpl in *.
  - exact I.
  - apply Hh.
  - destruct Hp as [Ha Hk]. split; [exact Ha |].
    intros r. apply IH, Hk.
Qed.

Lemma prog_forall_perform {X} (P : forall X, action X -> Prop) (a : action X) :
  P _ a -> prog_forall P (perform a).
Proof. intros H. simpl. split; [exact H | intros r; exact I]. Qed.

Lemma prog_forall_lift {A} (P : forall X, action X -> Prop) (r : result A) :
  prog_forall P (lift r).
Proof. exact I. Qed.

(** Breaks a goal [prog_forall P p] down along the structure of [p]. *)
Ltac prog_forall_tac :=
  repeat first
    [ apply prog_forall_lift
    | apply prog_forall_perform; first [exact I | reflexivity]
    | apply prog_forall_try_except; [| intros ?]
    | apply prog_forall_bind; [| intros ?]
    | exact I ].

Lemma write_to_supabase_actions (settings : Settings) (data : loc) :
  prog_forall store_action (_write_to_supabase settings data).
Proof.
  unfold _write_to_supabase.
  destruct (store_unconfigured settings).
  - apply prog_forall_perform. exact I.
  - prog_forall_tac.
    match goal with
    | |- prog_forall _ (if ?c then _ else _) => destruct c
    end; apply prog_forall_perform; exact I.
Qed.

Lemma prog_forall_impl {A} (P Q : forall X, action X -> Prop) (p : prog A) :
  (forall X (a : action X), P X a -> Q X a) ->
  prog_forall P p -> prog_forall Q p.
Proof.
  intros HPQ. induction p as [r | X a k IH]; simpl.
  - trivial.
  - intros [Ha Hk]. split; [apply HPQ, Ha |]. intros r. apply IH, Hk.
Qed.

Lemma store_action_local_action X (a : action X) :
  store_action X a -> local_action X a.
Proof. destruct a; simpl; trivial. Qed.

Lemma on_message_local (settings : Settings) (raw : string) :
  prog_forall local_action (_on_message settings raw).
Proof.
  unfold _on_message. apply prog_forall_try_except.
  - prog_forall_tac.
    eapply prog_forall_impl; [| apply write_to_supabase_actions].
    apply store_action_local_action.
  - intros e. destruct e; apply prog_forall_perform; exact I.
Qed.

Lemma query_history_local (settings : Settings) (range_str : string) (limit : Z) :
  prog_forall local_action (query_history settings range_str limit).
Proof.
  unfold query_history. destruct (store_unconfigured settings); [exact I |].
  prog_forall_tac.
  match goal with
  | |- prog_forall _ (if ?c then _ else _) => destruct c
  end; prog_forall_tac.
Qed.

(** Of all actions only [loop_stop] can block: a program without it
    comes back. *)
Lemma step_returns (E : env) {X} (a : action X) (w : world) :
  returning X a -> exists r, fst (step E a w) = Returns r.
Proof.
  destruct a; simpl; try contradiction; intros _;
    try (eexists; reflexivity).
  - destruct (json_loads E raw); eexists; reflexivity.
  - destruct (request_encodable rq), (http_closed (self w));
      eexists; reflexivity.
  - unfold client_connect. destruct (broker_accepts E); eexists; reflexivity.
  - unfold client_disconnect.
    destruct (cl_sock (client (self w))), (cl_thread (client (self w)));
      eexists; reflexivity.
  - unfold client_publish.
    destruct (publish_result E topic payload); eexists; reflexivity.
  - unfold wait_for_publish.
    destruct (rc info =? MQTT_ERR_QUEUE_SIZE); [eexists; reflexivity |].
    destruct (0 <? rc info); eexists; reflexivity.
Qed.

Lemma run_returns {A} (E : env) (p : prog A) (w : world) :
  prog_forall returning p -> exists r, fst (run E p w) = Returns r.
Proof.
  revert w. induction p as [r | X a k IH]; intros w Hp; simpl.
  - exists r. reflexivity.
  - destruct Hp as [Ha Hk].
    destruct (step_returns E a w Ha) as [r Hr].
    destruct (step E a w) as [[r' |] w']; simpl in Hr; [| discriminate].
    apply IH, Hk.
Qed.

Lemma local_action_returning X (a : action X) :
  local_action X a -> returning X a.
Proof. destruct a; simpl; trivial. Qed.

Lemma write_to_supabase_returns (E : env) (settings : Settings) (data : loc)
  (w : world) :
  exists r, fst (run E (_write_to_supabase settings data) w) = Returns r.
Proof.
  apply run_returns.
  eapply prog_forall_impl; [| apply write_to_supabase_actions].
  intros X a H. apply local_action_returning, store_action_local_action, H.
Qed.

Lemma on_message_returns (E : env) (settings : Settings) (raw : string)
  (w : world) :
  exists r, fst (run E (_on_message settings raw) w) = Returns r.
Proof.
  apply run_returns. eapply prog_forall_impl; [| apply on_message_local].
  apply local_action_returning.
Qed.

(** A program made of store actions leaves the service object, the heap
    and the clock alone and adds only log and HTTP events. *)
Lemma store_actions_frame {A} (E : env) (p : prog A) (w : world) :
  prog_forall store_action p ->
  exists evs,
    snd (run E p w) = mk_world (self w) (heap w) (now w) (trace w ++ evs)%list
    /\ Forall store_event evs.
Proof.
  revert w. induction p as [r | X a k IH]; intros w Hp.
  - exists []. simpl. rewrite app_nil_r. destruct w; split; [reflexivity | constructor].
  - destruct Hp as [Ha Hk]. simpl.
    destruct a; simpl in Ha; try contradiction; simpl.
    + apply IH, Hk.
    + destruct (IH (Ok tt) (emit (EvLog lvl msg) w) (Hk _)) as [evs [H1 H2]].
      exists (EvLog lvl msg :: evs). split.
      * rewrite H1. simpl. rewrite <- app_assoc. reflexivity.
      * constructor; [exact I | exact H2].
    + destruct (request_encodable rq); simpl; [| apply IH, Hk].
      destruct (http_closed (self w)).
      * apply IH, Hk.
      * destruct (IH (store E rq) (emit (EvHttp rq) w) (Hk _)) as [evs [H1 H2]].
        exists (EvHttp rq :: evs). split.
        -- rewrite H1. simpl. rewrite <- app_assoc. reflexivity.
        -- constructor; [exact I | exact H2].
Qed.

(* ================================================================= *)
(** ** The message handler *)

Lemma nth_alloc (h : list json) (v : json) :
  nth (List.length h) (h ++ [v])%list JNull = v.
Proof. rewrite app_nth2, Nat.sub_diag by lia. reflexivity. Qed.

Lemma nth_old (h : list json) (v : json) (r : loc) :
  (r < List.length h)%nat -> nth r (h ++ [v])%list JNull = nth r h JNull.
Proof. intros H. apply app_nth1. exact H. Qed.

(** The handler returns normally on every payload. *)
Lemma on_message_total (E : env) (settings : Settings) (raw : string) (w : world) :
  fst (run E (_on_message settings raw) w) = Ok tt.
Proof.
  destruct (on_message_returns E settings raw w) as [r Hr]. revert Hr.
  unfold _on_message. rewrite run_try_except.
  match goal with
  | |- context [run E ?body w] => destruct (run E body w) as [[[[] | e] |] w']
  end.
  - reflexivity.
  - destruct e; reflexivity.
  - discriminate.
Qed.

(** A payload that does not decode to an object changes nothing in the
    service object; the clock is not read and no stored object changes. *)
Lemma on_message_not_object (E : env) (settings : Settings) (raw : string)
  (w : world) :
  (forall kvs, json_loads E raw <> Ok (JDict kvs)) ->
  let w' := snd (run E (_on_message settings raw) w) in
  self w' = self w
  /\ now w' = now w
  /\ (forall r, (r < List.length (heap w))%nat ->
                nth r (heap w') JNull = nth r (heap w) JNull)
  /\ exists msg, trace w' = (trace w ++ [EvLog ERROR msg])%list.
Proof.
  intros H. unfold _on_message. simpl.
  destruct (json_loads E raw) as [v | e] eqn:Hv.
  - simpl. rewrite nth_alloc.
    destruct v; try (exfalso; eapply H; reflexivity); simpl;
      (split; [reflexivity | split; [reflexivity | split;
         [intros r Hr; apply nth_old; exact Hr | eexists; reflexivity]]]).
  - destruct e; simpl;
      (split; [reflexivity | split; [reflexivity | split;
         [intros r Hr; reflexivity | eexists; reflexivity]]]).
Qed.

(** A payload that decodes to an object: the object is allocated, the
    two live attributes are assigned, first [last_data] and then
    [last_received] with the reading of the clock, and only then the store
    write runs; whatever it does adds log and HTTP events and nothing
    else. *)
Lemma on_message_object (E : env) (settings : Settings) (raw : string)
  (kvs : list (string * json)) (w : world) :
  json_loads E raw = Ok (JDict kvs) ->
  let ref := List.length (heap w) in
  let t := mk_datetime (now w + Z.of_N (clock_lag E (now w))) None in
  exists tail,
    snd (run E (_on_message settings raw) w)
    = mk_world (mk_service (Some ref) (Some t) (client (self w))
                           (http_closed (self w)))
               (heap w ++ [JDict kvs])%list
               (dt_us t)
               (trace w ++ [EvLog INFO "Daten empfangen von Device";
                            EvSetLastData ref; EvSetLastReceived t] ++ tail)%list
    /\ Forall store_event tail.
Proof.
  intros Hv ref t. unfold _on_message.
  simpl. rewrite Hv. simpl. rewrite nth_alloc. simpl.
  rewrite run_try_except.
  match goal with
  | |- context [run E (_write_to_supabase settings ?r) ?w4] =>
      destruct (store_actions_frame E (_write_to_supabase settings r) w4
                  (write_to_supabase_actions settings r)) as [evs [Hw Hevs]];
      destruct (write_to_supabase_returns E settings r w4) as [res Hres];
      destruct (run E (_write_to_supabase settings r) w4) as [[[[] | e] |] w5]
  end; simpl in Hw; subst w5; [| | discriminate Hres].
  - exists evs. split; [| exact Hevs].
    simpl. rewrite <- !app_assoc. reflexivity.
  - exists (evs ++ [EvLog ERROR
                        match e with
                        | JSONDecodeError => "Ungueltiges JSON empfangen"
                        | _ => "Fehler bei Nachrichtenverarbeitung"
                        end])%list.
    split.
    + destruct e; simpl; unfold emit; simpl; rewrite <- !app_assoc;
        reflexivity.
    + apply Forall_app. split; [exact Hevs |].
      constructor; [exact I | constructor].
Qed.

(** C1 (as amended). For every inbound payload that is not valid UTF-8
    JSON, or whose JSON value is not an object, [_on_message] returns
    normally and leaves [last_data] and [last_received] exactly as they
    were. (A JSON object is stored whatever the types of its members.) *)
Theorem on_message_keeps_state_unless_object
  (E : env) (settings : Settings) (raw : string) (w : world) :
  (forall kvs, json_loads E raw <> Ok (JDict kvs)) ->
  let (r, w') := run E (_on_message settings raw) w in
  r = Ok tt
  /\ last_data (self w') = last_data (self w)
  /\ last_received (self w') = last_received (self w).
Proof.
  intros H.
  pose proof (on_message_total E settings raw w) as Ht.
  pose proof (on_message_not_object E settings raw w H) as [Hs _].
  destruct (run E (_on_message settings raw) w) as [r w']. simpl in *.
  rewrite Hs. repeat split. exact Ht.
Qed.

Lemma on_message_keeps_state_unless_object_witness :
  let E := surroundings healthy_store None in
  let w := snd (run E (_on_message configured_settings (dq "{'pv': {}}"))
                    fresh_world) in
  let (r, w') := run E (_on_message configured_settings (dq "{'pv'")) w in
  r = Ok tt
  /\ last_data (self w') = last_data (self w)
  /\ last_received (self w') = last_received (self w).
Proof.
  apply (on_message_keeps_state_unless_object
           (surroundings healthy_store None) configured_settings (dq "{'pv'")).
  intros kvs. vm_compute. discriminate.
Defined.

(** C1, as stated, fails: the payload [{"pv": 5}] has a member of the
    wrong type, so it is not a Reading, and yet the handler replaces both
    live attributes. *)
Lemma wrong_member_type_replaces_live_state :
  let E := surroundings healthy_store None in
  let raw := dq "{'pv': 5}" in
  let w' := snd (run E (_on_message configured_settings raw) fresh_world) in
  decodes_as_reading E raw = false
  /\ last_data (self w') <> last_data (self fresh_world)
  /\ last_received (self w') <> last_received (self fresh_world).
Proof. vm_compute. repeat split; discriminate. Qed.

(** C2 (as amended). For every payload that decodes to a JSON object,
    [_on_message] returns normally; [last_data] refers to exactly the
    decoded object and [last_received] is a naive timestamp read from the
    clock during the handling, so not before the handling began. Both
    assignments come before anything the store write does, and they stand
    whatever the store write does: all that follows them in the trace are
    log lines and HTTP requests. *)
Theorem on_message_caches_object_before_store_write
  (E : env) (settings : Settings) (raw : string)
  (kvs : list (string * json)) (w : world) :
  json_loads E raw = Ok (JDict kvs) ->
  let (r, w') := run E (_on_message settings raw) w in
  let ref := List.length (heap w) in
  r = Ok tt
  /\ last_data (self w') = Some ref
  /\ nth ref (heap w') JNull = JDict kvs
  /\ exists t tail,
       last_received (self w') = Some t
       /\ dt_offset t = None
       /\ now w <= dt_us t <= now w'
       /\ trace w' = (trace w ++ [EvLog INFO "Daten empfangen von Device";
                                  EvSetLastData ref; EvSetLastReceived t]
                              ++ tail)%list
       /\ Forall store_event tail.
Proof.
  intros Hv.
  pose proof (on_message_total E settings raw w) as Ht.
  destruct (on_message_object E settings raw kvs w Hv) as [tail [Hw Htail]].
  destruct (run E (_on_message settings raw) w) as [r w']. simpl in *.
  subst w'. simpl.
  split; [exact Ht |]. split; [reflexivity |]. split; [apply nth_alloc |].
  eexists. exists tail. repeat split; try reflexivity; try exact Htail; simpl; lia.
Qed.

Lemma on_message_caches_object_before_store_write_witness :
  let E := surroundings unreachable_store None in
  let raw := dq "{'device_id':'esp32-1','pv':{'voltage':18.2,'power':40},'battery':{'soc':87}}" in
  let (r, w') := run E (_on_message configured_settings raw) fresh_world in
  let ref := List.length (heap fresh_world) in
  r = Ok tt
  /\ last_data (self w') = Some ref
  /\ nth ref (heap w') JNull
     = JDict [("device_id", JStr "esp32-1");
              ("pv", JDict [("voltage", JFloat 182 (-1)); ("power", JInt 40)]);
              ("battery", JDict [("soc", JInt 87)])]
  /\ exists t tail,
       last_received (self w') = Some t
       /\ dt_offset t = None
       /\ now fresh_world <= dt_us t <= now w'
       /\ trace w' = (trace fresh_world
                        ++ [EvLog INFO "Daten empfangen von Device";
                            EvSetLastData ref; EvSetLastReceived t]
                        ++ tail)%list
       /\ Forall store_event tail.
Proof.
  apply (on_message_caches_object_before_store_write
           (surroundings unreachable_store None) configured_settings
           (dq "{'device_id':'esp32-1','pv':{'voltage':18.2,'power':40},'battery':{'soc':87}}")).
  reflexivity.
Defined.

(** C2, as stated, fails: [[1]] is a valid JSON payload, and the handler
    does not cache it. *)
Lemma valid_json_array_is_not_cached :
  let E := surroundings healthy_store None in
  let raw := "[1]" in
  let w' := snd (run E (_on_message configured_settings raw) fresh_world) in
  json_loads E raw = Ok (JList [JInt 1])
  /\ last_data (self w') = None
  /\ last_received (self w') = None.
Proof. vm_compute. repeat split. Qed.

(* ================================================================= *)
(** ** The live endpoint *)

(** With a payload and a naive timestamp stored, the age computation
    subtracts a naive datetime from an aware one. *)
Lemma get_live_data_naive (E : env) (w : world) (r : loc) (t : datetime) :
  last_data (self w) = Some r ->
  last_received (self w) = Some t ->
  dt_offset t = None ->
  fst (run E get_live_data w) = Raise TypeError.
Proof.
  intros Hd Hr Ht. destruct t as [us off]. simpl in Ht. subst off.
  unfold get_live_data. simpl.
  rewrite Hd. repeat (simpl; rewrite Hr). reflexivity.
Qed.

(** C5. After the handler has stored a payload, [last_received] is the
    naive result of [datetime.utcnow()], and the live read, which
    subtracts it from the aware [datetime.now(timezone.utc)], ends in
    [TypeError] instead of returning. *)
Theorem live_read_raises_after_message
  (E : env) (settings : Settings) (raw : string)
  (kvs : list (string * json)) (w : world) :
  json_loads E raw = Ok (JDict kvs) ->
  fst (run E get_live_data (snd (run E (_on_message settings raw) w)))
  = Raise TypeError.
Proof.
  intros Hv.
  destruct (on_message_object E settings raw kvs w Hv) as [tail [Hw _]].
  rewrite Hw. eapply get_live_data_naive; reflexivity.
Qed.

Lemma live_read_raises_after_message_witness :
  let E := surroundings healthy_store None in
  fst (run E get_live_data
         (snd (run E (_on_message configured_settings
                        (dq "{'device_id':'esp32-1','battery':{'soc':87}}"))
                   fresh_world)))
  = Raise TypeError.
Proof.
  apply (live_read_raises_after_message
           (surroundings healthy_store None) configured_settings
           (dq "{'device_id':'esp32-1','battery':{'soc':87}}")
           [("device_id", JStr "esp32-1"); ("battery", JDict [("soc", JInt 87)])]).
  reflexivity.
Defined.

(* ================================================================= *)
(** ** Shutdown *)

(** When no PUBACK ever arrives, every message taken is unacknowledged. *)
Lemma unacknowledged_never (E : env) (w : world) :
  puback_after E = None ->
  unacknowledged E w = cl_out_messages (client (self w)).
Proof.
  intros H. unfold unacknowledged, acknowledged. rewrite H.
  induction (cl_out_messages (client (self w))) as [| m rest IH]; simpl;
    [reflexivity | f_equal; exact IH].
Qed.

(** [stop] in any state. It is held up in [loop_stop], with nothing done
    yet, exactly when the loop thread runs, the client holds a socket, a
    message has been taken and no PUBACK ever arrives. In every other
    state it returns normally and leaves behind no loop thread, no
    socket, a client in state "disconnecting" and a closed HTTP client;
    the live attributes, the subscriptions and the messages are kept. *)
Lemma run_stop (E : env) (w : world) :
  let held_up :=
    cl_thread (client (self w)) = true
    /\ cl_sock (client (self w)) = true
    /\ cl_out_messages (client (self w)) <> []
    /\ puback_after E = None in
  (held_up /\ run E stop w = (Blocks, w))
  \/ (~ held_up
      /\ fst (run E stop w) = Ok tt
      /\ self (snd (run E stop w))
         = mk_service (last_data (self w)) (last_received (self w))
             (mk_client mqtt_cs_disconnecting false false
                        (cl_subscriptions (client (self w)))
                        (cl_out_messages (client (self w))))
             true).
Proof.
  intros held_up. subst held_up. unfold stop. simpl.
  unfold client_loop_stop, client_disconnect.
  destruct (cl_thread (client (self w))) eqn:Hth;
    [| right; split; [intros [H _]; discriminate |]; simpl;
       destruct (cl_sock (client (self w))); simpl; split; reflexivity].
  destruct (cl_sock (client (self w))) eqn:Hsock;
    [| right; split; [intros [_ [H _]]; discriminate |]; simpl;
       rewrite ?Hsock; simpl; split; reflexivity].
  simpl.
  destruct (unacknowledged E w) as [| m rest] eqn:Hun.
  - right. split.
    + intros [_ [_ [Hne Hnever]]].
      rewrite (unacknowledged_never E w Hnever) in Hun. contradiction.
    + simpl. rewrite ?Hsock. simpl. split; reflexivity.
  - destruct (puback_after E) as [d |] eqn:Hack.
    + right. split; [intros [_ [_ [_ H]]]; discriminate |].
      simpl. rewrite ?Hsock. simpl. split; reflexivity.
    + left. split; [| reflexivity].
      repeat split.
      rewrite (unacknowledged_never E w Hack) in Hun. rewrite Hun.
      discriminate.
Qed.





(* ================================================================= *)
(** ** Range strings *)

Lemma digit_is_plain (c : ascii) :
  is_digit c = true ->
  is_space c = false /\ Ascii.eqb c "-" = false /\ Ascii.eqb c "+" = false.
Proof.
  destruct c as [[] [] [] [] [] [] [] []]; vm_compute; intros H;
    repeat split; congruence.
Qed.

Lemma int_digits_all_digits (s : string) (acc : Z) (prev : bool) :
  all_digits s = true ->
  int_digits s acc prev =
  match s with
  | EmptyString => if prev then Some acc else None
  | String _ _ => Some (digits_value s acc)
  end.
Proof.
  revert acc prev. induction s as [| c rest IH]; intros acc prev H.
  - reflexivity.
  - simpl in H. apply andb_true_iff in H. destruct H as [Hc Hrest].
    simpl. rewrite Hc. rewrite (IH _ true Hrest).
    destruct rest; reflexivity.
Qed.

Lemma count_digits_all_digits (s : string) :
  all_digits s = true -> count_digits s = String.length s.
Proof.
  induction s as [| c rest IH]; intros H; [reflexivity |].
  simpl in H. apply andb_true_iff in H. destruct H as [Hc Hrest].
  simpl. rewrite Hc, (IH Hrest). reflexivity.
Qed.

(** [int] of a non-empty string of digits is the number it denotes,
    unless the digits are more than 4300. *)
Lemma py_int_digits (s : string) :
  s <> "" -> all_digits s = true ->
  py_int s = if (int_max_str_digits <? String.length s)%nat
             then Raise ValueError
             else Ok (digits_value s 0).
Proof.
  intros Hne H. destruct s as [| c rest]; [congruence |].
  pose proof H as H'. simpl in H'. apply andb_true_iff in H'.
  destruct H' as [Hc _]. destruct (digit_is_plain c Hc) as [Hs [Hm Hp]].
  unfold py_int. cbn [lstrip]. rewrite Hs, Hm, Hp.
  rewrite (int_digits_all_digits _ 0 false H).
  rewrite (count_digits_all_digits _ H). reflexivity.
Qed.

Lemma drop_last_app (s : string) (c : ascii) :
  drop_last (s ++ String c "") = s.
Proof.
  induction s as [| a rest IH]; [reflexivity |].
  simpl. rewrite IH. destruct rest; reflexivity.
Qed.

Lemma last_char_app (s : string) (c : ascii) :
  last_char (s ++ String c "") = Some c.
Proof.
  induction s as [| a rest IH]; [reflexivity |].
  simpl. rewrite IH. destruct rest; reflexivity.
Qed.

(** The amount part and the unit of a range string [sign body unit]. *)
Lemma slice_range (sign : ascii) (body : string) (c : ascii) :
  slice_1_m1 (String sign (body ++ String c "")) = body
  /\ index_last (String sign (body ++ String c "")) = Ok c.
Proof.
  split.
  - simpl. apply drop_last_app.
  - unfold index_last.
    change (String sign (body ++ String c "")) with
      ((String sign body) ++ String c "").
    rewrite last_char_app. reflexivity.
Qed.

(** The code's unit table and multiplier agree with the spec's units on
    the four unit letters, and fall back to hours on every other
    character. *)
Lemma unit_us_code_vs_spec (c : ascii) :
  unit_us (delta_map c) * (if Ascii.eqb c "m" then 30 else 1)
  = match spec_unit_us c with
    | Some us => us
    | None => us_per_hour
    end.
Proof.
  unfold delta_map, spec_unit_us.
  destruct (Ascii.eqb c "h") eqn:Hh.
  - apply Ascii.eqb_eq in Hh. subst c. reflexivity.
  - destruct (Ascii.eqb c "d") eqn:Hd.
    + apply Ascii.eqb_eq in Hd. subst c. reflexivity.
    + destruct (Ascii.eqb c "w") eqn:Hw.
      * apply Ascii.eqb_eq in Hw. subst c. reflexivity.
      * destruct (Ascii.eqb c "m"); reflexivity.
Qed.

Lemma project_row_dict (r : list (string * json)) :
  project_row (JDict r) = Ok (spec_history_record r).
Proof. reflexivity. Qed.

Lemma project_rows_dicts (rows : list (list (string * json))) :
  project_rows (map JDict rows) = Ok (map spec_history_record rows).
Proof.
  induction rows as [| r rest IH]; [reflexivity |].
  simpl map. unfold project_rows; fold project_rows.
  rewrite project_row_dict, IH. reflexivity.
Qed.

Lemma digits_value_nonneg (s : string) (acc : Z) :
  all_digits s = true -> 0 <= acc -> 0 <= digits_value s acc.
Proof.
  revert acc. induction s as [| c rest IH]; intros acc H Hacc; simpl.
  - exact Hacc.
  - simpl in H. apply andb_true_iff in H. destruct H as [Hc Hrest].
    apply IH; [exact Hrest |].
    unfold is_digit in Hc. apply andb_true_iff in Hc. destruct Hc as [Hlo _].
    apply Nat.leb_le in Hlo. unfold digit_val. lia.
Qed.

Lemma timedelta_in_range_span (us : Z) :
  0 <= us <= datetime_max_us -> timedelta_in_range us = true.
Proof.
  intros [Hlo Hhi]. unfold timedelta_in_range.
  assert (0 <= us / us_per_day) by (apply Z.div_pos; [exact Hlo | reflexivity]).
  assert (us / us_per_day <= 3652059).
  { apply Z.div_le_upper_bound; [reflexivity |].
    unfold datetime_max_us in Hhi. lia. }
  apply andb_true_iff. split; apply Z.leb_le; lia.
Qed.

(** The steps of [query_history] up to the request, for a range string
    whose amount and unit are read and whose bound is representable. *)
Lemma query_history_bound (E : env) (settings : Settings) (range_str : string)
  (limit amount : Z) (c : ascii) (w : world) :
  store_unconfigured settings = false ->
  py_int (slice_1_m1 range_str) = Ok amount ->
  index_last range_str = Ok c ->
  let us := amount * (unit_us (delta_map c) * (if Ascii.eqb c "m" then 30 else 1)) in
  let utcnow := now w + Z.of_N (clock_lag E (now w)) in
  timedelta_in_range us = true ->
  datetime_in_range (utcnow - us) = true ->
  run E (query_history settings range_str limit) w =
  run E
    (try_except
      (_ <- lift (py_str limit) ;;
       response <- perform (HttpSend (history_request settings
           (isoformat (mk_datetime (utcnow - us) None) ++ "Z") limit)) ;;
       if status_code response =? 200 then
         rows <- lift (response_json response) ;;
         items <- lift (py_iter rows) ;;
         lift (project_rows items)
       else
         log ERROR "Supabase-Abfrage fehlgeschlagen" ;;
         ret [])
      (fun e => log ERROR "Supabase-Abfragefehler" ;; ret []))
    (advance (Z.of_N (clock_lag E (now w))) w).
Proof.
  intros Hs Hi Hc us utcnow Ht Hd.
  unfold query_history. rewrite Hs, Hi, Hc. simpl bind.
  unfold timedelta.
  replace (amount * (if Ascii.eqb c "m" then 30 else 1) * unit_us (delta_map c))
    with us by (unfold us; ring).
  rewrite Ht. simpl.
  unfold datetime_minus. simpl. fold utcnow. rewrite Hd. simpl.
  reflexivity.
Qed.

(** A limit that [str] cannot print: the [ValueError] is raised inside
    the [try] block, so the query logs it and returns the empty list
    without a request. *)
Lemma query_history_unprintable_limit (E : env) (settings : Settings)
  (range_str : string) (limit amount : Z) (c : ascii) (w : world) :
  store_unconfigured settings = false ->
  printable limit = false ->
  py_int (slice_1_m1 range_str) = Ok amount ->
  index_last range_str = Ok c ->
  let us := amount * (unit_us (delta_map c) * (if Ascii.eqb c "m" then 30 else 1)) in
  let utcnow := now w + Z.of_N (clock_lag E (now w)) in
  timedelta_in_range us = true ->
  datetime_in_range (utcnow - us) = true ->
  run E (query_history settings range_str limit) w
  = (Ok [], emit (EvLog ERROR "Supabase-Abfragefehler")
              (advance (Z.of_N (clock_lag E (now w))) w)).
Proof.
  intros Hs Hprint Hi Hc us utcnow Ht Hd.
  rewrite (query_history_bound E settings range_str limit amount c w Hs Hi Hc Ht Hd).
  unfold py_str. rewrite Hprint. reflexivity.
Qed.

(** With the store configured and the HTTP client open, such a query
    sends exactly one request, the one built from the bound, and returns
    a list; a 200 answer that is a list of row objects is returned row by
    row as history records. *)
Lemma query_history_configured (E : env) (settings : Settings)
  (range_str : string) (limit amount : Z) (c : ascii) (w : world) :
  store_unconfigured settings = false ->
  http_closed (self w) = false ->
  printable limit = true ->
  py_int (slice_1_m1 range_str) = Ok amount ->
  index_last range_str = Ok c ->
  let us := amount * (unit_us (delta_map c) * (if Ascii.eqb c "m" then 30 else 1)) in
  let utcnow := now w + Z.of_N (clock_lag E (now w)) in
  timedelta_in_range us = true ->
  datetime_in_range (utcnow - us) = true ->
  let rq := history_request settings
              (isoformat (mk_datetime (utcnow - us) None) ++ "Z") limit in
  let (r, w') := run E (query_history settings range_str limit) w in
  (exists items logs,
      r = Ok items
      /\ self w' = self w
      /\ trace w' = (trace w ++ EvHttp rq :: logs)%list
      /\ Forall log_event logs)
  /\ (forall rows,
        store E rq = Ok (mk_response 200 (Ok (JList (map JDict rows)))) ->
        r = Ok (map spec_history_record rows)).
Proof.
  intros Hs Hopen Hprint Hi Hc us utcnow Ht Hd rq.
  rewrite (query_history_bound E settings range_str limit amount c w Hs Hi Hc Ht Hd).
  fold us utcnow rq. unfold py_str. rewrite Hprint. simpl. rewrite Hopen.
  destruct (store E rq) as [[status body] | e] eqn:Hstore; simpl.
  - destruct (status =? 200) eqn:Hstatus; simpl.
    + destruct body as [rows | e]; simpl.
      * destruct (py_iter rows) as [items | e] eqn:Hiter; simpl.
        -- destruct (project_rows items) as [l | e] eqn:Hproj; simpl.
           ++ split.
              ** exists l, []. repeat split. constructor.
              ** intros rows' H. inversion H; subst. simpl in Hiter.
                 inversion Hiter; subst.
                 rewrite project_rows_dicts in Hproj. congruence.
           ++ split.
              ** exists [], [EvLog ERROR "Supabase-Abfragefehler"].
                 repeat split.
                 --- unfold emit. simpl. rewrite <- app_assoc. reflexivity.
                 --- constructor; [exact I | constructor].
              ** intros rows' H. inversion H; subst. simpl in Hiter.
                 inversion Hiter; subst.
                 rewrite project_rows_dicts in Hproj. discriminate.
        -- split.
           ++ exists [], [EvLog ERROR "Supabase-Abfragefehler"].
              repeat split.
              ** unfold emit. simpl. rewrite <- app_assoc. reflexivity.
              ** constructor; [exact I | constructor].
           ++ intros rows' H. inversion H; subst. discriminate.
      * split.
        -- exists [], [EvLog ERROR "Supabase-Abfragefehler"].
           repeat split.
           ++ unfold emit. simpl. rewrite <- app_assoc. reflexivity.
           ++ constructor; [exact I | constructor].
        -- intros rows' H. inversion H.
    + split.
      * exists [], [EvLog ERROR "Supabase-Abfrage fehlgeschlagen"].
        repeat split.
        -- unfold emit. simpl. rewrite <- app_assoc. reflexivity.
        -- constructor; [exact I | constructor].
      * intros rows' H. inversion H; subst. discriminate.
  - split.
    + exists [], [EvLog ERROR "Supabase-Abfragefehler"].
      repeat split.
      * unfold emit. simpl. rewrite <- app_assoc. reflexivity.
      * constructor; [exact I | constructor].
    + intros rows' H. discriminate.
Qed.

(** A bound that cannot be represented: the [timedelta] or the
    subtraction raises [OverflowError] before the [try] block, and
    nothing has been requested. *)
Lemma query_history_overflow (E : env) (settings : Settings) (range_str : string)
  (limit amount : Z) (c : ascii) (w : world) :
  store_unconfigured settings = false ->
  py_int (slice_1_m1 range_str) = Ok amount ->
  index_last range_str = Ok c ->
  let us := amount * (unit_us (delta_map c) * (if Ascii.eqb c "m" then 30 else 1)) in
  let utcnow := now w + Z.of_N (clock_lag E (now w)) in
  timedelta_in_range us && datetime_in_range (utcnow - us) = false ->
  fst (run E (query_history settings range_str limit) w) = Raise OverflowError
  /\ self (snd (run E (query_history settings range_str limit) w)) = self w
  /\ trace (snd (run E (query_history settings range_str limit) w)) = trace w.
Proof.
  intros Hs Hi Hc us utcnow Hout.
  unfold query_history. rewrite Hs, Hi, Hc. simpl bind.
  unfold timedelta.
  replace (amount * (if Ascii.eqb c "m" then 30 else 1) * unit_us (delta_map c))
    with us by (unfold us; ring).
  destruct (timedelta_in_range us); simpl in *.
  - unfold datetime_minus. simpl. fold utcnow. rewrite Hout. simpl.
    repeat split.
  - repeat split.
Qed.

(** C7 (as amended). Let the store be configured and the HTTP client
    open. Take a range string ["-" digits unit] with a non-empty run of
    decimal digits denoting [N] and a unit [h], [d], [w] or [m], the
    month being exactly 30 days. When the digits are at most 4300,
    [now - N * unit] is a representable datetime and the limit is an
    integer that [str] prints (fewer than 4301 digits), [query_history]
    sends exactly one GET request to the [power_logs] table, asking for all
    columns of the rows whose [created_at] is at least [now - N * unit]
    (in ISO format with a [Z]), in ascending order of [created_at], at
    most [limit] of them, and returns a list; when the store answers 200
    with a list of row objects, the result is that list, each row
    projected to exactly the fields time, pv_voltage, pv_current,
    pv_power, batt_voltage, batt_charge_current, batt_soc, load_power and
    energy_today. With a limit that [str] refuses, the [ValueError] is
    caught: the query logs it and returns the empty list. When the digits
    are at most 4300 and the bound is not representable, the call ends in
    [OverflowError]; when they are more than 4300, [int] refuses them and
    the call ends in [ValueError]; in all three cases nothing is
    requested. The default limit is 500. *)
Theorem query_history_well_formed_range
  (E : env) (settings : Settings) (digits : string) (unit : ascii)
  (unit_length limit : Z) (w : world) :
  store_unconfigured settings = false ->
  http_closed (self w) = false ->
  digits <> "" ->
  all_digits digits = true ->
  spec_unit_us unit = Some unit_length ->
  let N := digits_value digits 0 in
  let utcnow := now w + Z.of_N (clock_lag E (now w)) in
  datetime_in_range utcnow = true ->
  let since := isoformat (mk_datetime (utcnow - N * unit_length) None) ++ "Z" in
  let rq :=
    mk_request GET (supabase_url settings ++ "/rest/v1/power_logs")
      [("apikey", supabase_key settings);
       ("Authorization", "Bearer " ++ supabase_key settings)]
      [("select", "*");
       ("created_at", "gte." ++ since);
       ("order", "created_at.asc");
       ("limit", py_str_int limit)]
      None in
  let (r, w') :=
    run E (query_history settings (String "-" (digits ++ String unit "")) limit) w in
  ((String.length digits <= 4300)%nat ->
   datetime_in_range (utcnow - N * unit_length) = true ->
   printable limit = true ->
   (exists items logs,
       r = Ok items
       /\ self w' = self w
       /\ trace w' = (trace w ++ EvHttp rq :: logs)%list
       /\ Forall log_event logs)
   /\ (forall rows,
         store E rq = Ok (mk_response 200 (Ok (JList (map JDict rows)))) ->
         r = Ok (map spec_history_record rows)))
  /\ ((String.length digits <= 4300)%nat ->
      datetime_in_range (utcnow - N * unit_length) = true ->
      printable limit = false ->
      r = Ok []
      /\ self w' = self w
      /\ trace w' = (trace w ++ [EvLog ERROR "Supabase-Abfragefehler"])%list)
  /\ ((String.length digits <= 4300)%nat ->
      datetime_in_range (utcnow - N * unit_length) = false ->
      r = Raise OverflowError /\ self w' = self w /\ trace w' = trace w)
  /\ ((4300 < String.length digits)%nat -> r = Raise ValueError /\ w' = w)
  /\ (forall row,
        keys (spec_history_record row)
        = ["time"; "pv_voltage"; "pv_current"; "pv_power"; "batt_voltage";
           "batt_charge_current"; "batt_soc"; "load_power"; "energy_today"])
  /\ printable default_limit = true
  /\ py_str_int default_limit = "500".
Proof.
  intros Hs Hopen Hne Hdig Hunit N utcnow Hnow since rq.
  destruct (slice_range "-" digits unit) as [Hslice Hlast].
  pose proof (unit_us_code_vs_spec unit) as Hspan. rewrite Hunit in Hspan.
  pose proof (py_int_digits digits Hne Hdig) as Hamount.
  rewrite <- Hslice in Hamount at 1. fold N in Hamount.
  assert (Hpos : 0 <= N * unit_length).
  { apply Z.mul_nonneg_nonneg.
    - apply digits_value_nonneg; [exact Hdig | lia].
    - unfold spec_unit_us in Hunit.
      repeat match type of Hunit with
             | (if ?b then _ else _) = _ => destruct b
             end; inversion Hunit; subst; vm_compute; discriminate. }
  destruct (int_max_str_digits <? String.length digits)%nat eqn:Hlen.
  - (* more than 4300 digits *)
    apply Nat.ltb_lt in Hlen. unfold int_max_str_digits in Hlen.
    assert (Hrun : run E (query_history settings
                            (String "-" (digits ++ String unit "")) limit) w
                   = (Raise ValueError, w)).
    { unfold query_history. rewrite Hs, Hamount. reflexivity. }
    rewrite Hrun.
    split; [intros H; lia |]. split; [intros H; lia |].
    split; [intros H; lia |].
    split; [intros _; split; reflexivity |]. repeat split.
  - apply Nat.ltb_ge in Hlen. unfold int_max_str_digits in Hlen.
    assert (Hdelta : datetime_in_range (utcnow - N * unit_length) = true ->
                     timedelta_in_range (N * unit_length) = true).
    { intros Hbound. apply timedelta_in_range_span.
      unfold datetime_in_range in Hnow, Hbound.
      apply andb_true_iff in Hnow. destruct Hnow as [_ Hnow].
      apply andb_true_iff in Hbound. destruct Hbound as [Hbound _].
      apply Z.leb_le in Hnow. apply Z.leb_le in Hbound. lia. }
    pose proof (fun Hprint =>
                  query_history_configured E settings
                    (String "-" (digits ++ String unit "")) limit N unit w
                    Hs Hopen Hprint Hamount Hlast) as Hsent.
    pose proof (fun Hprint =>
                  query_history_unprintable_limit E settings
                    (String "-" (digits ++ String unit "")) limit N unit w
                    Hs Hprint Hamount Hlast) as Hnone.
    pose proof (query_history_overflow E settings
                  (String "-" (digits ++ String unit "")) limit N unit w
                  Hs Hamount Hlast) as Hover.
    cbv zeta in Hsent, Hnone, Hover. rewrite Hspan in Hsent, Hnone, Hover.
    fold utcnow in Hsent, Hnone, Hover.
    destruct (run E (query_history settings
                       (String "-" (digits ++ String unit "")) limit) w)
      as [r w'].
    split; [| split; [| split; [| split; [intros H; lia | repeat split]]]].
    + intros _ Hbound Hprint. apply (Hsent Hprint (Hdelta Hbound) Hbound).
    + intros _ Hbound Hprint.
      specialize (Hnone Hprint (Hdelta Hbound) Hbound).
      inversion Hnone; subst. repeat split.
    + intros _ Hbound. apply Hover. rewrite Hbound. apply andb_false_r.
Qed.

Lemma query_history_well_formed_range_witness :
  let E := surroundings healthy_store None in
  let rq :=
    mk_request GET "https://project.supabase.co/rest/v1/power_logs"
      [("apikey", "anon-key"); ("Authorization", "Bearer anon-key")]
      [("select", "*");
       ("created_at", "gte.2026-11-02T12:00:00.001000Z");
       ("order", "created_at.asc");
       ("limit", "500")]
      None in
  let (r, w') := run E (query_history configured_settings "-24h" 500) fresh_world in
  ((String.length "24" <= 4300)%nat ->
   datetime_in_range (noon + 1000 - 24 * us_per_hour) = true ->
   printable 500 = true ->
   (exists items logs,
       r = Ok items
       /\ self w' = self fresh_world
       /\ trace w' = (trace fresh_world ++ EvHttp rq :: logs)%list
       /\ Forall log_event logs)
   /\ (forall rows,
         store E rq = Ok (mk_response 200 (Ok (JList (map JDict rows)))) ->
         r = Ok (map spec_history_record rows)))
  /\ ((String.length "24" <= 4300)%nat ->
      datetime_in_range (noon + 1000 - 24 * us_per_hour) = true ->
      printable 500 = false ->
      r = Ok []
      /\ self w' = self fresh_world
      /\ trace w'
         = (trace fresh_world ++ [EvLog ERROR "Supabase-Abfragefehler"])%list)
  /\ ((String.length "24" <= 4300)%nat ->
      datetime_in_range (noon + 1000 - 24 * us_per_hour) = false ->
      r = Raise OverflowError
      /\ self w' = self fresh_world /\ trace w' = trace fresh_world)
  /\ ((4300 < String.length "24")%nat -> r = Raise ValueError /\ w' = fresh_world)
  /\ (forall row,
        keys (spec_history_record row)
        = ["time"; "pv_voltage"; "pv_current"; "pv_power"; "batt_voltage";
           "batt_charge_current"; "batt_soc"; "load_power"; "energy_today"])
  /\ printable default_limit = true
  /\ py_str_int default_limit = "500".
Proof.
  apply (query_history_well_formed_range
           (surroundings healthy_store None) configured_settings
           "24" "h" us_per_hour 500 fresh_world).
  - reflexivity.
  - reflexivity.
  - discriminate.
  - reflexivity.
  - reflexivity.
  - reflexivity.
Defined.

(** The default query on the healthy store: the one stored row comes back
    with the nine fields, the absent columns as [None]. *)
Example query_history_sample :
  fst (run (surroundings healthy_store None)
           (get_history configured_settings default_range) fresh_world)
  = Ok ("-1h", 1,
        [JDict [("time", JStr "2026-11-03T11:30:00+00:00");
                ("pv_voltage", JFloat 182 (-1));
                ("pv_current", JNull);
                ("pv_power", JInt 40);
                ("batt_voltage", JNull);
                ("batt_charge_current", JNull);
                ("batt_soc", JInt 87);
                ("load_power", JNull);
                ("energy_today", JNull)]]).
Proof. reflexivity. Qed.

(** C7, as stated, fails. ["-99999999h"] is a well-formed range string,
    but 99999999 hours before 2026-11-03 lies before year 1, so the
    subtraction raises [OverflowError]: no request is sent and nothing is
    returned. An amount of 4301 nines is refused by [int] with
    [ValueError], again before any request. A limit of 4301 digits is
    refused by [str] inside the [try] block: the query logs the error and
    returns the empty list without a request. And without a configured
    store even ["-24h"] computes no bound and requests nothing. *)
Lemma well_formed_range_without_request :
  let E := surroundings healthy_store None in
  all_digits "99999999" = true
  /\ run E (query_history configured_settings "-99999999h" 500) fresh_world
     = (Raise OverflowError, advance 1000 fresh_world)
  /\ trace (advance 1000 fresh_world) = []
  /\ all_digits (replicate 4301 "9") = true
  /\ run E (query_history configured_settings
              (String "-" (replicate 4301 "9" ++ "h")) 500) fresh_world
     = (Raise ValueError, fresh_world)
  /\ run E (query_history configured_settings "-24h" (10 ^ 4300)) fresh_world
     = (Ok [], emit (EvLog ERROR "Supabase-Abfragefehler")
                 (advance 1000 fresh_world))
  /\ run E (query_history cache_only_settings "-24h" 500) fresh_world
     = (Ok [], fresh_world).
Proof. vm_compute. repeat split. Qed.

(** C3 (as amended). With the store configured, a range string is not
    validated. When its amount part [range_str[1:-1]] is not an integer
    literal, [int] raises [ValueError] before anything else happens, and
    the exception leaves [query_history] and [get_history] uncaught. When
    its last character is none of [h], [d], [w], [m], the query runs
    exactly as it does with the unit [h] in its place: the unit silently
    defaults to hours. *)
Theorem malformed_range_is_not_validated
  (E : env) (settings : Settings) (limit : Z) (w : world) :
  store_unconfigured settings = false ->
  (forall range_str,
      py_int (slice_1_m1 range_str) = Raise ValueError ->
      run E (query_history settings range_str limit) w = (Raise ValueError, w)
      /\ run E (get_history settings range_str) w = (Raise ValueError, w))
  /\ (forall sign body unit,
        spec_unit_us unit = None ->
        run E (query_history settings (String sign (body ++ String unit "")) limit) w
        = run E (query_history settings (String sign (body ++ "h")) limit) w).
Proof.
  intros Hs. split.
  - intros range_str Hi. unfold get_history, query_history.
    rewrite Hs, Hi. split; reflexivity.
  - intros sign body unit Hunit.
    destruct (slice_range sign body unit) as [Hslice Hlast].
    destruct (slice_range sign body "h") as [Hslice' Hlast'].
    unfold query_history. rewrite Hs, Hslice, Hslice', Hlast, Hlast'.
    assert (Hd : delta_map unit = Hours /\ Ascii.eqb unit "m" = false).
    { unfold spec_unit_us in Hunit. unfold delta_map.
      destruct (Ascii.eqb unit "h"); [discriminate |].
      destruct (Ascii.eqb unit "d"); [discriminate |].
      destruct (Ascii.eqb unit "w"); [discriminate |].
      destruct (Ascii.eqb unit "m"); [discriminate |].
      split; reflexivity. }
    destruct Hd as [Hd Hm].
    destruct (py_int body) as [amount | e]; [| reflexivity].
    simpl bind. rewrite Hd, Hm. reflexivity.
Qed.

Lemma malformed_range_is_not_validated_witness :
  let E := surroundings healthy_store None in
  run E (get_history configured_settings "-xh") fresh_world
    = (Raise ValueError, fresh_world)
  /\ run E (query_history configured_settings "-5q" 500) fresh_world
     = run E (query_history configured_settings "-5h" 500) fresh_world.
Proof.
  destruct (malformed_range_is_not_validated
              (surroundings healthy_store None) configured_settings 500
              fresh_world eq_refl) as [Hamount Hunit].
  split.
  - apply (Hamount "-xh"). reflexivity.
  - apply (Hunit "-"%char "5" "q"%char). reflexivity.
Defined.

(** C3, as stated, fails on both kinds of malformed range string. The
    unknown unit of ["-5q"] is no failure at all: the query returns the
    rows of the last five hours. The amount of ["-xh"] is a [ValueError]
    that nothing catches: it leaves [query_history] and the endpoint
    function [get_history] as an exception. *)
Lemma malformed_range_defaults_or_escapes :
  let E := surroundings healthy_store None in
  spec_unit_us "q" = None
  /\ is_ok (fst (run E (query_history configured_settings "-5q" 500)
                       fresh_world)) = true
  /\ fst (run E (query_history configured_settings "-5q" 500) fresh_world)
     = fst (run E (query_history configured_settings "-5h" 500) fresh_world)
  /\ py_int "x" = Raise ValueError
  /\ fst (run E (query_history configured_settings "-xh" 500) fresh_world)
     = Raise ValueError
  /\ fst (run E (get_history configured_settings "-xh") fresh_world)
     = Raise ValueError.
Proof. vm_compute. repeat split. Qed.

(* ================================================================= *)
(** ** The handler and a live read in alternation *)

(** A reading action returns and changes neither the service object nor
    the heap. *)
Lemma step_read_action (E : env) {X} (a : action X) (w : world) :
  read_action X a ->
  self (snd (step E a w)) = self w /\ heap (snd (step E a w)) = heap w.
Proof. destruct a; simpl; try contradiction; intros _; split; reflexivity. Qed.

Section OneMessageProofs.
Variable E : env.
Variable raw : string.
Variable w0 : world.

Lemma phase_le_refl (ph : phase) : phase_le ph ph = true.
Proof. destruct ph; reflexivity. Qed.

Lemma phase_le_trans (a b c : phase) :
  phase_le a b = true -> phase_le b c = true -> phase_le a c = true.
Proof. destruct a, b, c; simpl; congruence. Qed.

Lemma reader_ok_later (ph ph' : phase) (q : prog live_response) :
  phase_le ph ph' = true -> reader_ok E raw w0 ph q -> reader_ok E raw w0 ph' q.
Proof.
  intros Hle. destruct q as [r | X a k]; simpl; [trivial |].
  intros [Hread Hk]. split; [exact Hread |].
  intros ph2 w Hle2 Hpair. apply Hk; [| exact Hpair].
  eapply phase_le_trans; eassumption.
Qed.

(** One read of the live read: the phase found is taken apart, the value
    read is the one the phase gives, and the rest of the program goes
    on. *)
Ltac reader_step Hd0 Ht0 :=
  split; [exact I |];
  let ph := fresh "ph" in
  let w := fresh "w" in
  let Hle := fresh "Hle" in
  let Hp := fresh "Hp" in
  let Hp1 := fresh "Hp1" in
  let Hp2 := fresh "Hp2" in
  let Hp3 := fresh "Hp3" in
  let us := fresh "us" in
  let off := fresh "off" in
  let Hoff := fresh "Hoff" in
  intros ph w Hle Hp;
  destruct ph; simpl in Hle; try discriminate Hle;
  unfold pair_at in Hp; rewrite ?Hd0, ?Ht0 in Hp;
  first [ destruct Hp as [Hp1 [[[us off] [Hp2 Hoff]] Hp3]];
          simpl in Hoff; subst off
        | destruct Hp as [Hp1 [Hp2 Hp3]]
        | destruct Hp as [Hp1 Hp2] ];
  (eexists; split; [reflexivity |]);
  cbn -[read_outcome]; rewrite ?Hp1, ?Hp2; cbn -[read_outcome].

Ltac reader_end Hd0 :=
  unfold read_outcome; rewrite Hd0;
  first [ reflexivity
        | left; reflexivity
        | right; left; reflexivity
        | right; right; split; [reflexivity | assumption] ].

Lemma get_live_data_reader_ok :
  live_pair_ok w0 -> reader_ok E raw w0 Before get_live_data.
Proof.
  unfold live_pair_ok.
  destruct (last_data (self w0)) as [r0 |] eqn:Hd0;
    destruct (last_received (self w0)) as [[us0 off0] |] eqn:Ht0;
    try contradiction.
  - intros [_ [_ [Hoff _]]]. simpl in Hoff. subst off0.
    unfold get_live_data. cbn -[read_outcome].
    repeat first [ reader_end Hd0 | reader_step Hd0 Ht0 ].
  - intros _. unfold get_live_data. cbn -[read_outcome].
    repeat first [ reader_end Hd0 | reader_step Hd0 Ht0 ].
Qed.

Lemma pair_at_self (ph : phase) (w w' : world) :
  self w' = self w -> pair_at E raw w0 ph w -> pair_at E raw w0 ph w'.
Proof. intros H. unfold pair_at. rewrite H. trivial. Qed.

Lemma heap_at_heap (loaded : bool) (w w' : world) :
  heap w' = heap w -> heap_at E raw w0 loaded w -> heap_at E raw w0 loaded w'.
Proof. intros H. unfold heap_at. rewrite H. trivial. Qed.

(** A store action returns and leaves the service object and the heap. *)
Lemma step_store_action {X} (a : action X) (w : world) :
  store_action X a ->
  exists r, fst (step E a w) = Returns r
            /\ self (snd (step E a w)) = self w
            /\ heap (snd (step E a w)) = heap w.
Proof.
  destruct a; simpl; try contradiction; intros _;
    try (eexists; repeat split; reflexivity).
  destruct (request_encodable rq), (http_closed (self w));
    eexists; repeat split; reflexivity.
Qed.

Lemma store_actions_handler_ok (ph : phase) (p : prog unit) :
  prog_forall store_action p -> handler_ok E raw w0 ph true p.
Proof.
  induction p as [r | X a k IH]; simpl; [reflexivity |].
  intros [Ha Hk] w Hp Hh.
  destruct (step_store_action a w Ha) as [r [Hr [Hself Hheap]]].
  exists r, ph, true. split; [exact Hr |]. split; [apply phase_le_refl |].
  split; [eapply pair_at_self; eassumption |].
  split; [eapply heap_at_heap; eassumption |].
  apply IH, Hk.
Qed.

Lemma handler_logs_ok (ph : phase) (h : exn -> prog unit) (e : exn) :
  (forall e, prog_forall store_action (h e)) ->
  handler_ok E raw w0 ph true (h e).
Proof. intros H. apply store_actions_handler_ok, H. Qed.

Lemma on_message_handler_ok (settings : Settings) :
  handler_ok E raw w0 Before false (_on_message settings raw).
Proof.
  assert (Hlogs : forall e,
            prog_forall store_action
              match e with
              | JSONDecodeError => log ERROR "Ungueltiges JSON empfangen"
              | _ => log ERROR "Fehler bei Nachrichtenverarbeitung"
              end)
    by (intros e; destruct e; apply prog_forall_perform; exact I).
  unfold _on_message. cbn -[_write_to_supabase].
  intros w Hp Hh. unfold heap_at in Hh. rewrite app_nil_r in Hh.
  destruct (json_loads E raw) as [v | e] eqn:Hv.
  - exists (Ok (List.length (heap w))), Before, true.
    split; [reflexivity |]. split; [reflexivity |].
    split; [exact Hp |].
    split; [unfold heap_at, allocated; rewrite Hv; simpl; rewrite Hh; reflexivity |].
    cbn -[_write_to_supabase].
    intros w1 Hp1 Hh1.
    assert (Hnth : nth (List.length (heap w)) (heap w1) JNull = v).
    { unfold heap_at, allocated in Hh1. rewrite Hv in Hh1.
      rewrite Hh1, Hh. apply nth_alloc. }
    exists (Ok v), Before, true.
    split; [rewrite Hnth; reflexivity |]. split; [reflexivity |].
    split; [exact Hp1 |]. split; [exact Hh1 |].
    destruct v as [| | | | | | kvs | |];
      try (apply (handler_logs_ok Before _ AttributeError Hlogs)).
    cbn -[_write_to_supabase].
    (* the log line *)
    intros w2 Hp2 Hh2. exists (Ok tt), Before, true.
    split; [reflexivity |]. split; [reflexivity |].
    split; [exact Hp2 |]. split; [exact Hh2 |].
    (* last_data *)
    intros w3 Hp3 Hh3. exists (Ok tt), Torn, true.
    split; [reflexivity |]. split; [reflexivity |]. split.
    { unfold pair_at. simpl. unfold new_ref. rewrite Hh.
      split; [reflexivity |]. split; [apply Hp3 |]. exists kvs. exact Hv. }
    split; [exact Hh3 |].
    (* the clock *)
    intros w4 Hp4 Hh4. eexists _, Torn, true.
    split; [reflexivity |]. split; [reflexivity |].
    split; [exact Hp4 |]. split; [exact Hh4 |].
    (* last_received *)
    intros w5 Hp5 Hh5. exists (Ok tt), After, true.
    split; [reflexivity |]. split; [reflexivity |]. split.
    { unfold pair_at. simpl. split; [apply Hp5 |].
      split; [eexists; split; reflexivity |]. exists kvs. exact Hv. }
    split; [exact Hh5 |].
    (* the store write *)
    apply store_actions_handler_ok, prog_forall_try_except.
    + apply write_to_supabase_actions.
    + exact Hlogs.
  - exists (Raise e), Before, true.
    split; [reflexivity |]. split; [reflexivity |].
    split; [exact Hp |].
    split; [unfold heap_at, allocated; rewrite Hv, app_nil_r; exact Hh |].
    apply (handler_logs_ok Before _ e Hlogs).
Qed.

(** The two predicates hold at the start and after every slot of a
    schedule. *)
Lemma interleave_ok (sched : list thread) (p : prog unit)
  (q : prog live_response) (w : world) (ph : phase) (loaded : bool) :
  pair_at E raw w0 ph w -> heap_at E raw w0 loaded w ->
  handler_ok E raw w0 ph loaded p -> reader_ok E raw w0 ph q ->
  exists ph' loaded',
    pair_at E raw w0 ph' (snd (interleave E sched p q w))
    /\ heap_at E raw w0 loaded' (snd (interleave E sched p q w))
    /\ handler_ok E raw w0 ph' loaded' (fst (fst (interleave E sched p q w)))
    /\ reader_ok E raw w0 ph' (snd (fst (interleave E sched p q w))).
Proof.
  revert p q w ph loaded.
  induction sched as [| [|] rest IH]; intros p q w ph loaded Hp Hh Hhandler Hreader.
  - exists ph, loaded. simpl. repeat split; assumption.
  - (* the loop thread moves *)
    destruct p as [r | X a k]; simpl.
    + apply (IH _ _ _ ph loaded); assumption.
    + simpl in Hhandler.
      destruct (Hhandler w Hp Hh) as [r [ph' [loaded' [Hr [Hle [Hp' [Hh' Hk]]]]]]].
      destruct (step E a w) as [[r' |] w1]; simpl in Hr, Hp', Hh';
        [| discriminate Hr].
      inversion Hr; subst r'.
      apply (IH _ _ _ ph' loaded'); try assumption.
      eapply reader_ok_later; eassumption.
  - (* the request thread moves *)
    destruct q as [r | X a k]; simpl.
    + apply (IH _ _ _ ph loaded); assumption.
    + destruct Hreader as [Hread Hk].
      destruct (Hk ph w (phase_le_refl ph) Hp) as [r [Hr Hq]].
      destruct (step_read_action E a w Hread) as [Hself Hheap].
      destruct (step E a w) as [[r' |] w1]; simpl in Hr, Hself, Hheap;
        [| discriminate Hr].
      inversion Hr; subst r'.
      apply (IH _ _ _ ph loaded); try assumption.
      * eapply pair_at_self; eassumption.
      * eapply heap_at_heap; eassumption.
Qed.

(** The handler run to its end: the message has been decoded. *)
Lemma run_handler_ok (p : prog unit) (w : world) (ph : phase) (loaded : bool) :
  pair_at E raw w0 ph w -> heap_at E raw w0 loaded w ->
  handler_ok E raw w0 ph loaded p ->
  exists ph',
    phase_le ph ph' = true
    /\ pair_at E raw w0 ph' (snd (run E p w))
    /\ heap_at E raw w0 true (snd (run E p w)).
Proof.
  revert w ph loaded. induction p as [r | X a k IH]; intros w ph loaded Hp Hh Hok.
  - simpl in Hok. subst loaded. exists ph. simpl.
    split; [apply phase_le_refl |]. split; assumption.
  - simpl in Hok |- *.
    destruct (Hok w Hp Hh) as [r [ph' [loaded' [Hr [Hle [Hp' [Hh' Hk]]]]]]].
    destruct (step E a w) as [[r' |] w1]; simpl in Hr, Hp', Hh';
      [| discriminate Hr].
    inversion Hr; subst r'.
    destruct (IH r w1 ph' loaded' Hp' Hh' Hk) as [ph2 [Hle2 [Hp2 Hh2]]].
    exists ph2. split; [eapply phase_le_trans; eassumption |].
    split; assumption.
Qed.

(** The live read run to its end. *)
Lemma run_reader_ok (q : prog live_response) (w : world) (ph : phase) :
  pair_at E raw w0 ph w -> reader_ok E raw w0 ph q ->
  exists r,
    fst (run E q w) = Returns r
    /\ read_outcome E raw w0 r
    /\ heap (snd (run E q w)) = heap w.
Proof.
  revert w ph. induction q as [r | X a k IH]; intros w ph Hp Hok.
  - exists r. simpl. repeat split. exact Hok.
  - destruct Hok as [Hread Hk]. simpl.
    destruct (Hk ph w (phase_le_refl ph) Hp) as [r [Hr Hq]].
    destruct (step_read_action E a w Hread) as [Hself Hheap].
    destruct (step E a w) as [[r' |] w1]; simpl in Hr, Hself, Hheap;
      [| discriminate Hr].
    inversion Hr; subst r'.
    destruct (IH r w1 ph (pair_at_self ph w w1 Hself Hp) Hq) as [r2 [H1 [H2 H3]]].
    exists r2. split; [exact H1 |]. split; [exact H2 | congruence].
Qed.

End OneMessageProofs.

(** A live read that returns hands out what [last_data] holds. *)
Lemma get_live_data_returns_reference (E : env) (w : world)
  (resp : live_response) :
  fst (run E get_live_data w) = Ok resp -> data resp = last_data (self w).
Proof.
  unfold get_live_data. simpl.
  destruct (last_data (self w)) as [r |] eqn:Hd; simpl; [| discriminate].
  rewrite Hd.
  destruct (last_received (self w)) as [[us [off |]] |] eqn:Hr;
    repeat (simpl; rewrite ?Hr); intros H; inversion H; reflexivity.
Qed.

(** C10 (as amended). A live read that returns hands out the reference
    held in [last_data] itself, not a copy. The handler replaces
    [last_data] and [last_received] by two assignments, and the read
    computes the age of a stored timestamp by a subtraction that raises
    (C5); so, under every interleaving of one message handler with one
    live read, started between two messages: when a payload was stored
    before, the read ends in [TypeError], whatever the schedule; when
    nothing was stored, it answers 503, or ends in [TypeError], or returns
    the reference of the object that [json.loads] has just created,
    whole, paired with no timestamp at all. The heap afterwards is the
    heap before with that one object added: no stored object is ever
    changed, during or after a read. *)
Theorem live_read_beside_one_message
  (E : env) (settings : Settings) (raw : string) (sched : list thread)
  (w : world) :
  live_pair_ok w ->
  let '(ra, rb, w') :=
    run_both E sched (_on_message settings raw) get_live_data w in
  let new := List.length (heap w) in
  heap w' = (heap w ++ allocated E raw)%list
  /\ match last_data (self w) with
     | Some _ => rb = Raise TypeError
     | None =>
         rb = Raise (HTTPException 503)
         \/ rb = Raise TypeError
         \/ (rb = Ok (mk_live (Some new) None None)
             /\ exists kvs,
                  json_loads E raw = Ok (JDict kvs)
                  /\ nth new (heap w') JNull = JDict kvs)
     end
  /\ (forall w1 resp, fst (run E get_live_data w1) = Ok resp ->
                      data resp = last_data (self w1)).
Proof.
  intros Hok. unfold run_both.
  assert (Hp : pair_at E raw w Before w) by (split; reflexivity).
  assert (Hh : heap_at E raw w false w)
    by (unfold heap_at; rewrite app_nil_r; reflexivity).
  destruct (interleave_ok E raw w sched _ _ w Before false Hp Hh
              (on_message_handler_ok E raw w settings)
              (get_live_data_reader_ok E raw w Hok))
    as [ph [loaded [Hp1 [Hh1 [Hhandler Hreader]]]]].
  destruct (interleave E sched (_on_message settings raw) get_live_data w)
    as [[p' q'] w1]. simpl in Hp1, Hh1, Hhandler, Hreader.
  destruct (run_handler_ok E raw w p' w1 ph loaded Hp1 Hh1 Hhandler)
    as [ph2 [Hle [Hp2 Hh2]]].
  destruct (run E p' w1) as [ra w2]. simpl in Hp2, Hh2.
  pose proof (reader_ok_later E raw w ph ph2 q' Hle Hreader) as Hreader2.
  destruct (run_reader_ok E raw w q' w2 ph2 Hp2 Hreader2) as [r [Hr [Hout Hheap]]].
  destruct (run E q' w2) as [rb w3]. simpl in Hr, Hheap. subst rb.
  unfold heap_at in Hh2.
  split; [congruence |]. split.
  - unfold read_outcome, new_ref in Hout.
    destruct (last_data (self w)); [congruence |].
    destruct Hout as [H | [H | [H [kvs Hv]]]]; subst r.
    + left. reflexivity.
    + right. left. reflexivity.
    + right. right. split; [reflexivity |]. exists kvs. split; [exact Hv |].
      rewrite Hheap, Hh2. unfold allocated. rewrite Hv. apply nth_alloc.
  - intros w4 resp. apply get_live_data_returns_reference.
Qed.

(** C10, as stated, fails. The handler stores the payload, the live read
    runs before the handler stores the timestamp, and the handler
    finishes: the read returns the new payload with no timestamp at all,
    a pair the service holds neither before the message (nothing, which
    is answered with status 503) nor after it (payload and timestamp).
    What it returns as [data] is the very reference the service holds. *)
Lemma live_read_sees_half_replaced_pair :
  let E := surroundings healthy_store None in
  let raw := dq "{'device_id':'esp32-1','battery':{'soc':87}}" in
  let sched := [LoopThread; LoopThread; LoopThread; LoopThread;
                RequestThread; RequestThread; RequestThread; RequestThread] in
  let '(ra, rb, w') :=
    run_both E sched (_on_message configured_settings raw) get_live_data
             fresh_world in
  fst (run E get_live_data fresh_world) = Raise (HTTPException 503)
  /\ ra = Ok tt
  /\ rb = Ok (mk_live (Some 0%nat) None None)
  /\ last_data (self w') = Some 0%nat
  /\ last_received (self w')
     = Some (mk_datetime (noon + 1000) None).
Proof. vm_compute. repeat split. Qed.

Lemma live_read_beside_one_message_witness :
  let E := surroundings healthy_store None in
  let raw := dq "{'device_id':'esp32-1','battery':{'soc':87}}" in
  let sched := [LoopThread; LoopThread; LoopThread; LoopThread;
                RequestThread; RequestThread; RequestThread; RequestThread] in
  let after_one := snd (run E (_on_message configured_settings raw) fresh_world) in
  snd (fst (run_both E sched (_on_message configured_settings raw)
                     get_live_data after_one))
  = Raise TypeError
  /\ snd (fst (run_both E sched (_on_message configured_settings raw)
                        get_live_data fresh_world))
     = Ok (mk_live (Some 0%nat) None None).
Proof.
  cbv zeta. split.
  - assert (Hok : live_pair_ok
                    (snd (run (surroundings healthy_store None)
                            (_on_message configured_settings
                               (dq "{'device_id':'esp32-1','battery':{'soc':87}}"))
                            fresh_world))).
    { vm_compute. repeat split; try reflexivity. intros H. discriminate H. }
    pose proof (live_read_beside_one_message
                  (surroundings healthy_store None) configured_settings
                  (dq "{'device_id':'esp32-1','battery':{'soc':87}}")
                  [LoopThread; LoopThread; LoopThread; LoopThread;
                   RequestThread; RequestThread; RequestThread; RequestThread]
                  _ Hok) as H.
    match type of H with
    | context [run_both ?E ?s ?p ?q ?w] =>
        remember (run_both E s p q w) as outcome eqn:Hrun
    end.
    vm_compute in Hrun. subst outcome. cbv beta iota zeta in H |- *.
    destruct H as [_ [H _]]. vm_compute in H. exact H.
  - pose proof (live_read_beside_one_message
                  (surroundings healthy_store None) configured_settings
                  (dq "{'device_id':'esp32-1','battery':{'soc':87}}")
                  [LoopThread; LoopThread; LoopThread; LoopThread;
                   RequestThread; RequestThread; RequestThread; RequestThread]
                  fresh_world I) as H.
    match type of H with
    | context [run_both ?E ?s ?p ?q ?w] =>
        remember (run_both E s p q w) as outcome eqn:Hrun
    end.
    vm_compute in Hrun. subst outcome. cbv beta iota zeta in H |- *.
    destruct H as [_ [H _]]. simpl in H.
    destruct H as [H | [H | [H _]]]; [discriminate H | discriminate H | exact H].
Defined.


(* ================================================================= *)
(** * Further properties *)

(** ** Token authentication *)

Lemma truthy_opt_true (o : option string) :
  truthy_opt o = true <-> exists s, o = Some s /\ s <> "".
Proof.
  destruct o as [[| c s] |]; simpl; split; intros H; try discriminate.
  - destruct H as [s [H1 H2]]. inversion H1; subst. congruence.
  - exists (String c s). split; [reflexivity | discriminate].
  - reflexivity.
  - destruct H as [s [H1 _]]. discriminate.
Qed.

(** X1. [verify_token] returns a token exactly when the configured token
    is not empty and the token looked at equals it: the Bearer credential
    when there is a non-empty one, and the query parameter only
    otherwise. The token it returns is the configured one. A non-empty
    Bearer credential that is wrong is therefore not rescued by a correct
    query parameter. *)
Theorem verify_token_accepts_iff
  (E : env) (api_token : string) (request : api_request) (w : world)
  (t : string) :
  fst (run E (verify_token api_token request) w) = Ok t
  <->
  t = api_token
  /\ api_token <> ""
  /\ (if truthy_opt (credentials request)
      then credentials request = Some api_token
      else token request = Some api_token).
Proof.
  unfold verify_token.
  destruct (truthy_opt (credentials request)) eqn:Hc.
  - rewrite Hc. simpl negb. cbv iota.
    apply truthy_opt_true in Hc. destruct Hc as [c [Hc Hne]]. rewrite Hc.
    destruct (String.eqb c api_token) eqn:Heq; simpl.
    + apply String.eqb_eq in Heq. subst c. split.
      * intros H. inversion H; subst. repeat split; assumption.
      * intros [H _]. subst. reflexivity.
    + apply String.eqb_neq in Heq. split.
      * destruct (client_host request); simpl; intros H; discriminate.
      * intros [_ [_ H]]. inversion H. congruence.
  - destruct (truthy_opt (token request)) eqn:Ht.
    + rewrite Ht. simpl negb. cbv iota.
      apply truthy_opt_true in Ht. destruct Ht as [c [Ht Hne]]. rewrite Ht.
      destruct (String.eqb c api_token) eqn:Heq; simpl.
      * apply String.eqb_eq in Heq. subst c. split.
        -- intros H. inversion H; subst. repeat split; assumption.
        -- intros [H _]. subst. reflexivity.
      * apply String.eqb_neq in Heq. split.
        -- destruct (client_host request); simpl; intros H; discriminate.
        -- intros [_ [_ H]]. inversion H. congruence.
    + simpl. split; [intros H; discriminate |].
      intros [_ [Hne H]]. rewrite H in Ht. simpl in Ht.
      destruct api_token; [congruence | discriminate].
Qed.

(** X2. A request whose token is wrong is answered with status 401 after
    one WARNING line when the server knows the client's address; when it
    does not ([request.client] is [None]), reading the host for the log
    line raises [AttributeError] and neither the line nor the 401
    happens. *)
Theorem verify_token_wrong_token
  (E : env) (api_token : string) (request : api_request) (w : world)
  (provided : string) :
  provided <> "" ->
  provided <> api_token ->
  credentials request = Some provided
  \/ (truthy_opt (credentials request) = false
      /\ token request = Some provided) ->
  run E (verify_token api_token request) w =
  match client_host request with
  | Some _ => (Raise (HTTPException 401),
               emit (EvLog WARNING "Ungueltiger Login-Versuch") w)
  | None => (Raise AttributeError, w)
  end.
Proof.
  intros Hne Hwrong Hsrc. apply String.eqb_neq in Hwrong.
  assert (Htruthy : truthy provided = true) by (destruct provided; [congruence | reflexivity]).
  unfold verify_token. destruct Hsrc as [Hc | [Hc Ht]].
  - rewrite Hc. simpl truthy_opt. rewrite Htruthy. simpl. rewrite Htruthy.
    simpl. rewrite Hwrong. simpl.
    destruct (client_host request); reflexivity.
  - rewrite Hc, Ht. simpl truthy_opt. rewrite Htruthy. simpl. rewrite Htruthy.
    simpl. rewrite Hwrong. simpl.
    destruct (client_host request); reflexivity.
Qed.

Lemma verify_token_wrong_token_witness :
  run (surroundings healthy_store None)
      (verify_token api_secret (mk_api_request None (Some "guess") None))
      fresh_world
  = (Raise AttributeError, fresh_world).
Proof.
  apply (verify_token_wrong_token (surroundings healthy_store None) api_secret
           (mk_api_request None (Some "guess") None) fresh_world "guess").
  - discriminate.
  - discriminate.
  - left. reflexivity.
Defined.

(** X3. [login] succeeds exactly for the configured token as password
    and hands that token out; when the token is not empty, what [login]
    hands out is accepted by [verify_token] both as Bearer credential and
    as query parameter. *)
Theorem login_token_is_accepted
  (E : env) (api_token password : string) (host : option string) (w : world) :
  api_token <> "" ->
  (fst (run E (login api_token password) w)
     = Ok (JDict [("token", JStr api_token);
                  ("message", JStr "Login erfolgreich")])
   <-> password = api_token)
  /\ (password <> api_token ->
      run E (login api_token password) w = (Raise (HTTPException 401), w))
  /\ run E (verify_token api_token (mk_api_request host (Some api_token) None)) w
     = (Ok api_token, w)
  /\ run E (verify_token api_token (mk_api_request host None (Some api_token))) w
     = (Ok api_token, w).
Proof.
  intros Hne.
  assert (Htruthy : truthy api_token = true) by (destruct api_token; [congruence | reflexivity]).
  split; [| split; [| split]].
  - unfold login. destruct (String.eqb password api_token) eqn:Heq; simpl.
    + apply String.eqb_eq in Heq. split; [intros _; exact Heq | reflexivity].
    + apply String.eqb_neq in Heq. split; [discriminate | congruence].
  - intros H. apply String.eqb_neq in H. unfold login. rewrite H. reflexivity.
  - unfold verify_token. simpl. rewrite Htruthy. simpl. rewrite Htruthy.
    simpl. rewrite String.eqb_refl. reflexivity.
  - unfold verify_token. simpl. rewrite Htruthy. simpl. rewrite Htruthy.
    simpl. rewrite String.eqb_refl. reflexivity.
Qed.

Lemma login_token_is_accepted_witness :
  let E := surroundings healthy_store None in
  (fst (run E (login api_secret "s3cret") fresh_world)
     = Ok (JDict [("token", JStr api_secret);
                  ("message", JStr "Login erfolgreich")])
   <-> "s3cret" = api_secret)
  /\ ("s3cret" <> api_secret ->
      run E (login api_secret "s3cret") fresh_world
      = (Raise (HTTPException 401), fresh_world))
  /\ run E (verify_token api_secret (mk_api_request None (Some api_secret) None))
         fresh_world
     = (Ok api_secret, fresh_world)
  /\ run E (verify_token api_secret (mk_api_request None None (Some api_secret)))
         fresh_world
     = (Ok api_secret, fresh_world).
Proof.
  apply (login_token_is_accepted (surroundings healthy_store None) api_secret
           "s3cret" None fresh_world).
  discriminate.
Defined.

(** X4. With an empty configured token, [login] and
    [verify_token_endpoint] accept the empty password, yet
    [verify_token] accepts no request at all: every protected route is
    closed to everyone. *)
Theorem empty_api_token_locks_the_routes
  (E : env) (request : api_request) (w : world) (t : string) :
  fst (run E (login "" "") w)
    = Ok (JDict [("token", JStr ""); ("message", JStr "Login erfolgreich")])
  /\ fst (run E (verify_token_endpoint "" "") w) = Ok (JDict [("valid", JBool true)])
  /\ fst (run E (verify_token "" request) w) <> Ok t.
Proof.
  split; [reflexivity | split; [reflexivity |]].
  unfold verify_token.
  destruct (credentials request) as [[| c cs] |]; simpl.
  - destruct (token request) as [[| c cs] |]; simpl; try discriminate.
    destruct (client_host request); simpl; discriminate.
  - destruct (client_host request); simpl; discriminate.
  - destruct (token request) as [[| c cs] |]; simpl; try discriminate.
    destruct (client_host request); simpl; discriminate.
Qed.

(* ================================================================= *)
(** ** Command relay, all cases *)

(** X5. [publish_command] never raises. It returns [True] exactly when
    the client is connected and [publish] returned code 0, and only then
    does it wait. The message is handed to the client at most once, first
    of all, on the command topic with QoS 1; everything else it leaves in
    the trace is a log line or the wait. Of the service object it changes
    nothing but the client's [_out_messages], which gains the command when
    the command was handed over, whatever the return code, unless that is
    [MQTT_ERR_QUEUE_SIZE]. *)
Theorem publish_command_outcomes
  (E : env) (settings : Settings) (command_json : string) (w : world) :
  let (r, w') := run E (publish_command settings command_json) w in
  let m := mk_out_message (mqtt_topic_command settings) command_json (now w) in
  (exists b, r = Ok b
     /\ (b = true <->
         cl_state (client (self w)) = mqtt_cs_connected
         /\ publish_result E (mqtt_topic_command settings) command_json
            = Ok MQTT_ERR_SUCCESS)
     /\ (b = false -> now w' = now w))
  /\ exists evs,
       trace w' = (trace w ++ evs)%list
       /\ ((Forall log_or_wait evs /\ self w' = self w)
           \/ exists rest,
                evs = EvPublish (mqtt_topic_command settings) command_json 1
                        :: rest
                /\ Forall log_or_wait rest
                /\ self w'
                   = if match publish_result E (mqtt_topic_command settings)
                                            command_json with
                        | Ok code => code =? MQTT_ERR_QUEUE_SIZE
                        | Raise _ => true
                        end
                     then self w
                     else self (take_message m w)).
Proof.
  rewrite publish_command_cases.
  destruct (cl_state (client (self w))) eqn:Hst.
  1, 3: (split; [exists false; split; [reflexivity |
           split; [split; [discriminate | intros [H _]; discriminate]
                  | reflexivity]] |];
         eexists; split; [reflexivity |];
         left; split; [repeat constructor | reflexivity]).
  destruct (publish_result E (mqtt_topic_command settings) command_json)
    as [code | e] eqn:Hp.
  - cbv zeta. destruct (code =? MQTT_ERR_SUCCESS) eqn:Hcode.
    + apply Z.eqb_eq in Hcode. subst code.
      split; [exists true; split; [reflexivity |
                split; [split; [intros _; split; reflexivity | reflexivity]
                       | discriminate]] |].
      eexists. split.
      * unfold emit, advance. simpl. rewrite <- !app_assoc. reflexivity.
      * right. eexists. split; [reflexivity |].
        split; [repeat constructor | reflexivity].
    + apply Z.eqb_neq in Hcode.
      destruct (code =? MQTT_ERR_QUEUE_SIZE);
        (split; [exists false; split; [reflexivity |
                   split; [split; [discriminate |
                                   intros [_ H]; inversion H; congruence]
                          | reflexivity]] |];
         eexists; split;
           [unfold emit; simpl; rewrite <- !app_assoc; reflexivity |];
         right; eexists; split; [reflexivity |];
         split; [repeat constructor | reflexivity]).
  - split; [exists false; split; [reflexivity |
              split; [split; [discriminate | intros [_ H]; discriminate]
                     | reflexivity]] |].
    eexists; split; [reflexivity |]. left.
    split; [repeat constructor | reflexivity].
Qed.

(* ================================================================= *)
(** ** The toggle endpoint *)

Lemma command_text (state : bool) :
  json_dumps (JDict [("command", JStr "toggle_load"); ("state", JBool state)])
  = dq ("{'command': 'toggle_load', 'state': "
        ++ (if state then "true" else "false") ++ "}")
  /\ reader (json_dumps (JDict [("command", JStr "toggle_load");
                                ("state", JBool state)]))
     = Ok (JDict [("command", JStr "toggle_load"); ("state", JBool state)]).
Proof. destruct state; split; reflexivity. Qed.

(** X6. [toggle_load] relays exactly one command text, the JSON object
    with the command [toggle_load] and the requested state, and what it
    leaves behind is what [publish_command] leaves for that text. It
    answers [ok] with the requested state exactly when the client is
    connected and [publish] returned code 0, and then the command has been
    handed to the client on the command topic with QoS 1, first of all;
    in every other case it ends in status 502, and while the client is
    not connected nothing but the warning happens. *)
Theorem toggle_load_outcomes
  (E : env) (settings : Settings) (state : bool) (w : world) :
  let command := json_dumps (JDict [("command", JStr "toggle_load");
                                    ("state", JBool state)]) in
  let relayed :=
    cl_state (client (self w)) = mqtt_cs_connected
    /\ publish_result E (mqtt_topic_command settings) command
       = Ok MQTT_ERR_SUCCESS in
  let (r, w') := run E (toggle_load settings state) w in
  reader command = Ok (JDict [("command", JStr "toggle_load");
                              ("state", JBool state)])
  /\ w' = snd (run E (publish_command settings command) w)
  /\ (relayed ->
      r = Ok (JDict [("status", JStr "ok");
                     ("message", JStr ("Load-Befehl gesendet: "
                                       ++ if state then "EIN" else "AUS"));
                     ("requested_state", JBool state)])
      /\ exists rest,
           trace w' = (trace w ++ EvPublish (mqtt_topic_command settings)
                                            command 1 :: rest)%list
           /\ Forall log_or_wait rest)
  /\ (~ relayed -> r = Raise (HTTPException 502))
  /\ (cl_state (client (self w)) <> mqtt_cs_connected ->
      w' = emit (EvLog WARNING "MQTT nicht verbunden") w).
Proof.
  intros command relayed. subst relayed.
  unfold toggle_load. fold command. rewrite run_bind, publish_command_cases.
  destruct (command_text state) as [_ Hread]. fold command in Hread.
  destruct (cl_state (client (self w))) eqn:Hst.
  1, 3: (simpl; split; [exact Hread |]; split; [reflexivity |];
         split; [intros [H _]; discriminate |];
         split; [reflexivity |]; reflexivity).
  destruct (publish_result E (mqtt_topic_command settings) command)
    as [code | e].
  - cbv zeta. destruct (code =? MQTT_ERR_SUCCESS) eqn:Hcode; simpl.
    + apply Z.eqb_eq in Hcode. subst code.
      split; [exact Hread |]. split; [reflexivity |]. split.
      * intros _. split; [reflexivity |]. eexists. split.
        -- unfold emit, advance. simpl. rewrite <- !app_assoc. reflexivity.
        -- repeat constructor.
      * split; [intros H; exfalso; apply H; split; reflexivity |].
        intros H. congruence.
    + apply Z.eqb_neq in Hcode.
      split; [exact Hread |]. split; [reflexivity |]. split.
      * intros [_ H]. inversion H. congruence.
      * split; [reflexivity | intros H; congruence].
  - simpl. split; [exact Hread |]. split; [reflexivity |]. split.
    + intros [_ H]. discriminate.
    + split; [reflexivity | intros H; congruence].
Qed.

(* ================================================================= *)
(** ** The protected routes *)

(** An accepted request: the dependency returns the configured token and
    leaves the world as it is. *)
Lemma verify_token_accepted
  (E : env) (api_token : string) (request : api_request) (w : world) :
  api_token <> "" ->
  (if truthy_opt (credentials request)
   then credentials request = Some api_token
   else token request = Some api_token) ->
  run E (verify_token api_token request) w = (Ok api_token, w).
Proof.
  intros Hne Hsrc.
  assert (Htruthy : truthy api_token = true)
    by (destruct api_token; [congruence | reflexivity]).
  unfold verify_token.
  destruct (truthy_opt (credentials request)) eqn:Hc.
  - rewrite Hsrc in *. simpl. rewrite Htruthy. simpl.
    rewrite String.eqb_refl. reflexivity.
  - rewrite Hsrc. simpl. rewrite Htruthy. simpl. rewrite Htruthy. simpl.
    rewrite String.eqb_refl. reflexivity.
Qed.

(** A request that is not accepted: the dependency raises, and all it can
    leave behind is one log line. *)
Lemma verify_token_rejected
  (E : env) (api_token : string) (request : api_request) (w : world) :
  ~ (api_token <> ""
     /\ (if truthy_opt (credentials request)
         then credentials request = Some api_token
         else token request = Some api_token)) ->
  exists e evs,
    run E (verify_token api_token request) w
    = (Raise e, mk_world (self w) (heap w) (now w) (trace w ++ evs)%list)
    /\ Forall log_event evs.
Proof.
  intros Hno. unfold verify_token.
  assert (Hw : w = mk_world (self w) (heap w) (now w) (trace w ++ [])%list)
    by (rewrite app_nil_r; destruct w; reflexivity).
  destruct (truthy_opt (credentials request)) eqn:Hc.
  - rewrite Hc. apply truthy_opt_true in Hc. destruct Hc as [c [Hc Hne]].
    rewrite Hc in *. simpl.
    destruct (String.eqb c api_token) eqn:Heq.
    + apply String.eqb_eq in Heq. subst c. exfalso. apply Hno.
      split; [exact Hne | reflexivity].
    + simpl. destruct (client_host request); simpl.
      * exists (HTTPException 401), [EvLog WARNING "Ungueltiger Login-Versuch"].
        split; [reflexivity | repeat constructor].
      * exists AttributeError, []. split; [rewrite <- Hw; reflexivity | constructor].
  - destruct (truthy_opt (token request)) eqn:Ht.
    + rewrite Ht. apply truthy_opt_true in Ht. destruct Ht as [c [Ht Hne]].
      rewrite Ht in *. simpl.
      destruct (String.eqb c api_token) eqn:Heq.
      * apply String.eqb_eq in Heq. subst c. exfalso. apply Hno.
        split; [exact Hne | reflexivity].
      * simpl. destruct (client_host request); simpl.
        -- exists (HTTPException 401), [EvLog WARNING "Ungueltiger Login-Versuch"].
           split; [reflexivity | repeat constructor].
        -- exists AttributeError, []. split; [rewrite <- Hw; reflexivity | constructor].
    + simpl. exists (HTTPException 401), [].
      split; [rewrite <- Hw; reflexivity | constructor].
Qed.

(** X7. A request that [verify_token] does not accept never reaches the
    body of a protected route: the live read, the history query and the
    toggle all end in the exception of the dependency, the service
    object, the heap and the clock are untouched, and nothing but log
    lines is added to the trace, so no HTTP request is sent and nothing
    is published. *)
Theorem rejected_request_reaches_nothing
  (E : env) (settings : Settings) (api_token : string)
  (request : api_request) (range : string) (state : bool) (w : world) :
  ~ (api_token <> ""
     /\ (if truthy_opt (credentials request)
         then credentials request = Some api_token
         else token request = Some api_token)) ->
  exists e evs,
    Forall log_event evs
    /\ run E (route_live api_token request) w
       = (Raise e, mk_world (self w) (heap w) (now w) (trace w ++ evs)%list)
    /\ run E (route_history settings api_token request range) w
       = (Raise e, mk_world (self w) (heap w) (now w) (trace w ++ evs)%list)
    /\ run E (route_toggle_load settings api_token request state) w
       = (Raise e, mk_world (self w) (heap w) (now w) (trace w ++ evs)%list).
Proof.
  intros Hno.
  destruct (verify_token_rejected E api_token request w Hno) as [e [evs [Hrun Hevs]]].
  exists e, evs. split; [exact Hevs |].
  unfold route_live, route_history, route_toggle_load, depends_verify_token.
  rewrite !run_bind, Hrun. repeat split.
Qed.

Lemma rejected_request_reaches_nothing_witness :
  let E := surroundings healthy_store None in
  let w := connected_world E configured_settings in
  exists e evs,
    Forall log_event evs
    /\ run E (route_live api_secret (bearer_request "guess")) w
       = (Raise e, mk_world (self w) (heap w) (now w) (trace w ++ evs)%list)
    /\ run E (route_history configured_settings api_secret
                            (bearer_request "guess") "-1h") w
       = (Raise e, mk_world (self w) (heap w) (now w) (trace w ++ evs)%list)
    /\ run E (route_toggle_load configured_settings api_secret
                                (bearer_request "guess") true) w
       = (Raise e, mk_world (self w) (heap w) (now w) (trace w ++ evs)%list).
Proof.
  apply (rejected_request_reaches_nothing
           (surroundings healthy_store None) configured_settings api_secret
           (bearer_request "guess") "-1h" true).
  simpl. intros [_ H]. discriminate H.
Defined.

(** X8. For a request that [verify_token] accepts, each protected route
    does exactly what its body does: the dependency adds nothing, not
    even a log line. *)
Theorem accepted_request_runs_the_body
  (E : env) (settings : Settings) (api_token : string)
  (request : api_request) (range : string) (state : bool) (w : world) :
  api_token <> "" ->
  (if truthy_opt (credentials request)
   then credentials request = Some api_token
   else token request = Some api_token) ->
  run E (route_live api_token request) w = run E get_live_data w
  /\ run E (route_history settings api_token request range) w
     = run E (get_history settings range) w
  /\ run E (route_toggle_load settings api_token request state) w
     = run E (toggle_load settings state) w.
Proof.
  intros Hne Hsrc.
  pose proof (verify_token_accepted E api_token request w Hne Hsrc) as Hrun.
  unfold route_live, route_history, route_toggle_load, depends_verify_token.
  rewrite !run_bind, Hrun. repeat split.
Qed.

Lemma accepted_request_runs_the_body_witness :
  let E := surroundings healthy_store None in
  let w := connected_world E configured_settings in
  run E (route_live api_secret (query_request api_secret)) w
    = run E get_live_data w
  /\ run E (route_history configured_settings api_secret
                          (query_request api_secret) "-1h") w
     = run E (get_history configured_settings "-1h") w
  /\ run E (route_toggle_load configured_settings api_secret
                              (query_request api_secret) true) w
     = run E (toggle_load configured_settings true) w.
Proof.
  apply (accepted_request_runs_the_body
           (surroundings healthy_store None) configured_settings api_secret
           (query_request api_secret) "-1h" true).
  - discriminate.
  - reflexivity.
Defined.

(* ================================================================= *)
(** ** The health endpoint *)

(** [health_check] in any state of the service. *)
Lemma health_check_run (E : env) (server_start_time : Z) (w : world) :
  let utcnow := now w + Z.of_N (clock_lag E (now w)) in
  run E (health_check server_start_time) w
  = (Ok (mk_health "healthy"
           match cl_state (client (self w)) with
           | mqtt_cs_connected => true
           | _ => false
           end
           (option_map isoformat_any (last_received (self w)))
           (Z.quot (utcnow - server_start_time) us_per_second)),
     advance (Z.of_N (clock_lag E (now w))) w).
Proof.
  unfold health_check. simpl.
  destruct (last_received (self w)) as [t |] eqn:Ht; simpl.
  - rewrite Ht. reflexivity.
  - reflexivity.
Qed.

(** X9. After the handler has stored a payload, [health_check] still
    answers, where the live read ends in [TypeError]: it reports the
    receipt timestamp of that message in ISO format, the client as
    connected exactly in the state "connected", and an uptime that is
    not negative when the server started before the message was
    handled. *)
Theorem health_check_answers_after_message
  (E : env) (settings : Settings) (server_start_time : Z) (raw : string)
  (kvs : list (string * json)) (w : world) :
  json_loads E raw = Ok (JDict kvs) ->
  server_start_time <= now w ->
  let w1 := snd (run E (_on_message settings raw) w) in
  let received := mk_datetime (now w + Z.of_N (clock_lag E (now w))) None in
  exists resp,
    fst (run E (health_check server_start_time) w1) = Ok resp
    /\ status resp = "healthy"
    /\ last_data_received resp = Some (isoformat received)
    /\ mqtt_connected resp
       = match cl_state (client (self w)) with
         | mqtt_cs_connected => true
         | _ => false
         end
    /\ 0 <= uptime_seconds resp
    /\ fst (run E get_live_data w1) = Raise TypeError.
Proof.
  intros Hv Hstart w1 received.
  destruct (on_message_object E settings raw kvs w Hv) as [tail [Hw _]].
  fold w1 in Hw. eexists. rewrite health_check_run. split; [reflexivity |].
  rewrite Hw. simpl. split; [reflexivity |]. split; [reflexivity |].
  split; [reflexivity |]. split.
  - apply Z.quot_pos; [| unfold us_per_second; lia]. lia.
  - reflexivity.
Qed.

Lemma health_check_answers_after_message_witness :
  let E := surroundings healthy_store None in
  let w1 := snd (run E (_on_message configured_settings
                          (dq "{'device_id':'esp32-1','battery':{'soc':87}}"))
                     fresh_world) in
  let received :=
    mk_datetime (now fresh_world + Z.of_N (clock_lag E (now fresh_world))) None in
  exists resp,
    fst (run E (health_check (noon - 90 * us_per_second)) w1) = Ok resp
    /\ status resp = "healthy"
    /\ last_data_received resp = Some (isoformat received)
    /\ mqtt_connected resp
       = match cl_state (client (self fresh_world)) with
         | mqtt_cs_connected => true
         | _ => false
         end
    /\ 0 <= uptime_seconds resp
    /\ fst (run E get_live_data w1) = Raise TypeError.
Proof.
  apply (health_check_answers_after_message
           (surroundings healthy_store None) configured_settings
           (noon - 90 * us_per_second)
           (dq "{'device_id':'esp32-1','battery':{'soc':87}}")
           [("device_id", JStr "esp32-1"); ("battery", JDict [("soc", JInt 87)])]
           fresh_world).
  - reflexivity.
  - vm_compute. discriminate.
Defined.

(* ================================================================= *)
(** ** The store write, all cases *)

Lemma write_to_supabase_run
  (E : env) (settings : Settings) (data : loc) (d : list (string * json))
  (w : world) :
  store_unconfigured settings = false ->
  nth data (heap w) JNull = JDict d ->
  run E (_write_to_supabase settings data) w =
  if groups_are_objects d then
    if negb (json_compliant (JDict (flat_row d))) || http_closed (self w) then
      (Ok tt, emit (EvLog ERROR "Supabase-Schreibfehler") w)
    else
      (Ok tt, emit (write_log (store E (insert_request settings (flat_row d))))
                (emit (EvHttp (insert_request settings (flat_row d))) w))
  else (Raise AttributeError, w).
Proof.
  intros Hs Hd. unfold _write_to_supabase. rewrite Hs. simpl. rewrite Hd.
  unfold groups_are_objects, flat_row, insert_request, group_of, column.
  cbn [py_get bind lift].
  destruct (assoc "pv" d) as [[] |]; try reflexivity;
  destruct (assoc "battery" d) as [[] |]; try reflexivity;
  destruct (assoc "load" d) as [[] |]; try reflexivity;
  destruct (assoc "energy" d) as [[] |]; try reflexivity;
  simpl; unfold request_encodable, column; simpl;
  match goal with
  | |- context [json_compliant ?row] => destruct (json_compliant row)
  end; simpl; try reflexivity;
  (destruct (http_closed (self w)); [reflexivity |]);
  match goal with
  | |- _ = (_, emit (write_log (store E ?rq2)) _) =>
      match goal with
      | |- context [store E ?rq1] =>
          change rq1 with rq2; destruct (store E rq2) as [[st body] | e]
      end
  end; simpl; try reflexivity;
  destruct ((st =? 200) || (st =? 201)); reflexivity.
Qed.

(** X10. With the store configured, a write of a payload object either
    fails before anything is sent or sends exactly one request. It raises
    [AttributeError], with no request and no log line, exactly when one of
    the groups [pv], [battery], [load], [energy] is present and not an
    object (a [null] group included; an absent group is fine). Otherwise
    it returns normally whatever happens: when the seventeen columns can
    be serialised and the HTTP client is open it posts them once and logs
    the outcome; when a column holds a float that is not finite (or an
    integer too long to be printed), or when the HTTP client is already
    closed, nothing is sent and only an error is logged. It never changes
    the service object, the heap or the clock. *)
Theorem write_to_supabase_outcomes
  (E : env) (settings : Settings) (data : loc) (d : list (string * json))
  (w : world) :
  store_unconfigured settings = false ->
  nth data (heap w) JNull = JDict d ->
  let (r, w') := run E (_write_to_supabase settings data) w in
  self w' = self w /\ heap w' = heap w /\ now w' = now w
  /\ (groups_are_objects d = false ->
      r = Raise AttributeError /\ trace w' = trace w)
  /\ (groups_are_objects d = true ->
      r = Ok tt
      /\ trace w' =
         if json_compliant (JDict (flat_row d)) && negb (http_closed (self w))
         then
           (trace w ++ [EvHttp (insert_request settings (flat_row d));
                        write_log (store E (insert_request settings
                                                           (flat_row d)))])%list
         else
           (trace w ++ [EvLog ERROR "Supabase-Schreibfehler"])%list).
Proof.
  intros Hs Hd. rewrite (write_to_supabase_run E settings data d w Hs Hd).
  destruct (groups_are_objects d).
  - destruct (json_compliant (JDict (flat_row d))),
             (http_closed (self w)); simpl;
      (split; [reflexivity |]; split; [reflexivity |]; split; [reflexivity |];
       split; [discriminate |]; intros _; split; [reflexivity |]);
      rewrite <- ?app_assoc; reflexivity.
  - simpl. repeat split; try reflexivity; discriminate.
Qed.

Lemma write_to_supabase_outcomes_witness :
  let E := surroundings healthy_store None in
  let d := [("device_id", JStr "esp32-1");
            ("pv", JDict [("voltage", JFloat 1 400)])] in
  let w := mk_world __init__ [JDict d] noon [] in
  let (r, w') := run E (_write_to_supabase configured_settings 0%nat) w in
  self w' = self w /\ heap w' = heap w /\ now w' = now w
  /\ (groups_are_objects d = false ->
      r = Raise AttributeError /\ trace w' = trace w)
  /\ (groups_are_objects d = true ->
      r = Ok tt
      /\ trace w' =
         if json_compliant (JDict (flat_row d)) && negb (http_closed (self w))
         then
           (trace w ++ [EvHttp (insert_request configured_settings (flat_row d));
                        write_log (store E (insert_request configured_settings
                                                           (flat_row d)))])%list
         else
           (trace w ++ [EvLog ERROR "Supabase-Schreibfehler"])%list).
Proof.
  apply (write_to_supabase_outcomes
           (surroundings healthy_store None) configured_settings 0%nat
           [("device_id", JStr "esp32-1");
            ("pv", JDict [("voltage", JFloat 1 400)])]
           (mk_world __init__
              [JDict [("device_id", JStr "esp32-1");
                      ("pv", JDict [("voltage", JFloat 1 400)])]]
              noon [])).
  - reflexivity.
  - reflexivity.
Defined.

(** The payload [{"pv": {"voltage": 1e400}}]: the voltage is read as an
    infinity, the row cannot be serialised, and the write only logs. *)
Example write_of_infinite_voltage :
  let E := surroundings healthy_store None in
  let raw := dq "{'pv': {'voltage': 1e400}}" in
  reader raw = Ok (JDict [("pv", JDict [("voltage", JFloat 1 400)])])
  /\ float_overflows 1 400 = true
  /\ trace (snd (run E (_on_message configured_settings raw) fresh_world))
     = [EvLog INFO "Daten empfangen von Device";
        EvSetLastData 0%nat;
        EvSetLastReceived (mk_datetime (noon + 1000) None);
        EvLog ERROR "Supabase-Schreibfehler"].
Proof. vm_compute. repeat split. Qed.

(** How [project_row] sees a stored row that carries the written
    columns and a creation time. *)
Lemma project_written_row
  (d stored : list (string * json)) (created_at : json) :
  (forall k v, In (k, v) (flat_row d) -> assoc k stored = Some v) ->
  assoc "created_at" stored = Some created_at ->
  project_row (JDict stored)
  = Ok (JDict [("time", created_at);
               ("pv_voltage", member (group_of d "pv") "voltage");
               ("pv_current", member (group_of d "pv") "current");
               ("pv_power", member (group_of d "pv") "power");
               ("batt_voltage", member (group_of d "battery") "voltage");
               ("batt_charge_current",
                member (group_of d "battery") "charge_current");
               ("batt_soc", member (group_of d "battery") "soc");
               ("load_power", member (group_of d "load") "power");
               ("energy_today", member (group_of d "energy") "today_kwh")]).
Proof.
  intros Hrow Hcreated. unfold project_row. simpl. rewrite Hcreated.
  repeat match goal with
         | |- context [assoc ?k stored] =>
             rewrite (Hrow k _ ltac:(unfold flat_row; simpl; tauto))
         end.
  reflexivity.
Qed.

(** X11. The history query reads back what the store write wrote. The
    write of a payload object with well-formed groups builds one row,
    which it posts when the row can be serialised (and otherwise only logs
    an error); when a stored row carries the columns of that row, with
    their values, and a creation time, the record that [query_history]
    makes of it has that creation time as [time] and, for each of its
    eight other fields, the value of the payload member it comes from:
    [pv.voltage], [pv.current], [pv.power], [battery.voltage],
    [battery.charge_current], [battery.soc], [load.power] and
    [energy.today_kwh]. *)
Theorem history_reads_back_the_write
  (E : env) (settings : Settings) (data : loc) (d : list (string * json))
  (w : world) :
  store_unconfigured settings = false ->
  http_closed (self w) = false ->
  nth data (heap w) JNull = JDict d ->
  groups_are_objects d = true ->
  exists rq row,
    rq_json rq = Some (JDict row)
    /\ (json_compliant (JDict row) = true ->
        exists logged,
          trace (snd (run E (_write_to_supabase settings data) w))
          = (trace w ++ [EvHttp rq; logged])%list)
    /\ (json_compliant (JDict row) = false ->
        trace (snd (run E (_write_to_supabase settings data) w))
        = (trace w ++ [EvLog ERROR "Supabase-Schreibfehler"])%list)
    /\ forall stored created_at,
         (forall k v, In (k, v) row -> assoc k stored = Some v) ->
         assoc "created_at" stored = Some created_at ->
         project_row (JDict stored)
         = Ok (JDict
                 [("time", created_at);
                  ("pv_voltage", member (group_of d "pv") "voltage");
                  ("pv_current", member (group_of d "pv") "current");
                  ("pv_power", member (group_of d "pv") "power");
                  ("batt_voltage", member (group_of d "battery") "voltage");
                  ("batt_charge_current",
                   member (group_of d "battery") "charge_current");
                  ("batt_soc", member (group_of d "battery") "soc");
                  ("load_power", member (group_of d "load") "power");
                  ("energy_today", member (group_of d "energy") "today_kwh")]).
Proof.
  intros Hs Hopen Hd Hg.
  rewrite (write_to_supabase_run E settings data d w Hs Hd), Hg, Hopen.
  exists (insert_request settings (flat_row d)), (flat_row d).
  split; [reflexivity |]. split; [| split].
  - intros Hc. rewrite Hc.
    exists (write_log (store E (insert_request settings (flat_row d)))).
    simpl. rewrite <- app_assoc. reflexivity.
  - intros Hc. rewrite Hc. reflexivity.
  - intros stored created_at. apply project_written_row.
Qed.

Lemma history_reads_back_the_write_witness :
  let E := surroundings healthy_store None in
  let d := [("device_id", JStr "esp32-1");
            ("pv", JDict [("voltage", JFloat 182 (-1)); ("power", JInt 40)]);
            ("battery", JDict [("soc", JInt 87)])] in
  let w := mk_world __init__ [JDict d] noon [] in
  exists rq row,
    rq_json rq = Some (JDict row)
    /\ (json_compliant (JDict row) = true ->
        exists logged,
          trace (snd (run E (_write_to_supabase configured_settings 0%nat) w))
          = (trace w ++ [EvHttp rq; logged])%list)
    /\ (json_compliant (JDict row) = false ->
        trace (snd (run E (_write_to_supabase configured_settings 0%nat) w))
        = (trace w ++ [EvLog ERROR "Supabase-Schreibfehler"])%list)
    /\ forall stored created_at,
         (forall k v, In (k, v) row -> assoc k stored = Some v) ->
         assoc "created_at" stored = Some created_at ->
         project_row (JDict stored)
         = Ok (JDict
                 [("time", created_at);
                  ("pv_voltage", member (group_of d "pv") "voltage");
                  ("pv_current", member (group_of d "pv") "current");
                  ("pv_power", member (group_of d "pv") "power");
                  ("batt_voltage", member (group_of d "battery") "voltage");
                  ("batt_charge_current",
                   member (group_of d "battery") "charge_current");
                  ("batt_soc", member (group_of d "battery") "soc");
                  ("load_power", member (group_of d "load") "power");
                  ("energy_today", member (group_of d "energy") "today_kwh")]).
Proof.
  apply (history_reads_back_the_write
           (surroundings healthy_store None) configured_settings 0%nat
           [("device_id", JStr "esp32-1");
            ("pv", JDict [("voltage", JFloat 182 (-1)); ("power", JInt 40)]);
            ("battery", JDict [("soc", JInt 87)])]
           (mk_world __init__
              [JDict [("device_id", JStr "esp32-1");
                      ("pv", JDict [("voltage", JFloat 182 (-1)); ("power", JInt 40)]);
                      ("battery", JDict [("soc", JInt 87)])]]
              noon [])).
  - reflexivity.
  - reflexivity.
  - reflexivity.
  - reflexivity.
Defined.

(* ================================================================= *)
(** ** Messages one after the other *)

(** The world after a message that does not decode to an object. *)
Lemma on_message_world_not_object
  (E : env) (settings : Settings) (raw : string) (w : world) :
  not_object E raw ->
  exists msg,
    snd (run E (_on_message settings raw) w)
    = mk_world (self w) (heap w ++ allocated E raw)%list (now w)
               (trace w ++ [EvLog ERROR msg])%list.
Proof.
  intros H. unfold not_object in H. unfold _on_message, allocated. simpl.
  destruct (json_loads E raw) as [v | e] eqn:Hv.
  - simpl. rewrite nth_alloc.
    destruct v; try (exfalso; eapply H; reflexivity); simpl;
      eexists; reflexivity.
  - rewrite app_nil_r. destruct e; simpl; eexists; reflexivity.
Qed.

Lemma object_or_not (E : env) (raw : string) :
  (exists kvs, json_loads E raw = Ok (JDict kvs)) \/ not_object E raw.
Proof.
  unfold not_object. destruct (json_loads E raw) as [[] | e];
    try (right; intros kvs; discriminate).
  left. eexists. reflexivity.
Qed.

(** One message: the pair stays well formed, the clock does not go back,
    a stored payload is never removed again and the receipt timestamp
    does not decrease. *)
Lemma on_message_keeps_live_pair
  (E : env) (settings : Settings) (raw : string) (w : world) :
  live_pair_ok w ->
  let w' := snd (run E (_on_message settings raw) w) in
  live_pair_ok w'
  /\ now w <= now w'
  /\ (last_data (self w) <> None -> last_data (self w') <> None)
  /\ (forall t t', last_received (self w) = Some t ->
                   last_received (self w') = Some t' -> dt_us t <= dt_us t').
Proof.
  intros Hok w'. subst w'.
  destruct (object_or_not E raw) as [[kvs Hv] | Hno].
  - destruct (on_message_object E settings raw kvs w Hv) as [tail [Hw _]].
    rewrite Hw. unfold live_pair_ok. simpl.
    split; [| split; [lia | split; [discriminate |]]].
    + rewrite nth_alloc, length_app. simpl.
      repeat split; try reflexivity; lia.
    + intros t t' Ht Ht'. inversion Ht'; subst. simpl.
      unfold live_pair_ok in Hok. rewrite Ht in Hok.
      destruct (last_data (self w)); [| contradiction].
      destruct Hok as [_ [_ [_ Hle]]]. lia.
  - destruct (on_message_world_not_object E settings raw w Hno) as [msg Hw].
    rewrite Hw. unfold live_pair_ok in *. simpl.
    split; [| split; [lia | split; [trivial |]]].
    + destruct (last_data (self w)) as [r |], (last_received (self w)) as [t |];
        try exact Hok.
      destruct Hok as [Hr [Hdict [Hoff Hle]]].
      rewrite length_app, app_nth1 by exact Hr.
      repeat split; try assumption; lia.
    + intros t t' Ht Ht'. rewrite Ht in Ht'. inversion Ht'; subst. lia.
Qed.

(** X12. Handled one after the other, messages keep the live pair well
    formed: from a state where [last_data] and [last_received] are both
    unset, or are a reference to a stored object and a naive timestamp
    not ahead of the clock, every sequence of payloads, decodable or not,
    leads to such a state again; the clock never goes back, a stored
    payload is never unset again and the receipt timestamp never
    decreases. *)
Theorem deliver_keeps_live_pair
  (E : env) (settings : Settings) (raws : list string) (w : world) :
  live_pair_ok w ->
  let w' := deliver E settings raws w in
  live_pair_ok w'
  /\ now w <= now w'
  /\ (last_data (self w) <> None -> last_data (self w') <> None)
  /\ (forall t t', last_received (self w) = Some t ->
                   last_received (self w') = Some t' -> dt_us t <= dt_us t').
Proof.
  revert w. induction raws as [| raw rest IH]; intros w Hok; simpl.
  - split; [exact Hok |]. split; [lia |]. split; [trivial |].
    intros t t' Ht Ht'. rewrite Ht in Ht'. inversion Ht'; subst. lia.
  - destruct (on_message_keeps_live_pair E settings raw w Hok)
      as [Hok1 [Hnow1 [Hdata1 Htime1]]].
    destruct (IH _ Hok1) as [Hok2 [Hnow2 [Hdata2 Htime2]]].
    split; [exact Hok2 |].
    split; [eapply Z.le_trans; [exact Hnow1 | exact Hnow2] |].
    split; [intros H; apply Hdata2, Hdata1, H |].
    intros t t' Ht Ht'.
    destruct (last_received
                (self (snd (run E (_on_message settings raw) w)))) as [t1 |] eqn:H1.
    + specialize (Htime1 t t1 Ht eq_refl).
      specialize (Htime2 t1 t' eq_refl Ht'). lia.
    + unfold live_pair_ok in Hok, Hok1. rewrite Ht in Hok. rewrite H1 in Hok1.
      destruct (last_data (self w)) eqn:Hd; [| contradiction].
      assert (Hd1 : last_data (self (snd (run E (_on_message settings raw) w)))
                    <> None) by (apply Hdata1; discriminate).
      destruct (last_data (self (snd (run E (_on_message settings raw) w))));
        [contradiction | congruence].
Qed.

Lemma deliver_keeps_live_pair_witness :
  let E := surroundings unreachable_store None in
  let w' := deliver E configured_settings
              [dq "{'pv'"; dq "{'pv': {'power': 40}}"; "[1]"; dq "{'pv': 5}"]
              fresh_world in
  live_pair_ok w'
  /\ now fresh_world <= now w'
  /\ (last_data (self fresh_world) <> None -> last_data (self w') <> None)
  /\ (forall t t', last_received (self fresh_world) = Some t ->
                   last_received (self w') = Some t' -> dt_us t <= dt_us t').
Proof.
  apply (deliver_keeps_live_pair (surroundings unreachable_store None)
           configured_settings
           [dq "{'pv'"; dq "{'pv': {'power': 40}}"; "[1]"; dq "{'pv': 5}"]
           fresh_world).
  exact I.
Defined.

Lemma deliver_app (E : env) (settings : Settings) (xs ys : list string)
  (w : world) :
  deliver E settings (xs ++ ys)%list w
  = deliver E settings ys (deliver E settings xs w).
Proof.
  revert w. induction xs as [| x rest IH]; intros w; simpl;
    [reflexivity | apply IH].
Qed.

(** Messages that do not decode to an object leave the service object
    and every stored object as they are. *)
Lemma deliver_not_objects
  (E : env) (settings : Settings) (raws : list string) (w : world) :
  Forall (not_object E) raws ->
  self (deliver E settings raws w) = self w
  /\ forall r, (r < List.length (heap w))%nat ->
               nth r (heap (deliver E settings raws w)) JNull
               = nth r (heap w) JNull.
Proof.
  revert w. induction raws as [| raw rest IH]; intros w Hall; cbn [deliver].
  - split; [reflexivity | intros; reflexivity].
  - inversion Hall as [| x l Hraw Hrest]; subst.
    destruct (on_message_world_not_object E settings raw w Hraw) as [msg Hw].
    destruct (IH (snd (run E (_on_message settings raw) w)) Hrest) as [H1 H2].
    split.
    + rewrite H1, Hw. reflexivity.
    + intros r Hr. rewrite H2.
      * rewrite Hw. simpl. apply app_nth1. exact Hr.
      * rewrite Hw. simpl. rewrite length_app. lia.
Qed.

(** X13. The live cache holds the most recent payload that decoded to an
    object: after any sequence of messages, [last_data] refers to the
    object of the last message in the sequence that decoded to one,
    whatever undecodable payloads came after it; and a sequence without
    any such message leaves the service object untouched. *)
Theorem deliver_latest_object_wins
  (E : env) (settings : Settings) (before after : list string) (raw : string)
  (kvs : list (string * json)) (w : world) :
  json_loads E raw = Ok (JDict kvs) ->
  Forall (not_object E) after ->
  let w' := deliver E settings (before ++ raw :: after) w in
  (exists ref,
      last_data (self w') = Some ref
      /\ nth ref (heap w') JNull = JDict kvs)
  /\ self (deliver E settings after w) = self w.
Proof.
  intros Hv Hafter w'. split.
  - subst w'. rewrite deliver_app. cbn [deliver].
    set (w1 := deliver E settings before w).
    destruct (on_message_object E settings raw kvs w1 Hv) as [tail [Hw _]].
    destruct (deliver_not_objects E settings after
                (snd (run E (_on_message settings raw) w1)) Hafter) as [H1 H2].
    exists (List.length (heap w1)). split.
    + rewrite H1, Hw. reflexivity.
    + rewrite H2.
      * rewrite Hw. simpl. apply nth_alloc.
      * rewrite Hw. simpl. rewrite length_app. simpl. lia.
  - apply deliver_not_objects. exact Hafter.
Qed.

Lemma deliver_latest_object_wins_witness :
  let E := surroundings unreachable_store None in
  let w' := deliver E configured_settings
              ([dq "{'pv': {'power': 1}}"] ++ dq "{'pv': {'power': 40}}"
                 :: ["[1]"; dq "{'pv'"])%list
              fresh_world in
  (exists ref,
      last_data (self w') = Some ref
      /\ nth ref (heap w') JNull = JDict [("pv", JDict [("power", JInt 40)])])
  /\ self (deliver E configured_settings ["[1]"; dq "{'pv'"] fresh_world)
     = self fresh_world.
Proof.
  apply (deliver_latest_object_wins (surroundings unreachable_store None)
           configured_settings [dq "{'pv': {'power': 1}}"] ["[1]"; dq "{'pv'"]
           (dq "{'pv': {'power': 40}}")
           [("pv", JDict [("power", JInt 40)])] fresh_world).
  - reflexivity.
  - repeat constructor; intros kvs; vm_compute; discriminate.
Defined.

(* ================================================================= *)
(** ** The history query, further cases *)

(** X14. The first character of the range string is never looked at:
    [query_history] does the same for any two range strings that differ
    in their first character only, so ["+24h"] and ["x24h"] are the query
    ["-24h"]. *)
Theorem query_history_ignores_first_character
  (E : env) (settings : Settings) (first first' : ascii) (rest : string)
  (limit : Z) (w : world) :
  run E (query_history settings (String first rest) limit) w
  = run E (query_history settings (String first' rest) limit) w.
Proof.
  unfold query_history. destruct (store_unconfigured settings); [reflexivity |].
  destruct rest as [| c rest'].
  - reflexivity.
  - replace (index_last (String first (String c rest')))
      with (index_last (String first' (String c rest'))) by reflexivity.
    reflexivity.
Qed.

Lemma project_rows_not_object (items : list json) (r : json) :
  In r items -> is_dict r = false -> project_rows items = Raise AttributeError.
Proof.
  induction items as [| x rest IH]; intros Hin Hr; [contradiction |].
  unfold project_rows; fold project_rows.
  destruct Hin as [Heq | Hin].
  - subst x. destruct r; try discriminate; reflexivity.
  - destruct (project_row x) as [y | e] eqn:Hx.
    + rewrite (IH Hin Hr). reflexivity.
    + destruct x; simpl in Hx; inversion Hx; reflexivity.
Qed.

(** X15. A query never reports a store failure: with a readable range
    and a representable bound, [query_history] returns the empty list,
    not an exception, when the request fails, when the status is not 200,
    when the body is not JSON, and when the body is a list in which any
    single row is not an object, in which case the well-formed rows are
    dropped with it. *)
Theorem query_history_hides_store_failures
  (E : env) (settings : Settings) (range_str : string) (limit amount : Z)
  (c : ascii) (w : world) :
  store_unconfigured settings = false ->
  http_closed (self w) = false ->
  py_int (slice_1_m1 range_str) = Ok amount ->
  index_last range_str = Ok c ->
  let us := amount * (unit_us (delta_map c) * (if Ascii.eqb c "m" then 30 else 1)) in
  let utcnow := now w + Z.of_N (clock_lag E (now w)) in
  timedelta_in_range us = true ->
  datetime_in_range (utcnow - us) = true ->
  let rq := history_request settings
              (isoformat (mk_datetime (utcnow - us) None) ++ "Z") limit in
  let r := fst (run E (query_history settings range_str limit) w) in
  (forall e, store E rq = Raise e -> r = Ok [])
  /\ (forall st body, store E rq = Ok (mk_response st body) ->
                      st <> 200 -> r = Ok [])
  /\ (forall e, store E rq = Ok (mk_response 200 (Raise e)) -> r = Ok [])
  /\ (forall items row,
        store E rq = Ok (mk_response 200 (Ok (JList items))) ->
        In row items -> is_dict row = false -> r = Ok []).
Proof.
  intros Hs Hopen Hi Hc us utcnow Ht Hd rq r. subst r.
  rewrite (query_history_bound E settings range_str limit amount c w Hs Hi Hc Ht Hd).
  fold us utcnow rq. unfold py_str.
  destruct (printable limit); [| repeat split].
  simpl. rewrite Hopen.
  split; [| split; [| split]].
  - intros e H. rewrite H. reflexivity.
  - intros st body H Hst. rewrite H. simpl.
    apply Z.eqb_neq in Hst. rewrite Hst. reflexivity.
  - intros e H. rewrite H. reflexivity.
  - intros items row H Hin Hrow. rewrite H. simpl.
    rewrite (project_rows_not_object items row Hin Hrow). reflexivity.
Qed.

Lemma query_history_hides_store_failures_witness :
  let E := surroundings unreachable_store None in
  let rq := history_request configured_settings
              "2026-11-02T12:00:00.001000Z" 500 in
  let r := fst (run E (query_history configured_settings "-24h" 500) fresh_world) in
  (forall e, store E rq = Raise e -> r = Ok [])
  /\ (forall st body, store E rq = Ok (mk_response st body) ->
                      st <> 200 -> r = Ok [])
  /\ (forall e, store E rq = Ok (mk_response 200 (Raise e)) -> r = Ok [])
  /\ (forall items row,
        store E rq = Ok (mk_response 200 (Ok (JList items))) ->
        In row items -> is_dict row = false -> r = Ok []).
Proof.
  apply (query_history_hides_store_failures
           (surroundings unreachable_store None) configured_settings
           "-24h" 500 24 "h" fresh_world).
  - reflexivity.
  - reflexivity.
  - reflexivity.
  - reflexivity.
  - reflexivity.
  - reflexivity.
Defined.

Lemma py_int_minus_digits (s : string) :
  s <> "" -> all_digits s = true ->
  py_int (String "-" s) = if (int_max_str_digits <? String.length s)%nat
                          then Raise ValueError
                          else Ok (- digits_value s 0).
Proof.
  intros Hne H. unfold py_int. cbn [lstrip].
  change (is_space "-") with false. cbv iota.
  change (Ascii.eqb "-" "-") with true. cbv iota.
  rewrite (int_digits_all_digits _ 0 false H).
  change (count_digits (String "-" s)) with (count_digits s).
  rewrite (count_digits_all_digits _ H).
  destruct s; [congruence | reflexivity].
Qed.

(** X16. A range string whose amount carries a minus sign of its own,
    ["--" digits unit], moves the bound forward: with at most 4300 digits,
    a representable bound and a limit that [str] can print, the query asks
    for the records created at or after [now + N * unit], a time that has
    not come yet. With more than 4300 digits [int] refuses the amount: the
    call ends in [ValueError] and nothing is requested. *)
Theorem query_history_negative_amount
  (E : env) (settings : Settings) (digits : string) (unit : ascii)
  (unit_length limit : Z) (w : world) :
  store_unconfigured settings = false ->
  http_closed (self w) = false ->
  digits <> "" ->
  all_digits digits = true ->
  spec_unit_us unit = Some unit_length ->
  let N := digits_value digits 0 in
  let utcnow := now w + Z.of_N (clock_lag E (now w)) in
  let since := isoformat (mk_datetime (utcnow + N * unit_length) None) ++ "Z" in
  let (r, w') :=
    run E (query_history settings
             (String "-" (String "-" (digits ++ String unit ""))) limit) w in
  ((String.length digits <= 4300)%nat ->
   timedelta_in_range (- N * unit_length) = true ->
   datetime_in_range (utcnow + N * unit_length) = true ->
   printable limit = true ->
   exists logs,
     trace w' = (trace w ++ EvHttp (history_request settings since limit)
                   :: logs)%list
     /\ Forall log_event logs
     /\ utcnow <= utcnow + N * unit_length)
  /\ ((4300 < String.length digits)%nat -> r = Raise ValueError /\ w' = w).
Proof.
  intros Hs Hopen Hne Hdig Hunit N utcnow since.
  destruct (slice_range "-" (String "-" digits) unit) as [Hslice Hlast].
  pose proof (unit_us_code_vs_spec unit) as Hspan. rewrite Hunit in Hspan.
  pose proof (py_int_minus_digits digits Hne Hdig) as Hamount.
  rewrite <- Hslice in Hamount at 1. fold N in Hamount.
  assert (Hpos : 0 <= N * unit_length).
  { apply Z.mul_nonneg_nonneg.
    - apply digits_value_nonneg; [exact Hdig | lia].
    - unfold spec_unit_us in Hunit.
      repeat match type of Hunit with
             | (if ?b then _ else _) = _ => destruct b
             end; inversion Hunit; subst; vm_compute; discriminate. }
  change (String "-" (String "-" (digits ++ String unit "")))
    with (String "-" (String "-" digits ++ String unit "")).
  destruct (int_max_str_digits <? String.length digits)%nat eqn:Hlen.
  - apply Nat.ltb_lt in Hlen. unfold int_max_str_digits in Hlen.
    assert (Hrun : run E (query_history settings
                            (String "-" (String "-" digits ++ String unit ""))
                            limit) w
                   = (Raise ValueError, w)).
    { unfold query_history. rewrite Hs, Hamount. reflexivity. }
    rewrite Hrun. split; [intros H; lia | intros _; split; reflexivity].
  - apply Nat.ltb_ge in Hlen. unfold int_max_str_digits in Hlen.
    pose proof (fun Hprint =>
                  query_history_configured E settings
                    (String "-" (String "-" digits ++ String unit "")) limit
                    (- N) unit w Hs Hopen Hprint Hamount Hlast) as H.
    cbv zeta in H. rewrite Hspan in H.
    replace (now w + Z.of_N (clock_lag E (now w)) - - N * unit_length)
      with (utcnow + N * unit_length) in H by (unfold utcnow; lia).
    destruct (run E (query_history settings
                       (String "-" (String "-" digits ++ String unit "")) limit) w)
      as [r w1].
    split; [| intros Hlong; lia].
    intros _ Hdelta Hbound Hprint.
    destruct (H Hprint Hdelta Hbound) as [[items [logs [_ [_ [Htrace Hlogs]]]]] _].
    exists logs. split; [exact Htrace |]. split; [exact Hlogs | lia].
Qed.

Lemma query_history_negative_amount_witness :
  let E := surroundings healthy_store None in
  let (r, w') :=
    run E (query_history configured_settings "--5h" 500) fresh_world in
  ((String.length "5" <= 4300)%nat ->
   timedelta_in_range (- 5 * us_per_hour) = true ->
   datetime_in_range (noon + 1000 + 5 * us_per_hour) = true ->
   printable 500 = true ->
   exists logs,
     trace w' = (trace fresh_world
                   ++ EvHttp (history_request configured_settings
                                "2026-11-03T17:00:00.001000Z" 500) :: logs)%list
     /\ Forall log_event logs
     /\ noon + 1000 <= noon + 1000 + 5 * us_per_hour)
  /\ ((4300 < String.length "5")%nat -> r = Raise ValueError /\ w' = fresh_world).
Proof.
  apply (query_history_negative_amount
           (surroundings healthy_store None) configured_settings
           "5" "h" us_per_hour 500 fresh_world).
  - reflexivity.
  - reflexivity.
  - discriminate.
  - reflexivity.
  - reflexivity.
Defined.

(* ================================================================= *)
(** ** After [stop], and around [start] *)

(** With the HTTP client closed, a program of local actions adds only
    log lines and live assignments to the trace, and leaves the client and
    the HTTP client as they are. *)
Lemma local_actions_when_closed {A} (E : env) (p : prog A) (w : world) :
  http_closed (self w) = true ->
  prog_forall local_action p ->
  exists evs,
    trace (snd (run E p w)) = (trace w ++ evs)%list
    /\ Forall local_event evs
    /\ http_closed (self (snd (run E p w))) = true
    /\ client (self (snd (run E p w))) = client (self w).
Proof.
  revert w. induction p as [r | X a k IH]; intros w Hclosed Hp.
  - exists []. simpl. rewrite app_nil_r. repeat split; [constructor | exact Hclosed].
  - destruct Hp as [Ha Hk]. simpl.
    assert (Hstep :
      exists evs,
        trace (snd (step E a w)) = (trace w ++ evs)%list
        /\ Forall local_event evs
        /\ http_closed (self (snd (step E a w))) = true
        /\ client (self (snd (step E a w))) = client (self w)).
    { destruct a; simpl in Ha; try contradiction; simpl;
        try (exists []; rewrite app_nil_r;
             repeat split; [constructor | exact Hclosed]);
        try (eexists; repeat split; [repeat constructor | exact Hclosed]).
      - destruct (json_loads E raw); simpl;
          (exists []; rewrite app_nil_r;
           repeat split; [constructor | exact Hclosed]).
      - rewrite Hclosed. destruct (request_encodable rq); simpl;
          (exists []; rewrite app_nil_r;
           repeat split; [constructor | exact Hclosed]). }
    destruct (step_returns E a w (local_action_returning _ a Ha)) as [r0 Hr0].
    destruct (step E a w) as [[r |] w1]; simpl in Hstep, Hr0; [| discriminate].
    destruct Hstep as [evs1 [Ht1 [He1 [Hc1 Hcl1]]]].
    destruct (IH r w1 Hc1 (Hk r)) as [evs2 [Ht2 [He2 [Hc2 Hcl2]]]].
    exists (evs1 ++ evs2)%list. split; [| split; [| split]].
    + rewrite Ht2, Ht1, app_assoc. reflexivity.
    + apply Forall_app. split; assumption.
    + exact Hc2.
    + congruence.
Qed.

(** X17. After a [stop] that has returned, nothing leaves the process
    any more. A message that still arrives and a history query add only
    log lines and live assignments to the trace: no HTTP request is sent.
    A command is refused at once: [publish_command] returns [False] and
    [toggle_load] answers 502, both after a single warning. *)
Theorem after_stop_nothing_leaves
  (E : env) (settings : Settings) (raw range_str command_json : string)
  (limit : Z) (state : bool) (w : world) :
  fst (run E stop w) = Ok tt ->
  let stopped := snd (run E stop w) in
  (exists evs,
      trace (snd (run E (_on_message settings raw) stopped))
      = (trace stopped ++ evs)%list
      /\ Forall local_event evs)
  /\ (exists evs,
        trace (snd (run E (query_history settings range_str limit) stopped))
        = (trace stopped ++ evs)%list
        /\ Forall local_event evs)
  /\ run E (publish_command settings command_json) stopped
     = (Ok false, emit (EvLog WARNING "MQTT nicht verbunden") stopped)
  /\ run E (toggle_load settings state) stopped
     = (Raise (HTTPException 502),
        emit (EvLog WARNING "MQTT nicht verbunden") stopped).
Proof.
  intros Hret stopped.
  destruct (run_stop E w) as [[_ Hblocked] | [_ [_ Hself]]];
    [rewrite Hblocked in Hret; discriminate |].
  fold stopped in Hself.
  assert (Hclosed : http_closed (self stopped) = true) by (rewrite Hself; reflexivity).
  assert (Hstate : cl_state (client (self stopped)) = mqtt_cs_disconnecting)
    by (rewrite Hself; reflexivity).
  split; [| split; [| split]].
  - destruct (local_actions_when_closed E (_on_message settings raw) stopped
                Hclosed (on_message_local settings raw)) as [evs [H1 [H2 _]]].
    exists evs. split; assumption.
  - destruct (local_actions_when_closed E
                (query_history settings range_str limit) stopped
                Hclosed (query_history_local settings range_str limit))
      as [evs [H1 [H2 _]]].
    exists evs. split; assumption.
  - rewrite publish_command_cases, Hstate. reflexivity.
  - unfold toggle_load. rewrite run_bind, publish_command_cases, Hstate.
    reflexivity.
Qed.

Lemma after_stop_nothing_leaves_witness :
  let E := surroundings healthy_store None in
  let stopped := snd (run E stop (connected_world E configured_settings)) in
  (exists evs,
      trace (snd (run E (_on_message configured_settings (dq "{'pv': {}}"))
                      stopped))
      = (trace stopped ++ evs)%list
      /\ Forall local_event evs)
  /\ (exists evs,
        trace (snd (run E (query_history configured_settings "-1h" 500) stopped))
        = (trace stopped ++ evs)%list
        /\ Forall local_event evs)
  /\ run E (publish_command configured_settings "{}") stopped
     = (Ok false, emit (EvLog WARNING "MQTT nicht verbunden") stopped)
  /\ run E (toggle_load configured_settings true) stopped
     = (Raise (HTTPException 502),
        emit (EvLog WARNING "MQTT nicht verbunden") stopped).
Proof.
  apply (after_stop_nothing_leaves
           (surroundings healthy_store None) configured_settings
           (dq "{'pv': {}}") "-1h" "{}" 500 true
           (connected_world (surroundings healthy_store None)
                            configured_settings)).
  vm_compute. reflexivity.
Defined.

(** X18. [start] never raises. Without a configured host it only logs a
    warning. With one, it leaves the client in the state "new", with a
    socket and a running loop only when the broker could be reached, and
    a command sent right after it is refused, because no CONNACK has
    arrived yet. Once the broker's CONNACK with code 0 has arrived the
    client is connected and subscribed to the data topic with QoS 1; a
    CONNACK with another code leaves it unconnected and subscribes to
    nothing. *)
Theorem start_and_connack
  (E : env) (settings : Settings) (command_json : string) (code : Z)
  (w : world) :
  let started := snd (run E (start settings) w) in
  let acked := connack E (_on_connect settings) code started in
  fst (run E (start settings) w) = Ok tt
  /\ (mqtt_host settings = "" ->
      started = emit (EvLog WARNING "MQTT_HOST nicht konfiguriert") w)
  /\ (mqtt_host settings <> "" ->
      client (self started)
      = mk_client mqtt_cs_new (broker_accepts E)
          (broker_accepts E || cl_thread (client (self w)))
          (cl_subscriptions (client (self w)))
          (cl_out_messages (client (self w)))
      /\ fst (run E (publish_command settings command_json) started) = Ok false
      /\ (code = 0 ->
          client (self acked)
          = mk_client mqtt_cs_connected (broker_accepts E)
              (broker_accepts E || cl_thread (client (self w)))
              (cl_subscriptions (client (self w))
                 ++ [(mqtt_topic_data settings, 1)])%list
              (cl_out_messages (client (self w))))
      /\ (code <> 0 ->
          client (self acked) = client (self started))).
Proof.
  intros started acked. subst acked started. unfold start, connack.
  destruct (truthy (mqtt_host settings)) eqn:Hhost; simpl.
  - assert (Hne : mqtt_host settings <> "")
      by (intros H; rewrite H in Hhost; discriminate).
    unfold client_connect.
    destruct (broker_accepts E); simpl;
      (split; [reflexivity |]; split; [intros H; congruence |]; intros _;
       split; [reflexivity |]; split; [reflexivity |]; split;
       [intros H; subst code; reflexivity |
        intros H; apply Z.eqb_neq in H; unfold _on_connect; rewrite H;
        reflexivity]).
  - apply truthy_false in Hhost.
    split; [reflexivity |]. split; [reflexivity |]. intros H. congruence.
Qed.

Lemma start_and_connack_witness :
  let E := surroundings healthy_store None in
  let started := snd (run E (start configured_settings) fresh_world) in
  let acked := connack E (_on_connect configured_settings) 0 started in
  client (self started) = mk_client mqtt_cs_new true true [] []
  /\ fst (run E (publish_command configured_settings "{}") started) = Ok false
  /\ client (self acked)
     = mk_client mqtt_cs_connected true true [("fensterkraftwerk/data", 1)] [].
Proof.
  destruct (start_and_connack (surroundings healthy_store None)
              configured_settings "{}" 0 fresh_world) as [_ [_ H]].
  destruct H as [H1 [H2 [H3 _]]]; [discriminate |].
  split; [exact H1 |]. split; [exact H2 |]. apply H3. reflexivity.
Defined.

(* ================================================================= *)
(** ** Write-through *)

(** X19. Each message that decodes to an object is written through
    when it can be. With the store configured and the HTTP client open,
    the handler caches the payload and then, when the groups of the
    payload are objects and the seventeen flattened columns can be
    serialised, sends exactly one insert of them and logs its outcome.
    When a column holds a float that is not finite (or an integer too long
    to be printed), or when a group is present and not an object, the
    payload is cached all the same, nothing is sent, and one error line
    is logged. In every case the handler returns normally. *)
Theorem on_message_writes_through
  (E : env) (settings : Settings) (raw : string) (d : list (string * json))
  (w : world) :
  store_unconfigured settings = false ->
  http_closed (self w) = false ->
  json_loads E raw = Ok (JDict d) ->
  let (r, w') := run E (_on_message settings raw) w in
  let ref := List.length (heap w) in
  let t := mk_datetime (now w + Z.of_N (clock_lag E (now w))) None in
  r = Ok tt
  /\ last_data (self w') = Some ref
  /\ nth ref (heap w') JNull = JDict d
  /\ trace w' =
     (trace w ++ [EvLog INFO "Daten empfangen von Device";
                  EvSetLastData ref; EvSetLastReceived t]
        ++ if groups_are_objects d then
             if json_compliant (JDict (flat_row d)) then
               [EvHttp (insert_request settings (flat_row d));
                write_log (store E (insert_request settings (flat_row d)))]
             else
               [EvLog ERROR "Supabase-Schreibfehler"]
           else
             [EvLog ERROR "Fehler bei Nachrichtenverarbeitung"])%list.
Proof.
  intros Hs Hopen Hv.
  unfold _on_message. simpl. rewrite Hv. simpl. rewrite nth_alloc. simpl.
  rewrite run_try_except.
  match goal with
  | |- context [run E (_write_to_supabase settings ?r) ?w4] =>
      rewrite (write_to_supabase_run E settings r d w4 Hs)
        by (simpl; apply nth_alloc)
  end.
  destruct (groups_are_objects d); simpl; rewrite ?Hopen;
    [destruct (json_compliant (JDict (flat_row d))) |]; simpl;
    (split; [reflexivity |]; split; [reflexivity |];
     split; [apply nth_alloc |]; rewrite <- !app_assoc; reflexivity).
Qed.

Lemma on_message_writes_through_witness :
  let E := surroundings healthy_store None in
  let raw := dq "{'device_id':'esp32-1','pv':{'voltage':18.2,'power':40},'battery':{'soc':87}}" in
  let d := [("device_id", JStr "esp32-1");
            ("pv", JDict [("voltage", JFloat 182 (-1)); ("power", JInt 40)]);
            ("battery", JDict [("soc", JInt 87)])] in
  let (r, w') := run E (_on_message configured_settings raw) fresh_world in
  let ref := List.length (heap fresh_world) in
  let t := mk_datetime (now fresh_world
                        + Z.of_N (clock_lag E (now fresh_world))) None in
  r = Ok tt
  /\ last_data (self w') = Some ref
  /\ nth ref (heap w') JNull = JDict d
  /\ trace w' =
     (trace fresh_world
        ++ [EvLog INFO "Daten empfangen von Device";
            EvSetLastData ref; EvSetLastReceived t]
        ++ if groups_are_objects d then
             if json_compliant (JDict (flat_row d)) then
               [EvHttp (insert_request configured_settings (flat_row d));
                write_log (store E (insert_request configured_settings
                                                   (flat_row d)))]
             else
               [EvLog ERROR "Supabase-Schreibfehler"]
           else
             [EvLog ERROR "Fehler bei Nachrichtenverarbeitung"])%list.
Proof.
  apply (on_message_writes_through
           (surroundings healthy_store None) configured_settings
           (dq "{'device_id':'esp32-1','pv':{'voltage':18.2,'power':40},'battery':{'soc':87}}")
           [("device_id", JStr "esp32-1");
            ("pv", JDict [("voltage", JFloat 182 (-1)); ("power", JInt 40)]);
            ("battery", JDict [("soc", JInt 87)])]
           fresh_world).
  - reflexivity.
  - reflexivity.
  - reflexivity.
Defined.

(* ================================================================= *)
(** ** The default configuration *)

(** X20. With nothing configured, that is with the defaults of
    [app/config.py], the backend never connects and never stores: [start]
    only logs a warning and leaves the service object as it is, a message
    is cached with a single log line of the store write and no request,
    the history is empty for every range string, every command is
    answered with 502, and the protected routes open to the token
    [changeme]. *)
Theorem default_configuration
  (E : env) (raw range_str : string) (d : list (string * json))
  (limit : Z) (state : bool) (host : option string) (w : world) :
  cl_state (client (self w)) <> mqtt_cs_connected ->
  json_loads E raw = Ok (JDict d) ->
  let started := snd (run E (start default_settings) w) in
  started = emit (EvLog WARNING "MQTT_HOST nicht konfiguriert") w
  /\ trace (snd (run E (_on_message default_settings raw) started))
     = (trace started
          ++ [EvLog INFO "Daten empfangen von Device";
              EvSetLastData (List.length (heap w));
              EvSetLastReceived
                (mk_datetime (now w + Z.of_N (clock_lag E (now w))) None);
              EvLog DEBUG "Supabase nicht konfiguriert"])%list
  /\ run E (query_history default_settings range_str limit) started
     = (Ok [], started)
  /\ fst (run E (toggle_load default_settings state) started)
     = Raise (HTTPException 502)
  /\ run E (verify_token default_api_token
              (mk_api_request host (Some "changeme") None)) started
     = (Ok "changeme", started).
Proof.
  intros Hst Hv started. subst started.
  split; [reflexivity |]. split; [| split; [reflexivity | split; [| reflexivity]]].
  - unfold _on_message. simpl. rewrite Hv. simpl. rewrite nth_alloc. simpl.
    rewrite <- !app_assoc. reflexivity.
  - unfold toggle_load. rewrite run_bind, publish_command_cases. simpl.
    destruct (cl_state (client (self w))); try reflexivity. congruence.
Qed.

Lemma default_configuration_witness :
  let E := surroundings unreachable_store None in
  let started := snd (run E (start default_settings) fresh_world) in
  started = emit (EvLog WARNING "MQTT_HOST nicht konfiguriert") fresh_world
  /\ trace (snd (run E (_on_message default_settings (dq "{'pv': {}}")) started))
     = (trace started
          ++ [EvLog INFO "Daten empfangen von Device";
              EvSetLastData (List.length (heap fresh_world));
              EvSetLastReceived
                (mk_datetime (now fresh_world
                              + Z.of_N (clock_lag E (now fresh_world))) None);
              EvLog DEBUG "Supabase nicht konfiguriert"])%list
  /\ run E (query_history default_settings "-xh" 500) started
     = (Ok [], started)
  /\ fst (run E (toggle_load default_settings true) started)
     = Raise (HTTPException 502)
  /\ run E (verify_token default_api_token
              (mk_api_request None (Some "changeme") None)) started
     = (Ok "changeme", started).
Proof.
  apply (default_configuration (surroundings unreachable_store None)
           (dq "{'pv': {}}") "-xh" [("pv", JDict [])] 500 true None fresh_world).
  - simpl. discriminate.
  - reflexivity.
Defined.

(* ================================================================= *)
(** ** The live endpoint between messages *)

Lemma deliver_live_pair_ok
  (E : env) (settings : Settings) (raws : list string) (w : world) :
  live_pair_ok w -> live_pair_ok (deliver E settings raws w).
Proof.
  revert w. induction raws as [| raw rest IH]; intros w Hok; cbn [deliver].
  - exact Hok.
  - apply IH. apply (on_message_keeps_live_pair E settings raw w Hok).
Qed.

(** X21. Between messages the live read never returns a payload. In every
    state that sequential handling of messages leads to, it answers 503
    while nothing is stored, and once a payload is stored it ends in
    [TypeError]; the only state in which it would return is a stored
    payload without a timestamp, which the handler leaves behind only
    midway. *)
Theorem live_read_never_answers_between_messages
  (E : env) (settings : Settings) (raws : list string) (w : world) :
  live_pair_ok w ->
  let w' := deliver E settings raws w in
  fst (run E get_live_data w')
  = match last_data (self w') with
    | None => Raise (HTTPException 503)
    | Some _ => Raise TypeError
    end.
Proof.
  intros Hok w'.
  pose proof (deliver_live_pair_ok E settings raws w Hok) as Hok'.
  fold w' in Hok'. unfold live_pair_ok in Hok'.
  destruct (last_data (self w')) as [r |] eqn:Hd.
  - destruct (last_received (self w')) as [t |] eqn:Hr; [| contradiction].
    destruct Hok' as [_ [_ [Hoff _]]].
    apply (get_live_data_naive E w' r t Hd Hr Hoff).
  - unfold get_live_data. simpl. rewrite Hd. reflexivity.
Qed.

Lemma live_read_never_answers_between_messages_witness :
  let E := surroundings healthy_store None in
  let w' := deliver E configured_settings
              [dq "{'pv'"; dq "{'pv': {'power': 40}}"; "[1]"] fresh_world in
  fst (run E get_live_data w')
  = match last_data (self w') with
    | None => Raise (HTTPException 503)
    | Some _ => Raise TypeError
    end.
Proof.
  apply (live_read_never_answers_between_messages
           (surroundings healthy_store None) configured_settings
           [dq "{'pv'"; dq "{'pv': {'power': 40}}"; "[1]"] fresh_world).
  exact I.
Defined.
